(** * crop-field-health: dataset inspection and model selection

    A shallow embedding of [preprocessing/inspect.py] and of the model
    selection part of [prototype.py], with the properties of their
    specification stated and proved (or refuted) against the embedding.

    Python values are modelled as the code uses them: strings as
    [string], dictionaries as association lists in insertion order (the
    order [dict.items()] and [dict.keys()] iterate in), integers as [Z],
    exceptions as a result type, module globals and the observable
    effects (file system reads, sampling, plotting) through a small
    state-and-error monad over a read-only world. *)

From Stdlib Require Import List String Ascii ZArith Arith Bool Lia.
From Stdlib Require Import DecimalString Permutation.
Import ListNotations.

Local Open Scope string_scope.
Local Open Scope list_scope.

Set Warnings "-register-all".

(* ================================================================== *)
(** * Python runtime fragment *)
(* ================================================================== *)

Module Py.

(** Exceptions, by class, carrying their message. *)
Inductive exn : Type :=
| AssertionError (msg : string)
| KeyError (msg : string)
| ValueError (msg : string)
| IndexError (msg : string)
| AttributeError (msg : string)
| FileNotFoundError (msg : string)
| JSONDecodeError (msg : string)
| TypeError (msg : string)
| OverflowError (msg : string)
| OSError (msg : string).

(** The outcome of an expression or call: a value or a raised exception. *)
Inductive res (A : Type) : Type :=
| Ok (a : A)
| Raise (e : exn).
Arguments Ok {A} a.
Arguments Raise {A} e.

Definition rbind {A B} (r : res A) (k : A -> res B) : res B :=
  match r with
  | Ok a => k a
  | Raise e => Raise e
  end.

Definition is_ok {A} (r : res A) : bool :=
  match r with Ok _ => true | Raise _ => false end.

Definition is_raise {A} (r : res A) : bool := negb (is_ok r).

(** [map f xs] over a function that may raise: the first exception wins. *)
Fixpoint rmap {A B} (f : A -> res B) (xs : list A) : res (list B) :=
  match xs with
  | [] => Ok []
  | x :: xs' =>
      rbind (f x) (fun y => rbind (rmap f xs') (fun ys => Ok (y :: ys)))
  end.

(** ** Strings *)

Definition str_of_Z (z : Z) : string := NilEmpty.string_of_int (Z.to_int z).

Definition chars := list_ascii_of_string.
Definition of_chars := string_of_list_ascii.

(** [s.startswith(p)] and [s.endswith(p)]. *)
Definition startswith (s p : string) : bool := String.prefix p s.

Definition endswith (s p : string) : bool :=
  String.prefix (of_chars (rev (chars p))) (of_chars (rev (chars s))).

(** [s.lower()] on the ASCII letters; every other byte is kept. *)
Definition lower_ascii (c : ascii) : ascii :=
  let n := nat_of_ascii c in
  if (65 <=? n)%nat && (n <=? 90)%nat then ascii_of_nat (n + 32) else c.

Fixpoint lower (s : string) : string :=
  match s with
  | EmptyString => EmptyString
  | String c s' => String (lower_ascii c) (lower s')
  end.

(** [s.find(p) != -1]: [p] occurs somewhere in [s]. *)
Fixpoint contains (s p : string) : bool :=
  String.prefix p s ||
  match s with
  | EmptyString => false
  | String _ s' => contains s' p
  end.

(** [s[n:]] for a non-negative [n]. *)
Fixpoint drop (n : nat) (s : string) : string :=
  match n, s with
  | O, _ => s
  | S n', String _ s' => drop n' s'
  | S _, EmptyString => EmptyString
  end.

(** [s[:-n]] for a positive [n]. *)
Definition drop_last (n : nat) (s : string) : string :=
  String.substring 0 (String.length s - n) s.

(** [x in xs] for a list of strings. *)
Definition str_in (x : string) (xs : list string) : bool :=
  existsb (String.eqb x) xs.

(** [os.path.join] (posixpath): an absolute component restarts the path,
    otherwise components are joined with one separator. *)
Definition join2 (a b : string) : string :=
  if startswith b "/" then b
  else if (String.eqb a "" || endswith a "/") then a ++ b
  else a ++ "/" ++ b.

Definition path_join (a : string) (ps : list string) : string :=
  fold_left join2 ps a.

(** ** Dictionaries

    A [dict] keeps its items in insertion order; keys are strings. *)
Definition dict (V : Type) := list (string * V).

Fixpoint dict_get {V} (d : dict V) (k : string) : option V :=
  match d with
  | [] => None
  | (k', v) :: d' => if String.eqb k' k then Some v else dict_get d' k
  end.

(** [d[k]], raising [KeyError] with the key's repr when absent. *)
Definition getitem {V} (d : dict V) (k : string) : res V :=
  match dict_get d k with
  | Some v => Ok v
  | None => Raise (KeyError ("'" ++ k ++ "'"))
  end.

(** [d[k] = v]: an existing key keeps its position, a new one is appended. *)
Fixpoint dict_set {V} (d : dict V) (k : string) (v : V) : dict V :=
  match d with
  | [] => [(k, v)]
  | (k', v') :: d' =>
      if String.eqb k' k then (k', v) :: d' else (k', v') :: dict_set d' k v
  end.

Definition keys {V} (d : dict V) : list string := map fst d.

(** [xs[i]] for a non-negative index. *)
Definition list_item {A} (xs : list A) (i : nat) : res A :=
  match nth_error xs i with
  | Some x => Ok x
  | None => Raise (IndexError "list index out of range")
  end.

(** ** JSON values, as [json.load] returns them *)
Inductive value : Type :=
| VNull
| VBool (b : bool)
| VNum (z : Z)
| VStr (s : string)
| VList (l : list value).

(** [v == s] for a string [s]: only an equal string compares equal. *)
Definition value_eq_str (v : value) (s : string) : bool :=
  match v with
  | VStr s' => String.eqb s' s
  | _ => false
  end.

End Py.

Import Py.

Notation "x <- c1 ;; c2" := (rbind c1 (fun x => c2))
  (at level 61, c1 at next level, right associativity).

(* ================================================================== *)
(** * preprocessing/inspect.py *)
(* ================================================================== *)

Module Inspect.

(** One entry of a manifest: a dictionary with the keys [id] and
    [classes] and one key per image category, holding a file path. *)
Definition record := dict value.

(** A decoded image, [np.array(Image.open(path))]: rows of pixel values. *)
Definition ndarray := list (list Z).

(** What a run does to the outside, in program order. *)
Inductive event : Type :=
| EvExists (path : string)                  (* os.path.exists *)
| EvOpenJson (path : string)                (* open + json.load *)
| EvListdir (path : string)                 (* os.listdir *)
| EvChoice (population : nat) (size : Z)    (* np.random.choice *)
| EvPrint                                   (* print of the gathering time *)
| EvSubplots (nrows ncols : Z)              (* plt.subplots *)
| EvSetTitle (cell : nat) (title : string)  (* ax.set_title *)
| EvImshow (cell : nat) (img : ndarray)     (* ax.imshow *)
| EvShow                                    (* plt.show *)
| EvMakedirs (path : string)                (* os.makedirs *)
| EvSavefig (path : string).                (* fig.savefig *)

(** The environment of a run; none of it is changed by the program
    except through [os.makedirs] and [savefig], which are not read back.
    A manifest that opens and parses holds a JSON array of records, the
    format of the manifests of the dataset; a file that holds anything
    else is outside this model. *)
Record World : Type := mkWorld {
  platform : string;                        (* sys.platform *)
  project_root : string;                    (* dirname(dirname(__file__)) *)
  fs_exists : string -> bool;               (* os.path.exists *)
  fs_json : string -> res (list record);    (* open(p) and json.load *)
  fs_listdir : string -> res (list string); (* os.listdir *)
  fs_image : string -> res ndarray;         (* np.array(Image.open(p)) *)
  entropy : nat -> nat                      (* the generator's stream *)
}.

(** The module globals, the generator's position and the effects so far. *)
Record state : Type := mkState {
  train_data_paths : option (list record);
  val_data_paths : option (list record);
  test_data_paths : option (list record);
  complete_paths : option (list record);
  rng : nat;
  trace : list event
}.

Definition init_state : state := mkState None None None None 0 [].

(** Statements: a result and the state where they stopped. *)
Definition M (A : Type) : Type := state -> res A * state.

Definition ret {A} (a : A) : M A := fun st => (Ok a, st).

Definition raise {A} (e : exn) : M A := fun st => (Raise e, st).

Definition bind {A B} (m : M A) (k : A -> M B) : M B :=
  fun st =>
    match m st with
    | (Ok a, st') => k a st'
    | (Raise e, st') => (Raise e, st')
    end.

Definition lift {A} (r : res A) : M A := fun st => (r, st).

Definition emit (e : event) : M unit :=
  fun st =>
    (Ok tt, mkState (train_data_paths st) (val_data_paths st)
                    (test_data_paths st) (complete_paths st)
                    (rng st) (trace st ++ [e])).

Definition assert (b : bool) (msg : string) : M unit :=
  if b then ret tt else raise (AssertionError msg).

Declare Scope stmt_scope.
Delimit Scope stmt_scope with stmt.
Notation "x <~ c1 ;; c2" := (bind c1 (fun x => c2))
  (at level 61, c1 at next level, right associativity) : stmt_scope.
Notation "c1 ;;; c2" := (bind c1 (fun _ => c2))
  (at level 61, right associativity) : stmt_scope.
Local Open Scope stmt_scope.

(** A [for] loop over a list whose body may raise. *)
Fixpoint for_each {A} (xs : list A) (body : A -> M unit) : M unit :=
  match xs with
  | [] => ret tt
  | x :: xs' => body x ;;; for_each xs' body
  end.

(** ** External calls *)

Definition path_exists (w : World) (p : string) : M bool :=
  emit (EvExists p) ;;; ret (fs_exists w p).

Definition json_load (w : World) (p : string) : M (list record) :=
  emit (EvOpenJson p) ;;; lift (fs_json w p).

Definition listdir (w : World) (p : string) : M (list string) :=
  emit (EvListdir p) ;;; lift (fs_listdir w p).

(** [np.array(Image.open(v))]: only a path names a file. *)
Definition image_open (w : World) (v : value) : res ndarray :=
  match v with
  | VStr p => fs_image w p
  | _ => Raise (AttributeError "object has no attribute 'read'")
  end.

(** Removing the element at a position of the pool. *)
Fixpoint pick {A} (i : nat) (pool : list A) {struct pool}
    : option (A * list A) :=
  match pool with
  | [] => None
  | x :: xs =>
      match i with
      | O => Some (x, xs)
      | S i' =>
          match pick i' xs with
          | Some (y, r) => Some (y, x :: r)
          | None => None
          end
      end
  end.

(** [n] draws without replacement: each draw removes what it returns. *)
Fixpoint draw {A} (g : nat -> nat) (pos n : nat) (pool : list A) : list A :=
  match n with
  | O => []
  | S n' =>
      match pick (g pos mod List.length pool) pool with
      | Some (x, pool') => x :: draw g (S pos) n' pool'
      | None => []
      end
  end.

(** [np.random.choice(a, size, replace = False)] on a list [a].

    The size is converted to a C long before it is compared with the
    population: a size of 2^64 or more, or under -2^63, cannot be
    converted ([OverflowError]); one from 2^63 up to 2^64 wraps around
    to a negative number. A list has fewer than 2^63 elements, so a
    size that does not fit is beyond the population or negative, and
    the cases are told apart below in that order. *)
Definition random_choice {A} (w : World) (a : list A) (size : Z) : M (list A) :=
  emit (EvChoice (List.length a) size) ;;;
  if (List.length a =? 0)%nat && negb (size =? 0)%Z then
    raise (ValueError "'a' cannot be empty unless no samples are taken")
  else if (Z.of_nat (List.length a) <? size)%Z then
    if (2 ^ 64 <=? size)%Z then
      raise (OverflowError "Python int too large to convert to C long")
    else if (2 ^ 63 <=? size)%Z then
      raise (ValueError "negative dimensions are not allowed")
    else
      raise (ValueError
        "Cannot take a larger sample than population when 'replace=False'")
  else if (size <? 0)%Z then
    if (size <? - 2 ^ 63)%Z then
      raise (OverflowError "Python int too large to convert to C long")
    else raise (ValueError "negative dimensions are not allowed")
  else
    fun st =>
      (Ok (draw (entropy w) (rng st) (Z.to_nat size) a),
       mkState (train_data_paths st) (val_data_paths st)
               (test_data_paths st) (complete_paths st)
               (rng st + Z.to_nat size) (trace st)).

(** What [plt.subplots(nrows, ncols)] returns as [axes]: one Axes object
    for a 1 x 1 grid, an array of them otherwise. *)
Inductive axes : Type :=
| SingleAxes
| AxesArray (cells : nat).

Definition subplots (nrows ncols : Z) : M axes :=
  emit (EvSubplots nrows ncols) ;;;
  if (nrows <=? 0)%Z then
    raise (ValueError
      ("Number of rows must be a positive integer, not " ++ str_of_Z nrows))
  else if (ncols <=? 0)%Z then
    raise (ValueError
      ("Number of columns must be a positive integer, not " ++ str_of_Z ncols))
  else if (nrows =? 1)%Z && (ncols =? 1)%Z then ret SingleAxes
  else ret (AxesArray (Z.to_nat (nrows * ncols))).

(** [enumerate(axes.flat)]: the cell indices in row-major order. *)
Definition axes_flat (a : axes) : M (list nat) :=
  match a with
  | SingleAxes => raise (AttributeError "'Axes' object has no attribute 'flat'")
  | AxesArray cells => ret (seq 0 cells)
  end.

(** ** The functions of the module *)

(** [get_classes_dict]: class 0 is the background, the others are
    numbered in the order [os.listdir] returns the label folders. *)
Fixpoint number_classes (items : list string) (skip_ds_store : bool)
    (count : nat) (class_dict : list (nat * string)) : list (nat * string) :=
  match items with
  | [] => class_dict
  | item :: rest =>
      if String.eqb item ".DS_Store" && skip_ds_store
      then number_classes rest skip_ds_store count class_dict
      else number_classes rest skip_ds_store (S count)
             (class_dict ++ [(count, item)])
  end.

Definition get_classes_dict (w : World) (dataset_dir : string)
    : M (list (nat * string)) :=
  let label_path := path_join dataset_dir ["train"; "labels"] in
  items <~ listdir w label_path ;;
  ret (number_classes items (String.eqb (platform w) "darwin") 1
         [(0, "background")]).

(** The loop of [get_image_names] over the splits. *)
Fixpoint list_image_ids (w : World) (dataset_dir : string)
    (modes : list string) (image_ids : list string) : M (list string) :=
  match modes with
  | [] => ret image_ids
  | mode :: rest =>
      let rgb_image_dir := path_join dataset_dir [mode; "images"; "rgb"] in
      e <~ path_exists w rgb_image_dir ;;
      assert e "Path to dataset image feature 'rgb' missing." ;;;
      image_files <~ listdir w rgb_image_dir ;;
      list_image_ids w dataset_dir rest
        (image_ids ++ map (drop_last 4) image_files)
  end.

(** [get_image_names] *)
Definition get_image_names (w : World) (mode dataset_dir : string)
    : M (list string) :=
  if negb (str_in mode ["train"; "val"; "test"; "full"]) then
    raise (ValueError
      "Invalid mode for file and path acquisition: should be train, val, or test.")
  else
    let modes :=
      if String.eqb mode "full" then ["train"; "val"; "test"] else [mode] in
    list_image_ids w dataset_dir modes [].

(** The assignments to the module globals. *)
Definition set_train (l : list record) : M unit :=
  fun st => (Ok tt, mkState (Some l) (val_data_paths st) (test_data_paths st)
                            (complete_paths st) (rng st) (trace st)).
Definition set_val (l : list record) : M unit :=
  fun st => (Ok tt, mkState (train_data_paths st) (Some l) (test_data_paths st)
                            (complete_paths st) (rng st) (trace st)).
Definition set_test (l : list record) : M unit :=
  fun st => (Ok tt, mkState (train_data_paths st) (val_data_paths st) (Some l)
                            (complete_paths st) (rng st) (trace st)).
Definition set_complete (l : option (list record)) : M unit :=
  fun st => (Ok tt, mkState (train_data_paths st) (val_data_paths st)
                            (test_data_paths st) l (rng st) (trace st)).
Definition get_complete : M (option (list record)) :=
  fun st => (Ok (complete_paths st), st).

(** [for item in src: complete_paths.append(item)] *)
Definition append_all (src : list record) : M unit :=
  for_each src (fun item =>
    c <~ get_complete ;;
    match c with
    | Some l => set_complete (Some (l ++ [item]))
    | None => raise (AttributeError
                "'NoneType' object has no attribute 'append'")
    end).

(** [load_json_files] *)
Definition load_json_files (w : World) (processed_paths : string) : M unit :=
  e <~ path_exists w (path_join processed_paths ["train.json"]) ;;
  assert e "" ;;;
  train <~ json_load w (path_join processed_paths ["train.json"]) ;;
  set_train train ;;;
  e <~ path_exists w (path_join processed_paths ["val.json"]) ;;
  assert e "" ;;;
  val <~ json_load w (path_join processed_paths ["val.json"]) ;;
  set_val val ;;;
  e <~ path_exists w (path_join processed_paths ["test.json"]) ;;
  assert e "" ;;;
  test <~ json_load w (path_join processed_paths ["test.json"]) ;;
  set_test test ;;;
  set_complete (Some []) ;;;
  append_all train ;;;
  append_all val ;;;
  append_all test.

(** [get_processed_paths]: the [for ... else] scan of the list. *)
Fixpoint get_processed_paths (image_id : string) (paths_list : list record)
    : res record :=
  match paths_list with
  | [] =>
      Raise (KeyError
        ("The item " ++ image_id ++ " was not found in the dataset."))
  | item :: rest =>
      v <- getitem item "id" ;;
      if value_eq_str v image_id then Ok item
      else get_processed_paths image_id rest
  end.

(** [single_image_info] *)
Definition single_image_info (w : World) (image_id category : string)
    (paths_list : list record) : res ndarray :=
  file_paths <- get_processed_paths image_id paths_list ;;
  v <- getitem file_paths category ;;
  image_open w v.

(** The loop of [all_image_info] over [file_paths.items()]. *)
Fixpoint collect_images (w : World) (items : list (string * value))
    (image_info : dict ndarray) : res (dict ndarray) :=
  match items with
  | [] => Ok image_info
  | (key, value) :: rest =>
      if String.eqb key "id" then collect_images w rest image_info
      else if String.eqb key "classes" then collect_images w rest image_info
      else
        img <- image_open w value ;;
        collect_images w rest (dict_set image_info key img)
  end.

(** [all_image_info] *)
Definition all_image_info (w : World) (image_id : string)
    (paths_list : list record) : res (dict ndarray) :=
  file_paths <- get_processed_paths image_id paths_list ;;
  collect_images w file_paths [].

(** The [size] argument of [show_random_specific_images]: a list or a
    tuple of integers, or an object of another type. *)
Inductive size_arg : Type :=
| PyList (items : list Z)
| PyTuple (items : list Z)
| PyObject (type_name : string).

Definition is_list_or_tuple (a : size_arg) : bool :=
  match a with
  | PyList _ | PyTuple _ => true
  | PyObject _ => false
  end.

Definition type_repr (a : size_arg) : string :=
  match a with
  | PyList _ => "<class 'list'>"
  | PyTuple _ => "<class 'tuple'>"
  | PyObject t => "<class '" ++ t ++ "'>"
  end.

Definition items_of (a : size_arg) : list Z :=
  match a with
  | PyList l | PyTuple l => l
  | PyObject _ => []
  end.

(** The [if save:] block shared by the two presenters. *)
Definition save_figure (w : World) (file : string) : M unit :=
  let dir := path_join (project_root w) ["images"] in
  e <~ path_exists w dir ;;
  (if negb e then emit (EvMakedirs dir) else ret tt) ;;;
  emit (EvSavefig (path_join (project_root w) ["images"; file])).

(** [show_random_specific_images], up to the gathering of the images. *)
Definition specific_gather (w : World) (size : size_arg)
    (image_ids : list string) (image_types : string)
    (paths_list : list record) : M (list ndarray) :=
  assert (is_list_or_tuple size)
    ("The size parameter should be a list or tuple, got "
       ++ type_repr size ++ ".") ;;;
  assert (List.length (items_of size) =? 2)%nat
    ("The image size parameter should be 2, got "
       ++ str_of_Z (Z.of_nat (List.length (items_of size))) ++ ".") ;;;
  s0 <~ lift (list_item (items_of size) 0) ;;
  s1 <~ lift (list_item (items_of size) 1) ;;
  let num_images := (s0 * s1)%Z in
  random_images <~ random_choice w image_ids num_images ;;
  images <~ lift (rmap (fun img =>
              single_image_info w img image_types paths_list) random_images) ;;
  emit EvPrint ;;;
  ret images.

(** [show_random_specific_images] *)
Definition show_random_specific_images (w : World) (size : size_arg)
    (image_ids : list string) (image_types : string)
    (paths_list : list record) (save : bool) : M unit :=
  images <~ specific_gather w size image_ids image_types paths_list ;;
  s0 <~ lift (list_item (items_of size) 0) ;;
  s1 <~ lift (list_item (items_of size) 1) ;;
  ax <~ subplots s0 s1 ;;
  cells <~ axes_flat ax ;;
  for_each cells (fun indx =>
    im <~ lift (list_item images indx) ;;
    emit (EvImshow indx im)) ;;;
  emit EvShow ;;;
  if save then save_figure w "inspected-specific.png" else ret tt.

(** [show_random_general_images], up to the gathering of the images. *)
Definition general_gather (w : World) (num_imgs : Z)
    (image_ids : list string) (paths_list : list record)
    : M (list (dict ndarray)) :=
  assert ((4 <? num_imgs)%Z && (num_imgs <? 10)%Z)
    ("Number of images should be in range (4, 10), got "
       ++ str_of_Z num_imgs ++ ".") ;;;
  random_images <~ random_choice w image_ids num_imgs ;;
  images <~ lift (rmap (fun img => all_image_info w img paths_list)
                    random_images) ;;
  emit EvPrint ;;;
  ret images.

(** The body of the plotting loop of [show_random_general_images]:
    what is drawn in the cell [indx] of the flattened grid. *)
Definition general_cell (images : list (dict ndarray)) (order : list string)
    (width : nat) (indx : nat) : M unit :=
  image_type <~ lift (list_item order (indx mod width)) ;;
  let image_type_title :=
    if contains image_type "label" then drop 6 image_type else image_type in
  (if (indx / 10 =? 0)%nat then emit (EvSetTitle indx image_type_title)
   else ret tt) ;;;
  row <~ lift (list_item images (indx / 10)) ;;
  im <~ lift (getitem row image_type) ;;
  emit (EvImshow indx im).

(** The plotting part of [show_random_general_images]. *)
Definition general_plot (num_imgs : Z) (images : list (dict ndarray))
    : M unit :=
  first <~ lift (list_item images 0) ;;
  let order := keys first in
  ax <~ subplots num_imgs (Z.of_nat (List.length first)) ;;
  cells <~ axes_flat ax ;;
  for_each cells (general_cell images order (List.length first)) ;;;
  emit EvShow.

(** [show_random_general_images] *)
Definition show_random_general_images (w : World) (num_imgs : Z)
    (image_ids : list string) (paths_list : list record) (save : bool)
    : M unit :=
  images <~ general_gather w num_imgs image_ids paths_list ;;
  general_plot num_imgs images ;;;
  if save then save_figure w "inspected-general.png" else ret tt.

(** The parsed command line. *)
Record args : Type := mkArgs {
  directory : string;
  save : bool;
  mode : string
}.

(** The [__main__] block, after argument parsing. *)
Definition main (w : World) (a : args) : M unit :=
  set_complete None ;;;
  load_json_files w (path_join (project_root w) ["data"; "Dataset"]) ;;;
  image_files <~ get_image_names w "train" (directory a) ;;
  label_dict <~ get_classes_dict w (directory a) ;;
  c <~ get_complete ;;
  if String.eqb (mode a) "specific" then
    match c with
    | Some paths =>
        show_random_specific_images w (PyTuple [16; 10]%Z) image_files
          "boundary" paths (save a)
    | None => raise (TypeError "'NoneType' object is not iterable")
    end
  else if String.eqb (mode a) "general" then
    match c with
    | Some paths =>
        show_random_general_images w 6 image_files paths (save a)
    | None => raise (TypeError "'NoneType' object is not iterable")
    end
  else
    raise (ValueError
      "You have provided an invalid mode, should be [random] or [general].").

End Inspect.

(* ================================================================== *)
(** * prototype.py: the model container *)
(* ================================================================== *)

Module Prototype.

(** The objects a [custom_objects] dictionary can hold: the two loss
    functions imported from [model.loss], or anything else. *)
Inductive py_object : Type :=
| dice_loss_2d
| surface_channel_loss_2d
| other_object (name : string).

(** The [custom_objects] argument: a dictionary, a shortcut string, or
    an object of another type. *)
Inductive custom_arg : Type :=
| Mapping (d : dict py_object)
| Shortcut (s : string)
| Other (type_name : string).

(** A model as [load_model] returns it. *)
Inductive keras_model : Type :=
| Model (handle : nat).

Record Env : Type := mkEnv {
  module_dir : string;                       (* os.path.dirname(__file__) *)
  file_exists : string -> bool;              (* os.path.exists *)
  load_model : string -> option (dict py_object) -> res keras_model
}.

(** The container object: its only attribute. *)
Record FarmlandAnomalyModel : Type := mkSelf {
  model : option keras_model
}.

(** [_validate_custom_objects] *)
Definition _validate_custom_objects (custom_objects : custom_arg)
    : res (dict py_object) :=
  match custom_objects with
  | Mapping d => Ok d
  | Shortcut s =>
      if String.eqb (lower s) "dice" then
        Ok [("dice_loss_2d", dice_loss_2d)]
      else if String.eqb (lower s) "scl" || String.eqb (lower s) "surface" then
        Ok [("surface_loss_2d", surface_channel_loss_2d)]
      else
        Raise (ValueError
          ("Received invalid custom object shortcut keyword " ++ s ++ "."))
  | Other t =>
      Raise (AttributeError
        ("'" ++ t ++ "' object has no attribute 'lower'"))
  end.

Definition stage1_names : list string := ["dice20"; "20"; "first"; "stage1"].
Definition stage2_names : list string :=
  ["scl40"; "40"; "middle"; "stage2"; "intermediate"].
Definition stage3_names : list string :=
  ["dice60"; "60"; "last"; "final"; "stage3"].

(** [self.model = load_model(path, custom_objects = ...)] *)
Definition assign_loaded (w : Env) (path : string)
    (custom_objects : option (dict py_object)) : res FarmlandAnomalyModel :=
  m <- load_model w path custom_objects ;;
  Ok (mkSelf (Some m)).

(** [_initialize_model]: the object after the call, or the exception. *)
Definition _initialize_model (w : Env) (self : FarmlandAnomalyModel)
    (model : string) (kwargs : dict custom_arg) : res FarmlandAnomalyModel :=
  if endswith model ".hdf5" || endswith model ".h5" then
    if file_exists w model then
      match dict_get kwargs "custom_objects" with
      | Some arg =>
          custom_objects <- _validate_custom_objects arg ;;
          assign_loaded w model (Some custom_objects)
      | None => assign_loaded w model None
      end
    else
      Raise (FileNotFoundError
        ("Received a model path ending with .hdf5 (" ++ model
           ++ "), but the path to the model does not exist."))
  else if str_in (lower model) stage1_names then
    custom_objects <- _validate_custom_objects (Shortcut "dice") ;;
    assign_loaded w
      (path_join (module_dir w) ["logs/save/Model-Dice2D-20.hdf5"])
      (Some custom_objects)
  else if str_in (lower model) stage2_names then
    custom_objects <- _validate_custom_objects (Shortcut "scl") ;;
    assign_loaded w
      (path_join (module_dir w) ["logs/save/Model-Dice-SCL-40.hdf5"])
      (Some custom_objects)
  else if str_in (lower model) stage3_names then
    custom_objects <- _validate_custom_objects (Shortcut "dice") ;;
    assign_loaded w
      (path_join (module_dir w) ["logs/save/Model-Dice-SCL-Dice-60.hdf5"])
      (Some custom_objects)
  else Ok self.

(** [__init__] *)
Definition __init__ (w : Env) (model : string) (kwargs : dict custom_arg)
    : res FarmlandAnomalyModel :=
  _initialize_model w (mkSelf None) model kwargs.

End Prototype.

(* ================================================================== *)
(** * prototype.py: construction of several models, and inference *)
(* ================================================================== *)

Module Inference.

Import Prototype.

(** [multi_initialize]: the loop appends one container per mode; an
    exception of a constructor is raised again and ends the loop. *)
Fixpoint initialize_each (w : Env) (modes : list string)
    (_returnable_models : list FarmlandAnomalyModel)
    : res (list FarmlandAnomalyModel) :=
  match modes with
  | [] => Ok _returnable_models
  | mode :: rest =>
      match __init__ w mode [] with
      | Raise e => Raise e
      | Ok _mode_model =>
          initialize_each w rest (_returnable_models ++ [_mode_model])
      end
  end.

Definition multi_initialize (w : Env) (modes : list string)
    : res (list FarmlandAnomalyModel) :=
  initialize_each w modes [].

(** An image or a tensor. *)
Definition array := list (list Z).

(** The [test_image] argument: a list, tuple or set naming an item of
    the dataset, or an image. *)
Inductive test_input : Type :=
| AsList (items : list value)
| AsTuple (items : list value)
| AsSet (items : list value)
| AsImage (img : array).

(** The exceptions of this part: those of the runtime fragment, and the
    read of a local variable that was never assigned. *)
Inductive failure : Type :=
| Builtin (e : exn)
| UnboundLocalError (name : string).

Inductive outcome (A : Type) : Type :=
| Done (a : A)
| Fail (f : failure).
Arguments Done {A} a.
Arguments Fail {A} f.

Definition obind {A B} (o : outcome A) (k : A -> outcome B) : outcome B :=
  match o with
  | Done a => k a
  | Fail f => Fail f
  end.

Declare Scope outcome_scope.
Delimit Scope outcome_scope with outcome.
Notation "x <- c1 ;; c2" := (obind c1 (fun x => c2))
  (at level 61, c1 at next level, right associativity) : outcome_scope.
Local Open Scope outcome_scope.

(** The functions [prototype.py] imports from the [testing] package and
    the [predict] method of the loaded model: any of them may raise. *)
Record Helpers : Type := mkHelpers {
  get_testing_image : value -> value -> outcome array;
  get_testing_image_with_truth : value -> value -> outcome (array * array);
  preprocess_image : array -> outcome array;
  postprocess_output : array -> outcome array;
  model_predict : keras_model -> array -> outcome array;
  create_displayable_test_output : test_input -> outcome array;
  draw_segmentation_map : array -> array -> outcome array;
  display_segmented_diagram : list array -> outcome unit
}.

(** [isinstance(test_image, (list, tuple, set))] *)
Definition is_collection (t : test_input) : bool :=
  match t with
  | AsList _ | AsTuple _ | AsSet _ => true
  | AsImage _ => false
  end.

(** [test_image[i]] on a collection. *)
Definition subscript (t : test_input) (i : nat) : outcome value :=
  match t with
  | AsList items =>
      match nth_error items i with
      | Some v => Done v
      | None => Fail (Builtin (IndexError "list index out of range"))
      end
  | AsTuple items =>
      match nth_error items i with
      | Some v => Done v
      | None => Fail (Builtin (IndexError "tuple index out of range"))
      end
  | AsSet _ => Fail (Builtin (TypeError "'set' object is not subscriptable"))
  | AsImage _ => Fail (Builtin (TypeError "indices must be integers"))
  end.

(** [self.model.predict]: the attribute of a model that was loaded. *)
Definition bound_predict (h : Helpers) (self : FarmlandAnomalyModel)
    : outcome (array -> outcome array) :=
  match model self with
  | Some m => Done (model_predict h m)
  | None =>
      Fail (Builtin
        (AttributeError "'NoneType' object has no attribute 'predict'"))
  end.

(** [predict] *)
Definition predict (h : Helpers) (self : FarmlandAnomalyModel)
    (test_image : test_input) : outcome array :=
  testing_image <-
    (if is_collection test_image then
       mode <- subscript test_image 0 ;;
       value <- subscript test_image 1 ;;
       get_testing_image h mode value
     else
       match test_image with
       | AsImage img => preprocess_image h img
       | _ => Fail (Builtin (TypeError "unreachable"))
       end) ;;
  run <- bound_predict h self ;;
  output <- run testing_image ;;
  postprocess_output h output.

(** The read of the local [testing_truth], assigned only in one branch. *)
Definition read_testing_truth (testing_truth : option array) : outcome array :=
  match testing_truth with
  | Some t => Done t
  | None => Fail (UnboundLocalError "testing_truth")
  end.

(** [show_segmented_predictions]: the images handed to
    [display_segmented_diagram], once it has returned. *)
Definition show_segmented_predictions (h : Helpers)
    (self : FarmlandAnomalyModel) (test_image : test_input)
    (with_truth : bool) : outcome (list array) :=
  locals <-
    (if is_collection test_image then
       if with_truth then
         mode <- subscript test_image 0 ;;
         value <- subscript test_image 1 ;;
         pair <- get_testing_image_with_truth h mode value ;;
         Done (fst pair, Some (snd pair))
       else
         mode <- subscript test_image 0 ;;
         value <- subscript test_image 1 ;;
         testing_image <- get_testing_image h mode value ;;
         Done (testing_image, None)
     else
       match test_image with
       | AsImage img => Done (img, None)
       | _ => Fail (Builtin (TypeError "unreachable"))
       end) ;;
  let testing_image := fst locals in
  let testing_truth := snd locals in
  run <- bound_predict h self ;;
  predicted <- run testing_image ;;
  predicted <- postprocess_output h predicted ;;
  displayable_test_image <- create_displayable_test_output h test_image ;;
  testing_truth <-
    (if with_truth then
       truth <- read_testing_truth testing_truth ;;
       truth <- postprocess_output h truth ;;
       Done (Some truth)
     else Done testing_truth) ;;
  annotated_test_prediction <-
    draw_segmentation_map h displayable_test_image predicted ;;
  if with_truth then
    truth <- read_testing_truth testing_truth ;;
    annotated_test_truth <-
      draw_segmentation_map h displayable_test_image truth ;;
    let shown := [displayable_test_image; annotated_test_prediction;
                  annotated_test_truth] in
    _ <- display_segmented_diagram h shown ;;
    Done shown
  else
    let shown := [displayable_test_image; annotated_test_prediction] in
    _ <- display_segmented_diagram h shown ;;
    Done shown.

End Inference.

(* ================================================================== *)
(** * Vocabulary of the statements *)
(* ================================================================== *)

Import Inspect.
Import Prototype.

(** A record carries the key [id]. *)
Definition has_id (r : record) : bool :=
  match dict_get r "id" with Some _ => true | None => false end.

(** The [id] field of a record equals an identifier. *)
Definition id_is (image_id : string) (r : record) : bool :=
  match dict_get r "id" with
  | Some v => value_eq_str v image_id
  | None => false
  end.

Definition not_found (image_id : string) : exn :=
  KeyError ("The item " ++ image_id ++ " was not found in the dataset.").

(** A merged table in which the identifier [b] occurs in two splits. *)
Definition dup_train : record :=
  [("id", VStr "b"); ("classes", VList []); ("rgb", VStr "train/b.jpg")].

Definition dup_val : record :=
  [("id", VStr "b"); ("classes", VList []); ("rgb", VStr "val/b.jpg")].

Definition dup_other : record :=
  [("id", VStr "a"); ("classes", VList []); ("rgb", VStr "train/a.jpg")].

Definition dup_table : list record := [dup_other; dup_train; dup_val].

(** The keys the assembler decodes: all but [id] and [classes]. *)
Definition is_category (key : string) : bool :=
  negb (String.eqb key "id") && negb (String.eqb key "classes").

(** An item of a record and the item of the result made from it. *)
Definition decoded (w : World) (kv : string * value)
    (ki : string * ndarray) : Prop :=
  fst ki = fst kv /\ image_open w (snd kv) = Ok (snd ki).

Definition categories (r : record) : list (string * value) :=
  filter (fun kv => is_category (fst kv)) r.

Definition with_complete (st : state) (l : option (list record)) : state :=
  mkState (train_data_paths st) (val_data_paths st) (test_data_paths st)
          l (rng st) (trace st).

Definition train_json (dir : string) : string := path_join dir ["train.json"].

Definition val_json (dir : string) : string := path_join dir ["val.json"].

Definition test_json (dir : string) : string := path_join dir ["test.json"].

Definition manifest_files (dir : string) : list string :=
  [train_json dir; val_json dir; test_json dir].

(** The effects of a complete load, in order. *)
Definition load_events (dir : string) : list event :=
  [EvExists (train_json dir); EvOpenJson (train_json dir);
   EvExists (val_json dir); EvOpenJson (val_json dir);
   EvExists (test_json dir); EvOpenJson (test_json dir)].

Definition after_choice (st : state) (population : nat) (size : Z) : state :=
  mkState (train_data_paths st) (val_data_paths st) (test_data_paths st)
          (complete_paths st) (rng st + Z.to_nat size)
          (trace st ++ [EvChoice population size]).

(** ** A small dataset to run the program on *)

Module Demo.

Definition ids : list string := ["a"; "b"; "c"; "d"; "e"; "f"].

(** A record with three image categories. *)
Definition entry (split id : string) : record :=
  [("id", VStr id);
   ("rgb", VStr (split ++ "/images/rgb/" ++ id ++ ".jpg"));
   ("boundary", VStr (split ++ "/boundaries/" ++ id ++ ".png"));
   ("label_waterway", VStr (split ++ "/labels/waterway/" ++ id ++ ".png"));
   ("classes", VList [VNum 0; VNum 5])].

Definition train : list record := map (entry "train") ids.
Definition val : list record := [entry "val" "g"].
Definition test : list record := [entry "test" "h"].
Definition table : list record := train ++ val ++ test.

Definition dataset : string := "/data/Agriculture-Vision".
Definition rgb_dir : string := "/data/Agriculture-Vision/train/images/rgb".
Definition labels_dir : string := "/data/Agriculture-Vision/train/labels".

(** The pixels of a file: here one row, the character codes of its path,
    so that different files hold different images. *)
Definition pixels (path : string) : ndarray :=
  [map (fun c => Z.of_nat (nat_of_ascii c)) (chars path)].

Definition world : World :=
  {| platform := "linux";
     project_root := "/repo";
     fs_exists := fun p =>
       str_in p ["/repo/data/Dataset/train.json";
                 "/repo/data/Dataset/val.json";
                 "/repo/data/Dataset/test.json"; rgb_dir; labels_dir];
     fs_json := fun p =>
       if String.eqb p "/repo/data/Dataset/train.json" then Ok train
       else if String.eqb p "/repo/data/Dataset/val.json" then Ok val
       else if String.eqb p "/repo/data/Dataset/test.json" then Ok test
       else Raise (FileNotFoundError p);
     fs_listdir := fun p =>
       if String.eqb p rgb_dir
       then Ok (map (fun i : string => (i ++ ".jpg")%string) ids)
       else if String.eqb p labels_dir then Ok ["waterway"; "weed_cluster"]
       else Raise (FileNotFoundError p);
     fs_image := fun p => Ok (pixels p);
     entropy := fun n => 2 * n + 1 |}.

(** The same, with [val.json] missing. *)
Definition world_no_val : World :=
  {| platform := platform world;
     project_root := project_root world;
     fs_exists := fun p =>
       negb (String.eqb p "/repo/data/Dataset/val.json") && fs_exists world p;
     fs_json := fs_json world;
     fs_listdir := fs_listdir world;
     fs_image := fs_image world;
     entropy := entropy world |}.

Definition bogus_args : args :=
  {| directory := dataset; save := true; mode := "bogus" |}.

End Demo.

(** A statement that raises from every state. *)
Definition fails {A} (m : M A) : Prop :=
  forall st, exists e st', m st = (Raise e, st').

(** A statement that completes from every state. *)
Definition succeeds {A} (m : M A) : Prop :=
  forall st, exists a st', m st = (Ok a, st').


(** The state in which the gathering of [size] images leaves the run. *)
Definition after_gather (st : state) (population : nat) (size : Z) : state :=
  mkState (train_data_paths st) (val_data_paths st) (test_data_paths st)
          (complete_paths st) (rng st + Z.to_nat size)
          (trace st ++ [EvChoice population size; EvPrint]).

Definition with_event (st : state) (e : event) : state :=
  mkState (train_data_paths st) (val_data_paths st) (test_data_paths st)
          (complete_paths st) (rng st) (trace st ++ [e]).

(** The image drawn in a cell of the grid, read off the effects. *)
Fixpoint shown (tr : list event) (cell : nat) : option ndarray :=
  match tr with
  | [] => None
  | EvImshow c im :: tr' => if (c =? cell)%nat then Some im else shown tr' cell
  | _ :: tr' => shown tr' cell
  end.

(** A list or tuple of exactly two elements. *)
Definition two_element_sequence (size : size_arg) : bool :=
  is_list_or_tuple size && (List.length (items_of size) =? 2)%nat.

(** A two-element list or tuple of positive integers. *)
Definition positive_shape (size : size_arg) : bool :=
  two_element_sequence size && forallb (fun z => (0 <? z)%Z) (items_of size).

(** The effects of loading and listing, as opposed to those of sampling,
    plotting and saving. *)
Definition reading (e : event) : bool :=
  match e with
  | EvExists _ | EvOpenJson _ | EvListdir _ => true
  | _ => false
  end.

(** A statement that only adds effects of one kind to the trace. *)
Definition only (kind : event -> bool) {A} (m : M A) : Prop :=
  forall st, exists evs,
    trace (snd (m st)) = trace st ++ evs /\ forallb kind evs = true.

(** A statement whose only effects are reads of the file system. *)
Definition reads_only {A} (m : M A) : Prop := only reading m.

(** Any effect. *)
Definition any_event (e : event) : bool := true.

Definition invalid_mode_error : exn :=
  ValueError
    "You have provided an invalid mode, should be [random] or [general].".

Definition rgb_dir (a : args) : string :=
  path_join (directory a) ["train"; "images"; "rgb"].

Definition labels_dir (a : args) : string :=
  path_join (directory a) ["train"; "labels"].

Definition manifest_dir (w : World) : string :=
  path_join (project_root w) ["data"; "Dataset"].

(** What [main] does before it looks at the mode. *)
Definition preparation_events (w : World) (a : args) : list event :=
  load_events (manifest_dir w)
    ++ [EvExists (rgb_dir a); EvListdir (rgb_dir a); EvListdir (labels_dir a)].

Definition dice_objects : dict py_object := [("dice_loss_2d", dice_loss_2d)].

Definition surface_objects : dict py_object :=
  [("surface_loss_2d", surface_channel_loss_2d)].

Definition invalid_shortcut (s : string) : exn :=
  ValueError ("Received invalid custom object shortcut keyword " ++ s ++ ".").

(** A name of one of the three shortcut groups, as the program tests
    it: on the lower-cased token. *)
Definition recognized_shortcut (token : string) : bool :=
  str_in (lower token) stage1_names
  || str_in (lower token) stage2_names
  || str_in (lower token) stage3_names.

Definition model_file (token : string) : bool :=
  endswith token ".hdf5" || endswith token ".h5".

(** A world where only the stage 3 weights can be loaded. *)
Definition stage3_world : Env :=
  {| module_dir := "/repo";
     file_exists := fun _ => false;
     load_model := fun path _ =>
       if String.eqb path "/repo/logs/save/Model-Dice-SCL-Dice-60.hdf5"
       then Ok (Model 60) else Raise (OSError path) |}.

(** ** The dataset folders *)

Definition split_rgb_dir (dataset_dir mode : string) : string :=
  path_join dataset_dir [mode; "images"; "rgb"].

Definition train_labels_dir (dataset_dir : string) : string :=
  path_join dataset_dir ["train"; "labels"].

(** The label folders that are given a class index. *)
Definition numbered_labels (w : World) (items : list string) : list string :=
  filter (fun item =>
            negb (String.eqb item ".DS_Store"
                  && String.eqb (platform w) "darwin")) items.

(** The identifiers of one split, read off the file system. *)
Definition split_ids (w : World) (dataset_dir mode : string)
    : res (list string) :=
  if fs_exists w (split_rgb_dir dataset_dir mode) then
    names <- fs_listdir w (split_rgb_dir dataset_dir mode) ;;
    Ok (map (drop_last 4) names)
  else Raise (AssertionError "Path to dataset image feature 'rgb' missing.").

(** The demo dataset with an image folder for each split. *)
Definition three_splits : World :=
  {| platform := "darwin";
     project_root := "/repo";
     fs_exists := fun p =>
       str_in p ["/d/train/images/rgb"; "/d/val/images/rgb";
                 "/d/test/images/rgb"];
     fs_json := fun p => Raise (FileNotFoundError p);
     fs_listdir := fun p =>
       if String.eqb p "/d/train/images/rgb" then Ok ["a.jpg"; "b.jpg"]
       else if String.eqb p "/d/val/images/rgb" then Ok ["c.jpg"]
       else if String.eqb p "/d/test/images/rgb" then Ok ["d.jpg"; "e.png"]
       else if String.eqb p "/d/train/labels"
       then Ok ["waterway"; ".DS_Store"; "weed_cluster"]
       else Raise (FileNotFoundError p);
     fs_image := fun p => Raise (FileNotFoundError p);
     entropy := fun n => n |}.

(** The identifiers of several splits, one after the other. *)
Fixpoint collect_ids (w : World) (dataset_dir : string) (modes : list string)
    (image_ids : list string) : res (list string) :=
  match modes with
  | [] => Ok image_ids
  | mode :: rest =>
      l <- split_ids w dataset_dir mode ;;
      collect_ids w dataset_dir rest (image_ids ++ l)
  end.

Definition invalid_split_error : exn :=
  ValueError
    "Invalid mode for file and path acquisition: should be train, val, or test.".

Definition missing_rgb_error : exn :=
  AssertionError "Path to dataset image feature 'rgb' missing.".

(** A record without the key [id], and one whose picture is missing. *)
Definition anonymous_entry : record := [("rgb", VStr "x.jpg")].

Definition broken_world : World :=
  {| platform := platform Demo.world;
     project_root := project_root Demo.world;
     fs_exists := fs_exists Demo.world;
     fs_json := fs_json Demo.world;
     fs_listdir := fs_listdir Demo.world;
     fs_image := fun p =>
       if String.eqb p "train/boundaries/b.png"
       then Raise (FileNotFoundError p) else Ok (Demo.pixels p);
     entropy := entropy Demo.world |}.

(** ** The effects of the presenters *)

Definition with_events (st : state) (evs : list event) : state :=
  mkState (train_data_paths st) (val_data_paths st) (test_data_paths st)
          (complete_paths st) (rng st) (trace st ++ evs).

(** The cells drawn by [show_random_specific_images]: the images in
    the order in which they were gathered. *)
Definition imshow_cell (images : list ndarray) (indx : nat) : list event :=
  match nth_error images indx with
  | Some im => [EvImshow indx im]
  | None => []
  end.

Definition imshow_cells (images : list ndarray) : list event :=
  flat_map (imshow_cell images) (seq 0 (List.length images)).

(** The effects of the [if save:] block. *)
Definition save_events (w : World) (save : bool) (file : string)
    : list event :=
  if save then
    EvExists (path_join (project_root w) ["images"])
      :: (if fs_exists w (path_join (project_root w) ["images"]) then []
          else [EvMakedirs (path_join (project_root w) ["images"])])
      ++ [EvSavefig (path_join (project_root w) ["images"; file])]
  else [].

(** The title of a column. *)
Definition title_of (image_type : string) : string :=
  if contains image_type "label" then drop 6 image_type else image_type.

(** The effects of the cell [indx] of [show_random_general_images]. *)
Definition cell_events (images : list (dict ndarray)) (order : list string)
    (width indx : nat) : list event :=
  match nth_error order (indx mod width), nth_error images (indx / 10) with
  | Some image_type, Some row =>
      match dict_get row image_type with
      | Some im =>
          (if (indx / 10 =? 0)%nat
           then [EvSetTitle indx (title_of image_type)] else [])
            ++ [EvImshow indx im]
      | None => []
      end
  | _, _ => []
  end.

(** The titles set during a run, with their cells. *)
Fixpoint titles (tr : list event) : list (nat * string) :=
  match tr with
  | [] => []
  | EvSetTitle cell title :: tr' => (cell, title) :: titles tr'
  | _ :: tr' => titles tr'
  end.

(** The image drawn in the cell [indx] of the general presenter. *)
Definition cell_image (images : list (dict ndarray)) (order : list string)
    (width indx : nat) : option ndarray :=
  match nth_error order (indx mod width), nth_error images (indx / 10) with
  | Some image_type, Some row => dict_get row image_type
  | _, _ => None
  end.

(** The effects of a complete run of the general presenter. *)
Definition general_events (w : World) (num_imgs : Z) (population : nat)
    (images : list (dict ndarray)) (order : list string) (save : bool)
    : list event :=
  [EvChoice population num_imgs; EvPrint;
   EvSubplots num_imgs (Z.of_nat (List.length order))]
    ++ flat_map (cell_events images order (List.length order))
         (seq 0 (Z.to_nat num_imgs * List.length order))
    ++ [EvShow] ++ save_events w save "inspected-general.png".

(** Tables whose records have the given categories. *)
Definition entry_with (categories : list string) (id : string) : record :=
  ("id", VStr id)
    :: map (fun c : string => (c, VStr (c ++ "/" ++ id ++ ".png")))
         categories
    ++ [("classes", VList [])].

Definition ten_categories : list string :=
  ["rgb"; "nir"; "boundary"; "mask"; "label_cloud_shadow";
   "label_double_plant"; "label_planter_skip"; "label_standing_water";
   "label_waterway"; "label_weed_cluster"].

Definition ten_table : list record := map (entry_with ten_categories) Demo.ids.

Definition eleven_categories : list string := "extra" :: ten_categories.

Definition eleven_table : list record :=
  map (entry_with eleven_categories) Demo.ids.

(** ** The entry point after its preparation *)

(** The choice of the presenter at the end of [main]. *)
Definition dispatch (w : World) (a : args) (image_files : list string)
    (paths : list record) : M unit :=
  if String.eqb (mode a) "specific" then
    show_random_specific_images w (PyTuple [16; 10]%Z) image_files
      "boundary" paths (save a)
  else if String.eqb (mode a) "general" then
    show_random_general_images w 6 image_files paths (save a)
  else raise invalid_mode_error.

(** The state in which [main] calls the presenter. *)
Definition prepared (w : World) (a : args) (train val test : list record)
    (st : state) : state :=
  mkState (Some train) (Some val) (Some test) (Some (train ++ val ++ test))
          (rng st) (trace st ++ preparation_events w a).

(** The accesses to the manifest files. *)
Definition manifest_access (e : event) : bool :=
  match e with
  | EvExists _ | EvOpenJson _ => true
  | _ => false
  end.

Definition general_args : args :=
  {| directory := Demo.dataset; save := false; mode := "general" |}.

Definition specific_args : args :=
  {| directory := Demo.dataset; save := true; mode := "specific" |}.

(** ** The model container in use *)

Import Inference.

Definition all_shortcut_names : list string :=
  stage1_names ++ stage2_names ++ stage3_names.

Definition stage1_file (w : Env) : string :=
  path_join (module_dir w) ["logs/save/Model-Dice2D-20.hdf5"].
Definition stage2_file (w : Env) : string :=
  path_join (module_dir w) ["logs/save/Model-Dice-SCL-40.hdf5"].
Definition stage3_file (w : Env) : string :=
  path_join (module_dir w) ["logs/save/Model-Dice-SCL-Dice-60.hdf5"].

Definition missing_model_error (token : string) : exn :=
  FileNotFoundError
    ("Received a model path ending with .hdf5 (" ++ token
       ++ "), but the path to the model does not exist.").

Definition no_predict_attribute : failure :=
  Builtin (AttributeError "'NoneType' object has no attribute 'predict'").

(** The drawing and display of a prediction. *)
Definition display_prediction (h : Helpers) (test_image : test_input)
    (predicted : array) : outcome (list array) :=
  obind (create_displayable_test_output h test_image) (fun displayable =>
  obind (draw_segmentation_map h displayable predicted) (fun annotated =>
  obind (display_segmented_diagram h [displayable; annotated]) (fun _ =>
  Done [displayable; annotated]))).

(** Helpers that all succeed: every image is marked by the step it
    went through. *)
Definition demo_helpers : Helpers :=
  {| get_testing_image := fun _ _ => Done [[1]]%Z;
     get_testing_image_with_truth := fun _ _ => Done ([[1]]%Z, [[2]]%Z);
     preprocess_image := fun img => Done ([10]%Z :: img);
     postprocess_output := fun img => Done ([20]%Z :: img);
     model_predict := fun _ img => Done ([30]%Z :: img);
     create_displayable_test_output := fun _ => Done [[40]]%Z;
     draw_segmentation_map := fun base img => Done (base ++ img);
     display_segmented_diagram := fun _ => Done tt |}.

(** A world in which the three weight files load, and nothing else. *)
Definition weights_world : Env :=
  {| module_dir := "/repo";
     file_exists := fun p => String.eqb p "/models/own.h5";
     load_model := fun path _ =>
       if String.eqb path "/repo/logs/save/Model-Dice2D-20.hdf5"
       then Ok (Model 20)
       else if String.eqb path "/repo/logs/save/Model-Dice-SCL-40.hdf5"
       then Ok (Model 40)
       else if String.eqb path "/repo/logs/save/Model-Dice-SCL-Dice-60.hdf5"
       then Ok (Model 60)
       else Raise (OSError path) |}.

(* ================================================================== *)
(** * The runtime fragment on examples *)
(* ================================================================== *)

Example lower_mixed_case : lower "Stage3" = "stage3".
Proof. reflexivity. Qed.

Example endswith_extension :
  endswith "weights/best.hdf5" ".hdf5" = true /\
  endswith "hdf5" ".hdf5" = false /\
  endswith "model.H5" ".h5" = false.
Proof. repeat split. Qed.

Example path_join_components :
  path_join "/repo" ["data"; "Dataset"] = "/repo/data/Dataset" /\
  path_join "/repo/" ["train.json"] = "/repo/train.json" /\
  path_join "/repo" ["/etc"; "x"] = "/etc/x".
Proof. repeat split. Qed.

Example drop_last_extension :
  drop_last 4 "1AB2C3.jpg" = "1AB2C3" /\ drop_last 4 "a" = "".
Proof. split; reflexivity. Qed.

Example label_title :
  contains "label_waterway" "label" = true /\
  drop 6 "label_waterway" = "waterway" /\
  contains "boundary" "label" = false.
Proof. repeat split. Qed.

Example dict_set_keeps_position :
  dict_set [("a", 1); ("b", 2)]%nat "a" 3%nat = [("a", 3); ("b", 2)]%nat /\
  dict_set [("a", 1); ("b", 2)]%nat "c" 3%nat
    = [("a", 1); ("b", 2); ("c", 3)]%nat.
Proof. split; reflexivity. Qed.

Example number_classes_order :
  number_classes ["waterway"; ".DS_Store"; "weed_cluster"] true 1
    [(0, "background")]%nat
  = [(0, "background"); (1, "waterway"); (2, "weed_cluster")]%nat.
Proof. reflexivity. Qed.

Example draw_without_replacement :
  draw (fun n => 2 * n + 1) 0 6 Demo.ids = ["b"; "e"; "c"; "d"; "f"; "a"].
Proof. reflexivity. Qed.

(* ================================================================== *)
(** * Properties of the path resolver and the image assembler *)
(* ================================================================== *)

Lemma getitem_id (r : record) :
  has_id r = true -> exists v, getitem r "id" = Ok v /\ dict_get r "id" = Some v.
Proof.
  unfold has_id, getitem. destruct (dict_get r "id") as [v|]; [|discriminate].
  intros _. now exists v.
Qed.

Lemma get_processed_paths_step image_id item rest :
  has_id item = true ->
  get_processed_paths image_id (item :: rest) =
    if id_is image_id item then Ok item
    else get_processed_paths image_id rest.
Proof.
  intros H. destruct (getitem_id item H) as [v [Hg Hd]].
  cbn [get_processed_paths]. rewrite Hg. unfold id_is. rewrite Hd.
  reflexivity.
Qed.

Lemma get_processed_paths_total image_id paths_list :
  Forall (fun r => has_id r = true) paths_list ->
  (exists r, get_processed_paths image_id paths_list = Ok r) \/
  get_processed_paths image_id paths_list = Raise (not_found image_id).
Proof.
  induction 1 as [|item rest Hitem _ IH].
  - right. reflexivity.
  - rewrite get_processed_paths_step by assumption.
    destruct (id_is image_id item); [left; eauto | exact IH].
Qed.

Lemma get_processed_paths_found image_id paths_list r :
  Forall (fun r => has_id r = true) paths_list ->
  get_processed_paths image_id paths_list = Ok r <->
  exists before after,
    paths_list = before ++ r :: after /\
    id_is image_id r = true /\
    Forall (fun r' => id_is image_id r' = false) before.
Proof.
  induction 1 as [|item rest Hitem Hrest IH].
  - split.
    + discriminate.
    + intros (before & after & E & _). destruct before; discriminate.
  - rewrite get_processed_paths_step by assumption.
    destruct (id_is image_id item) eqn:Hid.
    + split.
      * intros E. injection E as <-.
        exists [], rest. repeat split; auto.
      * intros (before & after & E & Hr & Hb).
        destruct before as [|b before]; cbn in E; injection E as -> E'.
        -- reflexivity.
        -- inversion Hb; congruence.
    + rewrite IH. split.
      * intros (before & after & -> & Hr & Hb).
        exists (item :: before), after. repeat split; auto.
      * intros (before & after & E & Hr & Hb).
        destruct before as [|b before]; cbn in E; injection E as -> E'.
        -- congruence.
        -- exists before, after. inversion Hb; auto.
Qed.

Lemma get_processed_paths_missing image_id paths_list :
  Forall (fun r => has_id r = true) paths_list ->
  get_processed_paths image_id paths_list = Raise (not_found image_id) <->
  Forall (fun r => id_is image_id r = false) paths_list.
Proof.
  induction 1 as [|item rest Hitem Hrest IH].
  - split; [constructor | reflexivity].
  - rewrite get_processed_paths_step by assumption.
    destruct (id_is image_id item) eqn:Hid.
    + split; [discriminate | inversion 1; congruence].
    + rewrite IH. split; [now constructor | now inversion 1].
Qed.

(** C4. On a sequence of records that all carry an [id], the resolver
    returns a record exactly when it is the first one of the sequence
    whose [id] equals the identifier, and raises the not-found [KeyError]
    naming the identifier exactly when no record of the sequence matches. *)
Theorem get_processed_paths_first_match :
  forall (image_id : string) (paths_list : list record),
    Forall (fun r => has_id r = true) paths_list ->
    (forall r,
        get_processed_paths image_id paths_list = Ok r <->
        exists before after,
          paths_list = before ++ r :: after /\
          id_is image_id r = true /\
          Forall (fun r' => id_is image_id r' = false) before) /\
    (get_processed_paths image_id paths_list =
       Raise (KeyError
                ("The item " ++ image_id ++ " was not found in the dataset."))
     <-> Forall (fun r => id_is image_id r = false) paths_list).
Proof.
  intros image_id paths_list H. split.
  - intros r. now apply get_processed_paths_found.
  - now apply get_processed_paths_missing.
Qed.

Lemma get_processed_paths_first_match_witness :
  Forall (fun r => has_id r = true) dup_table /\
  get_processed_paths "b" dup_table = Ok dup_train /\
  get_processed_paths "c" dup_table =
    Raise (KeyError "The item c was not found in the dataset.").
Proof.
  assert (H : Forall (fun r => has_id r = true) dup_table)
    by (repeat constructor).
  split; [exact H|].
  destruct (get_processed_paths_first_match "b" dup_table H) as [Hb _].
  destruct (get_processed_paths_first_match "c" dup_table H) as [_ Hc].
  split.
  - apply Hb. exists [dup_other], [dup_val].
    repeat split. repeat constructor.
  - apply Hc. repeat constructor.
Defined.

Section Assembler.

Variable w : World.

Lemma dict_set_fresh {V} (d : dict V) k (v : V) :
  ~ In k (keys d) -> dict_set d k v = d ++ [(k, v)].
Proof.
  induction d as [|[k' v'] d IH]; cbn; intros H.
  - reflexivity.
  - destruct (String.eqb_spec k' k) as [->|_].
    + exfalso. apply H. now left.
    + rewrite IH; [reflexivity | intros Hin; apply H; now right].
Qed.

Lemma keys_app {V} (d1 d2 : dict V) : keys (d1 ++ d2) = keys d1 ++ keys d2.
Proof. apply map_app. Qed.

Lemma keys_categories (r : record) :
  keys (categories r) = filter is_category (keys r).
Proof.
  induction r as [|[k v] r IH]; [reflexivity|].
  unfold categories, keys in *. cbn.
  destruct (is_category k); cbn; now rewrite IH.
Qed.

Lemma collect_images_skip key value rest acc :
  is_category key = false ->
  collect_images w ((key, value) :: rest) acc = collect_images w rest acc.
Proof.
  unfold is_category. cbn [collect_images].
  destruct (String.eqb key "id"); [reflexivity|].
  destruct (String.eqb key "classes"); [reflexivity|discriminate].
Qed.

Lemma collect_images_take key value rest acc :
  is_category key = true ->
  collect_images w ((key, value) :: rest) acc =
    (img <- image_open w value ;;
     collect_images w rest (dict_set acc key img)).
Proof.
  unfold is_category. cbn [collect_images].
  destruct (String.eqb key "id"); [discriminate|].
  destruct (String.eqb key "classes"); [discriminate|reflexivity].
Qed.

(** The loop appends, in order, one decoded item per category key. *)
Lemma collect_images_spec (items : list (string * value)) :
  forall acc : dict ndarray,
    NoDup (keys items) ->
    (forall k, In k (keys items) -> ~ In k (keys acc)) ->
    (forall kv, In kv (categories items) ->
                exists img, image_open w (snd kv) = Ok img) ->
    exists added,
      collect_images w items acc = Ok (acc ++ added) /\
      Forall2 (decoded w) (categories items) added.
Proof.
  induction items as [|[key value] rest IH]; intros acc Hnd Hfresh Hdec.
  - exists []. cbn. rewrite app_nil_r. split; constructor.
  - cbn [keys map fst] in Hnd. inversion Hnd as [|? ? Hnotin Hnd']; subst.
    destruct (is_category key) eqn:Hcat.
    + rewrite collect_images_take by assumption.
      destruct (Hdec (key, value)) as [img Himg].
      { unfold categories. cbn. rewrite Hcat. now left. }
      cbn in Himg. rewrite Himg. cbn [rbind].
      rewrite dict_set_fresh by (apply Hfresh; now left).
      destruct (IH (acc ++ [(key, img)])) as [added [Hrun Hall]].
      * assumption.
      * intros k Hk. rewrite keys_app. cbn. intros Hin.
        apply in_app_or in Hin. destruct Hin as [Hin|[<-|[]]].
        -- apply (Hfresh k); [now right | assumption].
        -- contradiction.
      * intros kv Hkv. apply Hdec. unfold categories. cbn. rewrite Hcat.
        now right.
      * exists ((key, img) :: added). split.
        -- rewrite Hrun. now rewrite <- app_assoc.
        -- unfold categories. cbn. rewrite Hcat. constructor; [|exact Hall].
           split; [reflexivity | exact Himg].
    + rewrite collect_images_skip by assumption.
      destruct (IH acc) as [added [Hrun Hall]].
      * assumption.
      * intros k Hk. apply Hfresh. now right.
      * intros kv Hkv. apply Hdec. unfold categories. cbn. now rewrite Hcat.
      * exists added. split; [exact Hrun|].
        unfold categories. cbn. now rewrite Hcat.
Qed.

Lemma decoded_keys items added :
  Forall2 (decoded w) items added -> keys added = keys items.
Proof.
  induction 1 as [|kv ki items added [Hk _] _ IH]; [reflexivity|].
  unfold keys in *. cbn. now f_equal.
Qed.

End Assembler.

(** C7. For the record [r] an identifier resolves to, a dictionary (its
    keys are distinct) whose category files all decode, [all_image_info]
    returns a mapping with one item per key of [r] other than [id] and
    [classes], in the order of [r]: its key list is exactly the category
    keys, and each value is the decoded array of the file under that key. *)
Theorem all_image_info_categories :
  forall (w : World) (image_id : string) (paths_list : list record)
         (r : record),
    get_processed_paths image_id paths_list = Ok r ->
    NoDup (keys r) ->
    (forall key path, In (key, path) r -> is_category key = true ->
                      exists img, image_open w path = Ok img) ->
    exists info,
      all_image_info w image_id paths_list = Ok info /\
      keys info = filter is_category (keys r) /\
      (forall key, In key (keys info) <->
                   In key (keys r) /\ key <> "id" /\ key <> "classes") /\
      Forall2 (decoded w) (categories r) info.
Proof.
  intros w image_id paths_list r Hres Hnd Hdec.
  destruct (collect_images_spec w r [] Hnd) as [added [Hrun Hall]].
  - intros k _ [].
  - intros [key path] Hin. unfold categories in Hin.
    apply filter_In in Hin. destruct Hin as [Hin Hcat]. cbn in *.
    now apply (Hdec key path).
  - exists added. unfold all_image_info. rewrite Hres. cbn [rbind].
    cbn [app] in Hrun.
    assert (Hkeys : keys added = filter is_category (keys r))
      by (rewrite (decoded_keys w _ _ Hall); apply keys_categories).
    repeat split; try assumption.
    + rewrite Hkeys in H. apply filter_In in H. tauto.
    + rewrite Hkeys in H. apply filter_In in H. destruct H as [_ H].
      unfold is_category in H. intros ->. discriminate.
    + rewrite Hkeys in H. apply filter_In in H. destruct H as [_ H].
      unfold is_category in H. intros ->. discriminate.
    + intros (Hin & Hid & Hcl). rewrite Hkeys. apply filter_In.
      split; [assumption|]. unfold is_category.
      destruct (String.eqb_spec key "id"); [contradiction|].
      destruct (String.eqb_spec key "classes"); [contradiction|reflexivity].
Qed.

Lemma all_image_info_categories_witness :
  get_processed_paths "b" Demo.table = Ok (Demo.entry "train" "b") /\
  NoDup (keys (Demo.entry "train" "b")) /\
  exists info,
    all_image_info Demo.world "b" Demo.table = Ok info /\
    keys info = ["rgb"; "boundary"; "label_waterway"] /\
    Forall2 (decoded Demo.world) (categories (Demo.entry "train" "b")) info.
Proof.
  assert (Hres : get_processed_paths "b" Demo.table
                 = Ok (Demo.entry "train" "b")) by reflexivity.
  assert (Hnd : NoDup (keys (Demo.entry "train" "b"))).
  { repeat constructor; cbn; intuition discriminate. }
  split; [exact Hres|]. split; [exact Hnd|].
  destruct (all_image_info_categories Demo.world "b" Demo.table
              (Demo.entry "train" "b") Hres Hnd)
    as (info & Hrun & Hkeys & _ & Hall).
  - intros key path Hin Hcat. cbn in Hin.
    destruct Hin as [Hin|[Hin|[Hin|[Hin|[Hin|[]]]]]];
      injection Hin as <- <-;
      first [discriminate Hcat | eexists; reflexivity].
  - exists info. split; [exact Hrun|]. split; [exact Hkeys|exact Hall].
Defined.

(* ================================================================== *)
(** * Properties of the manifest store *)
(* ================================================================== *)

Local Open Scope stmt_scope.

Lemma append_all_run (src : list record) :
  forall (st : state) (l : list record),
    complete_paths st = Some l ->
    append_all src st = (Ok tt, with_complete st (Some (l ++ src))).
Proof.
  induction src as [|item src IH]; intros st l Hl.
  - cbn. unfold ret, with_complete. rewrite app_nil_r, <- Hl.
    now destruct st.
  - unfold append_all in *. cbn [for_each].
    unfold bind at 1. unfold bind at 1. unfold get_complete at 1.
    rewrite Hl. unfold set_complete at 1.
    rewrite (IH _ (l ++ [item])) by reflexivity.
    unfold with_complete. cbn. now rewrite <- app_assoc.
Qed.

(** Every outcome of [load_json_files], by the state of the three files. *)
Lemma load_json_files_cases (w : World) (dir : string) (st : state) :
  let run := load_json_files w dir st in
  match fs_exists w (train_json dir), fs_json w (train_json dir),
        fs_exists w (val_json dir), fs_json w (val_json dir),
        fs_exists w (test_json dir), fs_json w (test_json dir) with
  | false, _, _, _, _, _ => fst run = Raise (AssertionError "")
  | true, Raise e, _, _, _, _ => fst run = Raise e
  | true, Ok _, false, _, _, _ => fst run = Raise (AssertionError "")
  | true, Ok _, true, Raise e, _, _ => fst run = Raise e
  | true, Ok _, true, Ok _, false, _ => fst run = Raise (AssertionError "")
  | true, Ok _, true, Ok _, true, Raise e => fst run = Raise e
  | true, Ok train, true, Ok val, true, Ok test =>
      run = (Ok tt,
             mkState (Some train) (Some val) (Some test)
                     (Some (train ++ val ++ test)) (rng st)
                     (trace st ++ load_events dir))
  end.
Proof.
  unfold load_json_files, train_json, val_json, test_json, load_events.
  set (tr := path_join dir ["train.json"]).
  set (va := path_join dir ["val.json"]).
  set (te := path_join dir ["test.json"]).
  unfold path_exists, json_load, assert, lift, emit, ret, raise,
    set_train, set_val, set_test, set_complete.
  cbv zeta.
  destruct (fs_exists w tr); [|reflexivity].
  destruct (fs_json w tr) as [train|e]; [|reflexivity].
  destruct (fs_exists w va); [|reflexivity].
  destruct (fs_json w va) as [val|e]; [|reflexivity].
  destruct (fs_exists w te); [|reflexivity].
  destruct (fs_json w te) as [test|e]; [|reflexivity].
  cbn -[append_all path_join].
  unfold bind.
  erewrite append_all_run by reflexivity.
  erewrite append_all_run by reflexivity.
  erewrite append_all_run by reflexivity.
  unfold with_complete. cbn -[path_join].
  repeat rewrite <- app_assoc. reflexivity.
Qed.

(** C8. [load_json_files] fails when any of [train.json], [val.json],
    [test.json] is absent from the directory, with the [AssertionError]
    of the existence check when the files that are present parse; and
    when it succeeds the three globals hold the three parsed files and
    [complete_paths] is the train records, then the val records, then
    the test records, each in file order. *)
Theorem load_json_files_merged :
  forall (w : World) (dir : string) (st : state),
    ((exists p, In p (manifest_files dir) /\ fs_exists w p = false) ->
     (exists e st', load_json_files w dir st = (Raise e, st')) /\
     ((forall p, In p (manifest_files dir) -> fs_exists w p = true ->
                 is_ok (fs_json w p) = true) ->
      exists st', load_json_files w dir st = (Raise (AssertionError ""), st')))
    /\
    (forall st', load_json_files w dir st = (Ok tt, st') ->
       exists train val test,
         fs_json w (train_json dir) = Ok train /\
         fs_json w (val_json dir) = Ok val /\
         fs_json w (test_json dir) = Ok test /\
         train_data_paths st' = Some train /\
         val_data_paths st' = Some val /\
         test_data_paths st' = Some test /\
         complete_paths st' = Some (train ++ val ++ test)).
Proof.
  intros w dir st.
  pose proof (load_json_files_cases w dir st) as Hc. cbv zeta in Hc.
  destruct (load_json_files w dir st) as [r st1] eqn:Hrun. cbn [fst] in Hc.
  split.
  - intros (p & Hin & Hp).
    assert (Hor : fs_exists w (train_json dir) = false \/
                  fs_exists w (val_json dir) = false \/
                  fs_exists w (test_json dir) = false).
    { cbn in Hin. destruct Hin as [<-|[<-|[<-|[]]]]; auto. }
    split.
    + destruct (fs_exists w (train_json dir));
        [|subst r; eauto].
      destruct (fs_json w (train_json dir)); [|subst r; eauto].
      destruct (fs_exists w (val_json dir)); [|subst r; eauto].
      destruct (fs_json w (val_json dir)); [|subst r; eauto].
      destruct (fs_exists w (test_json dir)); [|subst r; eauto].
      destruct Hor as [?|[?|?]]; discriminate.
    + intros Hparse.
      assert (Ht := Hparse (train_json dir) (or_introl eq_refl)).
      assert (Hv := Hparse (val_json dir) (or_intror (or_introl eq_refl))).
      assert (He := Hparse (test_json dir)
                      (or_intror (or_intror (or_introl eq_refl)))).
      destruct (fs_exists w (train_json dir)); [|subst r; eauto].
      destruct (fs_json w (train_json dir));
        [|specialize (Ht eq_refl); discriminate].
      destruct (fs_exists w (val_json dir)); [|subst r; eauto].
      destruct (fs_json w (val_json dir));
        [|specialize (Hv eq_refl); discriminate].
      destruct (fs_exists w (test_json dir)); [|subst r; eauto].
      destruct Hor as [?|[?|?]]; discriminate.
  - intros st' E. injection E as Er Es. subst r st1.
    destruct (fs_exists w (train_json dir)); [|discriminate].
    destruct (fs_json w (train_json dir)) as [train|]; [|discriminate].
    destruct (fs_exists w (val_json dir)); [|discriminate].
    destruct (fs_json w (val_json dir)) as [val|]; [|discriminate].
    destruct (fs_exists w (test_json dir)); [|discriminate].
    destruct (fs_json w (test_json dir)) as [test|]; [|discriminate].
    injection Hc as Hc. subst st'.
    exists train, val, test. repeat split; reflexivity.
Qed.

Lemma load_json_files_merged_witness :
  (exists st',
     load_json_files Demo.world_no_val "/repo/data/Dataset" init_state =
       (Raise (AssertionError ""), st')) /\
  (exists st',
     load_json_files Demo.world "/repo/data/Dataset" init_state = (Ok tt, st')
     /\ complete_paths st' = Some (Demo.train ++ Demo.val ++ Demo.test)).
Proof.
  split.
  - destruct (load_json_files_merged Demo.world_no_val "/repo/data/Dataset"
                init_state) as [Hmiss _].
    destruct Hmiss as [_ Hassert].
    + exists "/repo/data/Dataset/val.json". split; [|vm_compute; reflexivity].
      right. left. vm_compute. reflexivity.
    + apply Hassert. intros p Hin _.
      destruct Hin as [<-|[<-|[<-|[]]]]; vm_compute; reflexivity.
  - destruct (load_json_files_merged Demo.world "/repo/data/Dataset"
                init_state) as [_ Hok].
    assert (Hrun : load_json_files Demo.world "/repo/data/Dataset" init_state
       = (Ok tt, mkState (Some Demo.train) (Some Demo.val) (Some Demo.test)
                   (Some Demo.table) 0 (load_events "/repo/data/Dataset")))
      by (vm_compute; reflexivity).
    destruct (Hok _ Hrun)
      as (train & val & test & Ht & Hv & He & _ & _ & _ & Hc).
    eexists. split; [exact Hrun|].
    vm_compute in Ht, Hv, He. injection Ht as <-. injection Hv as <-.
    injection He as <-. exact Hc.
Defined.

(* ================================================================== *)
(** * Sampling without replacement *)
(* ================================================================== *)

Section Sampling.

Context {A : Type}.

Lemma pick_some (i : nat) (pool : list A) :
  (i < List.length pool)%nat -> exists x rest, pick i pool = Some (x, rest).
Proof.
  revert i. induction pool as [|y pool IH]; intros i Hi; cbn in *; [lia|].
  destruct i as [|i]; cbn; [eauto|].
  destruct (IH i) as (x & rest & E); [lia|]. rewrite E. eauto.
Qed.

Lemma pick_perm (i : nat) (pool : list A) x rest :
  pick i pool = Some (x, rest) -> Permutation (x :: rest) pool.
Proof.
  revert i x rest. induction pool as [|y pool IH]; intros i x rest E;
    cbn in E; [discriminate|].
  destruct i as [|i]; cbn in E.
  - injection E as <- <-. apply Permutation_refl.
  - destruct (pick i pool) as [[z r]|] eqn:Ep; [|discriminate].
    injection E as <- <-.
    apply perm_trans with (y :: z :: r); [apply perm_swap|].
    apply perm_skip. now apply (IH i).
Qed.

Lemma draw_length (g : nat -> nat) (n : nat) :
  forall (pos : nat) (pool : list A),
    (n <= List.length pool)%nat -> List.length (draw g pos n pool) = n.
Proof.
  induction n as [|n IH]; intros pos pool Hn; [reflexivity|].
  cbn [draw].
  destruct (pick_some (g pos mod List.length pool) pool) as (x & rest & E).
  { apply Nat.mod_upper_bound. lia. }
  rewrite E. cbn. f_equal. apply IH.
  apply pick_perm, Permutation_length in E. cbn in E. lia.
Qed.

(** What is drawn, together with what is left, is the population. *)
Lemma draw_perm (g : nat -> nat) (n : nat) :
  forall (pos : nat) (pool : list A),
    exists rest, Permutation (draw g pos n pool ++ rest) pool.
Proof.
  induction n as [|n IH]; intros pos pool.
  - exists pool. apply Permutation_refl.
  - cbn [draw].
    destruct (pick (g pos mod List.length pool) pool) as [[x pool']|] eqn:E.
    + destruct (IH (S pos) pool') as [rest Hp]. exists rest.
      cbn. apply perm_trans with (x :: pool'); [now apply perm_skip|].
      now apply pick_perm with (i := g pos mod List.length pool).
    + exists pool. apply Permutation_refl.
Qed.


Lemma draw_In (g : nat -> nat) (n pos : nat) (pool : list A) x :
  In x (draw g pos n pool) -> In x pool.
Proof.
  intros Hin. destruct (draw_perm g n pos pool) as [rest Hp].
  apply (Permutation_in _ Hp). apply in_or_app. now left.
Qed.

End Sampling.

Lemma random_choice_ok {A} (w : World) (a : list A) (size : Z) (st : state) :
  (0 <= size <= Z.of_nat (List.length a))%Z ->
  random_choice w a size st =
    (Ok (draw (entropy w) (rng st) (Z.to_nat size) a),
     after_choice st (List.length a) size).
Proof.
  intros [H0 H1]. unfold random_choice, bind, emit, raise.
  replace (Z.of_nat (List.length a) <? size)%Z with false
    by (symmetry; apply Z.ltb_ge; lia).
  replace (size <? 0)%Z with false by (symmetry; apply Z.ltb_ge; lia).
  destruct ((List.length a =? 0)%nat && negb (size =? 0)%Z) eqn:E.
  - apply andb_true_iff in E. destruct E as [E1 E2].
    apply Nat.eqb_eq in E1. apply negb_true_iff, Z.eqb_neq in E2.
    rewrite E1 in H1. cbn in H1. lia.
  - reflexivity.
Qed.

Lemma random_choice_too_many {A} (w : World) (a : list A) (size : Z)
    (st : state) :
  (Z.of_nat (List.length a) < size)%Z ->
  (size < 2 ^ 64)%Z ->
  exists msg,
    random_choice w a size st =
      (Raise (ValueError msg),
       mkState (train_data_paths st) (val_data_paths st) (test_data_paths st)
               (complete_paths st) (rng st)
               (trace st ++ [EvChoice (List.length a) size])).
Proof.
  intros H Hfit. unfold random_choice, bind, emit, raise.
  destruct ((List.length a =? 0)%nat && negb (size =? 0)%Z); [eauto|].
  replace (Z.of_nat (List.length a) <? size)%Z with true
    by (symmetry; apply Z.ltb_lt; lia).
  replace (2 ^ 64 <=? size)%Z with false by (symmetry; apply Z.leb_gt; lia).
  destruct (2 ^ 63 <=? size)%Z; eauto.
Qed.


Lemma random_choice_negative {A} (w : World) (a : list A) (size : Z)
    (st : state) :
  (- 2 ^ 63 <= size < 0)%Z ->
  exists msg st', random_choice w a size st = (Raise (ValueError msg), st').
Proof.
  intros H. unfold random_choice, bind, emit, raise.
  destruct ((List.length a =? 0)%nat && negb (size =? 0)%Z); [eauto|].
  replace (Z.of_nat (List.length a) <? size)%Z with false
    by (symmetry; apply Z.ltb_ge; lia).
  replace (size <? 0)%Z with true by (symmetry; apply Z.ltb_lt; lia).
  replace (size <? - 2 ^ 63)%Z with false by (symmetry; apply Z.ltb_ge; lia).
  eauto.
Qed.

Lemma rmap_ok {A B} (f : A -> res B) (xs : list A) :
  (forall x, In x xs -> is_ok (f x) = true) ->
  exists ys, rmap f xs = Ok ys /\ Forall2 (fun x y => f x = Ok y) xs ys.
Proof.
  induction xs as [|x xs IH]; intros H.
  - exists []. split; constructor.
  - destruct IH as (ys & E & Hall); [intros; apply H; now right|].
    assert (Hx := H x (or_introl eq_refl)).
    destruct (f x) as [y|] eqn:Ex; [|discriminate].
    exists (y :: ys). cbn. rewrite Ex, E. cbn. split; [reflexivity|].
    now constructor.
Qed.

(* ================================================================== *)
(** * Reasoning about statements *)
(* ================================================================== *)

Lemma bind_lift_ok {A B} (a : A) (k : A -> M B) (st : state) :
  bind (lift (Ok a)) k st = k a st.
Proof. reflexivity. Qed.

Lemma bind_ret {A B} (a : A) (k : A -> M B) (st : state) :
  bind (ret a) k st = k a st.
Proof. reflexivity. Qed.

Lemma bind_run_ok {A B} (m : M A) (k : A -> M B) st a st' :
  m st = (Ok a, st') -> bind m k st = k a st'.
Proof. unfold bind. now intros ->. Qed.

Lemma bind_run_raise {A B} (m : M A) (k : A -> M B) st e st' :
  m st = (Raise e, st') -> bind m k st = (Raise e, st').
Proof. unfold bind. now intros ->. Qed.


Lemma fails_bind_r {A B} (m : M A) (k : A -> M B) :
  (forall a, fails (k a)) -> fails (bind m k).
Proof.
  intros H st. unfold bind. destruct (m st) as [[a|e] st'].
  - apply H.
  - eauto.
Qed.

Lemma fails_raise {A} (e : exn) : fails (@raise A e).
Proof. intros st. now exists e, st. Qed.

Lemma succeeds_bind {A B} (m : M A) (k : A -> M B) :
  succeeds m -> (forall a, succeeds (k a)) -> succeeds (bind m k).
Proof.
  intros Hm Hk st. destruct (Hm st) as (a & st' & E).
  rewrite (bind_run_ok _ _ _ _ _ E). apply Hk.
Qed.

Lemma succeeds_ret {A} (a : A) : succeeds (ret a).
Proof. intros st. now exists a, st. Qed.

Lemma succeeds_emit (e : event) : succeeds (emit e).
Proof. intros st. unfold emit. eauto. Qed.

Lemma succeeds_for_each {A} (xs : list A) (body : A -> M unit) :
  (forall x, In x xs -> succeeds (body x)) -> succeeds (for_each xs body).
Proof.
  induction xs as [|x xs IH]; intros H; cbn [for_each].
  - apply succeeds_ret.
  - apply succeeds_bind; [apply H; now left|].
    intros _. apply IH. intros y Hy. apply H. now right.
Qed.

Lemma succeeds_save_figure (w : World) (file : string) :
  succeeds (save_figure w file).
Proof.
  unfold save_figure, path_exists.
  repeat (apply succeeds_bind; [|intros ?]);
    try apply succeeds_emit; try apply succeeds_ret.
  destruct (negb _); [apply succeeds_emit | apply succeeds_ret].
Qed.

Section Effects.

Variable kind : event -> bool.

Lemma only_silent {A} (m : M A) :
  (forall st, trace (snd (m st)) = trace st) -> only kind m.
Proof.
  intros H st. exists []. now rewrite app_nil_r, H.
Qed.

Lemma only_ret {A} (a : A) : only kind (ret a).
Proof. now apply only_silent. Qed.

Lemma only_raise {A} (e : exn) : only kind (@raise A e).
Proof. now apply only_silent. Qed.

Lemma only_lift {A} (r : res A) : only kind (lift r).
Proof. now apply only_silent. Qed.

Lemma only_assert (b : bool) (msg : string) : only kind (assert b msg).
Proof. destruct b; now apply only_silent. Qed.

Lemma only_emit (e : event) : kind e = true -> only kind (emit e).
Proof.
  intros H st. exists [e]. cbn. now rewrite H.
Qed.

Lemma only_bind {A B} (m : M A) (k : A -> M B) :
  only kind m -> (forall a, only kind (k a)) -> only kind (bind m k).
Proof.
  intros Hm Hk st. unfold bind.
  destruct (Hm st) as (evs & E & Hr).
  destruct (m st) as [[a|e] st1]; cbn [snd] in *.
  - destruct (Hk a st1) as (evs' & E' & Hr').
    exists (evs ++ evs'). rewrite E', E, app_assoc, forallb_app, Hr, Hr'.
    now split.
  - exists evs. now split.
Qed.

Lemma only_for_each {A} (xs : list A) (body : A -> M unit) :
  (forall x, only kind (body x)) -> only kind (for_each xs body).
Proof.
  intros H. induction xs as [|x xs IH]; cbn [for_each].
  - apply only_ret.
  - apply only_bind; [apply H | intros _; exact IH].
Qed.

End Effects.

Ltac only_step :=
  first
    [ apply only_ret
    | apply only_raise
    | apply only_lift
    | apply only_assert
    | apply only_emit; reflexivity
    | apply only_silent; intros ?; reflexivity
    | apply only_for_each; intros ?
    | apply only_bind; [|intros ?] ].

(* ================================================================== *)
(** * Properties of the general presenter *)
(* ================================================================== *)


Lemma general_gather_in_range w num_imgs image_ids paths_list st :
  (4 < num_imgs < 10)%Z ->
  (num_imgs <= Z.of_nat (List.length image_ids))%Z ->
  (forall id, In id image_ids ->
              is_ok (all_image_info w id paths_list) = true) ->
  exists images,
    general_gather w num_imgs image_ids paths_list st =
      (Ok images, after_gather st (List.length image_ids) num_imgs) /\
    Forall2 (fun id info => all_image_info w id paths_list = Ok info)
      (draw (entropy w) (rng st) (Z.to_nat num_imgs) image_ids) images.
Proof.
  intros Hr Hn Hok. unfold general_gather, assert.
  replace ((4 <? num_imgs)%Z && (num_imgs <? 10)%Z) with true
    by (symmetry; apply andb_true_iff;
        split; apply Z.ltb_lt; lia).
  rewrite bind_ret.
  rewrite (bind_run_ok _ _ _ _ _
             (random_choice_ok w image_ids num_imgs st ltac:(lia))).
  set (sampled := draw (entropy w) (rng st) (Z.to_nat num_imgs) image_ids).
  destruct (rmap_ok (fun img => all_image_info w img paths_list) sampled)
    as (images & E & Hall).
  { intros id Hin. apply Hok. now apply draw_In in Hin. }
  exists images. split; [|exact Hall].
  rewrite E. unfold bind, lift, emit, ret, after_gather, after_choice.
  cbn. now rewrite <- app_assoc.
Qed.

Lemma dict_get_in_keys {V} (d : dict V) (k : string) :
  In k (keys d) -> exists v, dict_get d k = Some v.
Proof.
  induction d as [|[k' v'] d IH]; cbn; [intros []|].
  intros [->|Hin].
  - rewrite String.eqb_refl. eauto.
  - destruct (String.eqb k' k); eauto.
Qed.

(** A cell of a grid whose rows all carry the column categories. *)
Lemma succeeds_general_cell images order width indx :
  (indx mod width < List.length order)%nat ->
  (indx / 10 < List.length images)%nat ->
  Forall (fun row => keys row = order) images ->
  succeeds (general_cell images order width indx).
Proof.
  intros Hcol Hrow Hkeys. unfold general_cell, list_item.
  destruct (nth_error order (indx mod width)) as [image_type|] eqn:Et;
    [|apply nth_error_None in Et; lia].
  destruct (nth_error images (indx / 10)) as [row|] eqn:Er;
    [|apply nth_error_None in Er; lia].
  assert (Hin : In image_type (keys row)).
  { rewrite Forall_forall in Hkeys.
    rewrite (Hkeys row (nth_error_In _ _ Er)).
    exact (nth_error_In _ _ Et). }
  destruct (dict_get_in_keys row image_type Hin) as [im Him].
  intros st. rewrite bind_lift_ok.
  apply succeeds_bind.
  - destruct (indx / 10 =? 0)%nat; [apply succeeds_emit|apply succeeds_ret].
  - intros _ st1. rewrite bind_lift_ok. unfold getitem. rewrite Him.
    rewrite bind_lift_ok. apply succeeds_emit.
Qed.

Lemma subplots_grid (nrows ncols : Z) (st : state) :
  (1 <= nrows)%Z -> (1 <= ncols)%Z -> (nrows <> 1 \/ ncols <> 1)%Z ->
  subplots nrows ncols st =
    (Ok (AxesArray (Z.to_nat (nrows * ncols))),
     with_event st (EvSubplots nrows ncols)).
Proof.
  intros Hr Hc Hne. unfold subplots.
  replace (nrows <=? 0)%Z with false by (symmetry; apply Z.leb_gt; lia).
  replace (ncols <=? 0)%Z with false by (symmetry; apply Z.leb_gt; lia).
  replace ((nrows =? 1)%Z && (ncols =? 1)%Z) with false; [reflexivity|].
  symmetry. apply andb_false_iff.
  destruct Hne; [left|right]; now apply Z.eqb_neq.
Qed.


Lemma succeeds_general_plot (num_imgs : Z) images order :
  (4 < num_imgs < 10)%Z ->
  List.length images = Z.to_nat num_imgs ->
  (1 <= List.length order <= 10)%nat ->
  Forall (fun row => keys row = order) images ->
  succeeds (general_plot num_imgs images).
Proof.
  intros Hr Hlen Hk Hkeys. unfold general_plot.
  destruct images as [|first rest]; [cbn in Hlen; lia|].
  assert (Hfirst : keys first = order) by now inversion Hkeys.
  assert (Hw : List.length first = List.length order).
  { rewrite <- Hfirst. unfold keys. now rewrite length_map. }
  unfold list_item at 1. cbn [nth_error].
  set (images := first :: rest) in *.
  intros st. rewrite bind_lift_ok. cbv zeta.
  rewrite Hw, Hfirst.
  set (k := List.length order) in *.
  rewrite (bind_run_ok _ _ _ _ _
             (subplots_grid num_imgs (Z.of_nat k) st
                ltac:(lia) ltac:(lia) ltac:(lia))).
  cbn [axes_flat]. rewrite bind_ret.
  apply succeeds_bind; [|intros _; apply succeeds_emit].
  apply succeeds_for_each. intros indx Hin. apply in_seq in Hin.
  assert (Hcells : (indx < Z.to_nat num_imgs * k)%nat).
  { replace (Z.to_nat num_imgs * k)%nat
      with (Z.to_nat (num_imgs * Z.of_nat k)) by lia. lia. }
  apply succeeds_general_cell.
  - apply Nat.mod_upper_bound. lia.
  - rewrite Hlen. apply Nat.Div0.div_lt_upper_bound. nia.
  - exact Hkeys.
Qed.

Lemma Forall2_length_eq {A B} (R : A -> B -> Prop) xs ys :
  Forall2 R xs ys -> List.length xs = List.length ys.
Proof. induction 1; cbn; congruence. Qed.

Lemma Forall2_right {A B} (R : A -> B -> Prop) (P : B -> Prop) xs ys :
  Forall2 R xs ys -> (forall x y, In x xs -> R x y -> P y) -> Forall P ys.
Proof.
  induction 1 as [|x y xs ys HR _ IH]; intros H; constructor.
  - apply (H x y); [now left | exact HR].
  - apply IH. intros x' y' Hin. apply H. now right.
Qed.

(** What the loop body draws: the row is [indx // 10], whatever the
    number of columns. *)
Lemma general_cell_shows images order width indx st st' :
  general_cell images order width indx st = (Ok tt, st') ->
  exists image_type row im,
    nth_error order (indx mod width) = Some image_type /\
    nth_error images (indx / 10) = Some row /\
    dict_get row image_type = Some im /\
    exists evs, trace st' = trace st ++ evs ++ [EvImshow indx im].
Proof.
  unfold general_cell, list_item, getitem, bind, emit, lift, ret.
  destruct (nth_error order (indx mod width)) as [image_type|] eqn:Et;
    [|discriminate].
  destruct (nth_error images (indx / 10)) as [row|] eqn:Er;
    [|destruct (indx / 10 =? 0)%nat; discriminate].
  destruct (dict_get row image_type) as [im|] eqn:Ed;
    [|destruct (indx / 10 =? 0)%nat; discriminate].
  intros E. exists image_type, row, im.
  split; [reflexivity|]. split; [reflexivity|]. split; [exact Ed|].
  destruct (indx / 10 =? 0)%nat; cbn in E; injection E as <-; cbn.
  - eexists. rewrite <- app_assoc. reflexivity.
  - now exists [].
Qed.

(** With ten categories the row of a cell is the row of the grid: the
    cell in row [i] and column [j] draws the image of the [i]-th set for
    the [j]-th category. *)
Lemma general_cell_ten_columns images order i j st st' :
  (j < 10)%nat ->
  general_cell images order 10 (i * 10 + j) st = (Ok tt, st') ->
  exists image_type row im,
    nth_error order j = Some image_type /\
    nth_error images i = Some row /\
    dict_get row image_type = Some im /\
    exists evs, trace st' = trace st ++ evs ++ [EvImshow (i * 10 + j) im].
Proof.
  intros Hj E. apply general_cell_shows in E.
  replace ((i * 10 + j) mod 10)%nat with j in E
    by (rewrite Nat.add_comm, Nat.Div0.mod_add; symmetry;
        now apply Nat.mod_small).
  replace ((i * 10 + j) / 10)%nat with i in E
    by (rewrite Nat.add_comm, Nat.div_add by lia;
        rewrite Nat.div_small by lia; reflexivity).
  exact E.
Qed.

(** C1. On a dataset with three categories per identifier the grid has
    three columns, and the cell in row 1, column 0 (flat index 3) should
    show the [rgb] image of the second sampled identifier; the run
    completes and shows there the [rgb] image of the first one, a
    different image. *)
Theorem general_grid_row_defect :
  let run := show_random_general_images Demo.world 6 Demo.ids Demo.table
               true init_state in
  fst run = Ok tt /\
  draw (entropy Demo.world) 0 6 Demo.ids = ["b"; "e"; "c"; "d"; "f"; "a"] /\
  (exists first second,
     all_image_info Demo.world "b" Demo.table = Ok first /\
     all_image_info Demo.world "e" Demo.table = Ok second /\
     keys first = ["rgb"; "boundary"; "label_waterway"] /\
     shown (trace (snd run)) (1 * 3 + 0) = dict_get first "rgb" /\
     shown (trace (snd run)) (1 * 3 + 0) <> dict_get second "rgb").
Proof.
  cbv zeta. split; [vm_compute; reflexivity|].
  split; [vm_compute; reflexivity|].
  eexists. eexists.
  split; [vm_compute; reflexivity|].
  split; [vm_compute; reflexivity|].
  split; [vm_compute; reflexivity|].
  split; [vm_compute; reflexivity|].
  vm_compute. discriminate.
Qed.

(* ================================================================== *)
(** * Properties of the specific presenter *)
(* ================================================================== *)



Lemma specific_gather_shape w r c size image_ids image_types paths_list st :
  items_of size = [r; c] -> is_list_or_tuple size = true ->
  specific_gather w size image_ids image_types paths_list st =
    (random_images <~ random_choice w image_ids (r * c)%Z ;;
     images <~ lift (rmap (fun img =>
                 single_image_info w img image_types paths_list)
                 random_images) ;;
     emit EvPrint ;;; ret images) st.
Proof.
  intros Hi Hs. unfold specific_gather, assert. rewrite Hs, Hi.
  reflexivity.
Qed.

Lemma show_specific_shape w r c size image_ids image_types paths_list
    save st :
  items_of size = [r; c] -> is_list_or_tuple size = true ->
  show_random_specific_images w size image_ids image_types paths_list save st
  = (images <~ specific_gather w size image_ids image_types paths_list ;;
     ax <~ subplots r c ;;
     cells <~ axes_flat ax ;;
     for_each cells (fun indx =>
       im <~ lift (list_item images indx) ;;
       emit (EvImshow indx im)) ;;;
     emit EvShow ;;;
     if save then save_figure w "inspected-specific.png" else ret tt) st.
Proof.
  intros Hi Hs. unfold show_random_specific_images. rewrite Hi.
  reflexivity.
Qed.

Lemma specific_gather_in_range w r c size image_ids image_types paths_list
    st :
  items_of size = [r; c] -> is_list_or_tuple size = true ->
  (0 <= r * c <= Z.of_nat (List.length image_ids))%Z ->
  (forall id, In id image_ids ->
     is_ok (single_image_info w id image_types paths_list) = true) ->
  exists images,
    specific_gather w size image_ids image_types paths_list st =
      (Ok images, after_gather st (List.length image_ids) (r * c)) /\
    Forall2 (fun id im =>
               single_image_info w id image_types paths_list = Ok im)
      (draw (entropy w) (rng st) (Z.to_nat (r * c)) image_ids) images.
Proof.
  intros Hi Hs Hn Hok.
  rewrite (specific_gather_shape w r c) by assumption.
  rewrite (bind_run_ok _ _ _ _ _
             (random_choice_ok w image_ids (r * c)%Z st Hn)).
  set (sampled := draw (entropy w) (rng st) (Z.to_nat (r * c)) image_ids).
  destruct (rmap_ok (fun img =>
              single_image_info w img image_types paths_list) sampled)
    as (images & E & Hall).
  { intros id Hin. apply Hok. now apply draw_In in Hin. }
  exists images. split; [|exact Hall].
  rewrite E. unfold bind, lift, emit, ret, after_gather, after_choice.
  cbn. now rewrite <- app_assoc.
Qed.

Lemma bind_emit {A} (e : event) (k : unit -> M A) (st : state) :
  bind (emit e) k st = k tt (with_event st e).
Proof. reflexivity. Qed.

Lemma bind_assoc {A B C} (m : M A) (k1 : A -> M B) (k2 : B -> M C) st :
  bind (bind m k1) k2 st = bind m (fun x => bind (k1 x) k2) st.
Proof. unfold bind. now destruct (m st) as [[a|e] st']. Qed.

Lemma only_save_figure kind (w : World) (file : string) :
  (forall e, kind e = true) -> only kind (save_figure w file).
Proof.
  intros Hk. unfold save_figure, path_exists.
  repeat first [apply only_emit; apply Hk | only_step].
  destruct (negb _); [apply only_emit; apply Hk | apply only_ret].
Qed.

(** Once the images are gathered the next effect is the creation of the
    grid, with the two elements of [size] as they were given. *)
Lemma show_specific_reaches_subplots w r c size image_ids image_types
    paths_list save st images st1 :
  items_of size = [r; c] -> is_list_or_tuple size = true ->
  specific_gather w size image_ids image_types paths_list st
    = (Ok images, st1) ->
  exists evs,
    trace (snd (show_random_specific_images w size image_ids image_types
                  paths_list save st))
    = trace st1 ++ [EvSubplots r c] ++ evs.
Proof.
  intros Hi Hs Hrun.
  rewrite (show_specific_shape w r c) by assumption.
  rewrite (bind_run_ok _ _ _ _ _ Hrun).
  unfold subplots. rewrite bind_assoc, bind_emit.
  match goal with
  | |- context [snd (?m (with_event st1 ?e))] =>
      assert (Ho : only any_event m)
  end.
  { repeat first
      [ apply only_save_figure; reflexivity
      | apply only_emit; reflexivity
      | only_step
      | match goal with
        | |- only _ (if ?b then _ else _) => destruct b
        | |- only _ (axes_flat ?a) => destruct a; cbn [axes_flat]
        end ]. }
  destruct (Ho (with_event st1 (EvSubplots r c))) as (evs & E & _).
  exists evs. rewrite E. cbn. now rewrite <- app_assoc.
Qed.


(** A two-element [size] whose product lies between 0 and the number of
    identifiers, all of which can be assembled for the category: the
    sampling and the gathering go ahead whatever the signs of the
    elements, yield as many images as the product, and the next effect
    is the creation of the grid. *)
Lemma show_specific_in_range w r c size image_ids image_types paths_list
    save st :
  items_of size = [r; c] -> is_list_or_tuple size = true ->
  (0 <= r * c <= Z.of_nat (List.length image_ids))%Z ->
  (forall id, In id image_ids ->
     is_ok (single_image_info w id image_types paths_list) = true) ->
  exists images evs,
    specific_gather w size image_ids image_types paths_list st =
      (Ok images, after_gather st (List.length image_ids) (r * c)) /\
    List.length images = Z.to_nat (r * c) /\
    Forall2 (fun id im =>
               single_image_info w id image_types paths_list = Ok im)
      (draw (entropy w) (rng st) (Z.to_nat (r * c)) image_ids) images /\
    trace (snd (show_random_specific_images w size image_ids image_types
                  paths_list save st))
    = trace st ++ [EvChoice (List.length image_ids) (r * c); EvPrint;
                   EvSubplots r c] ++ evs.
Proof.
  intros Hi Hs Hn Hok.
  destruct (specific_gather_in_range w r c size image_ids image_types
              paths_list st Hi Hs Hn Hok) as (images & Hrun & Hall).
  destruct (show_specific_reaches_subplots w r c size image_ids image_types
              paths_list save st images _ Hi Hs Hrun) as [evs Ht].
  exists images, evs. split; [exact Hrun|]. split; [|split].
  - rewrite <- (Forall2_length_eq _ _ _ Hall). apply draw_length. lia.
  - exact Hall.
  - rewrite Ht. unfold after_gather. cbn [trace].
    now rewrite <- app_assoc.
Qed.

(** The shape [(-2, -3)] passes the two assertions of the function:
    six identifiers are sampled and their images decoded, and it is the
    creation of the grid that rejects the call. *)
Lemma specific_negative_shape_reaches_grid :
  positive_shape (PyTuple [-2; -3]%Z) = false /\
  two_element_sequence (PyTuple [-2; -3]%Z) = true /\
  (exists images st',
     specific_gather Demo.world (PyTuple [-2; -3]%Z) Demo.ids "boundary"
       Demo.table init_state = (Ok images, st') /\
     List.length images = 6%nat) /\
  (exists msg st',
     show_random_specific_images Demo.world (PyTuple [-2; -3]%Z)
       Demo.ids "boundary" Demo.table true init_state
     = (Raise (ValueError msg), st') /\
     trace st' = [EvChoice 6 6; EvPrint; EvSubplots (-2) (-3)]).
Proof.
  split; [reflexivity|]. split; [reflexivity|]. split.
  - eexists. eexists. split; [vm_compute; reflexivity|reflexivity].
  - eexists. eexists. split; [vm_compute; reflexivity|reflexivity].
Qed.




(* ================================================================== *)
(** * Properties of the entry point *)
(* ================================================================== *)

Lemma reads_only_append_all (src : list record) :
  reads_only (append_all src).
Proof.
  unfold append_all. apply only_for_each. intros item.
  apply only_bind; [now apply only_silent|].
  intros [l|]; [now apply only_silent | apply only_raise].
Qed.

Lemma reads_only_load_json_files (w : World) (dir : string) :
  reads_only (load_json_files w dir).
Proof.
  unfold load_json_files, path_exists, json_load.
  repeat first [apply reads_only_append_all | only_step].
Qed.

Lemma reads_only_list_image_ids (w : World) (dataset_dir : string)
    (modes : list string) :
  forall image_ids, reads_only (list_image_ids w dataset_dir modes image_ids).
Proof.
  induction modes as [|m modes IH]; intros image_ids; cbn [list_image_ids].
  - apply only_ret.
  - unfold path_exists, listdir. cbv zeta. repeat only_step. apply IH.
Qed.

Lemma reads_only_get_image_names (w : World) (mode dataset_dir : string) :
  reads_only (get_image_names w mode dataset_dir).
Proof.
  unfold get_image_names.
  destruct (negb _); [apply only_raise|].
  apply reads_only_list_image_ids.
Qed.

Lemma reads_only_get_classes_dict (w : World) (dataset_dir : string) :
  reads_only (get_classes_dict w dataset_dir).
Proof.
  unfold get_classes_dict, listdir. repeat only_step.
Qed.

(** With a mode that is neither [specific] nor [general], [main] is the
    loading and listing followed by the error. *)
Lemma main_invalid_mode_unfold (w : World) (a : args) :
  String.eqb (mode a) "specific" = false ->
  String.eqb (mode a) "general" = false ->
  main w a =
    (set_complete None ;;;
     load_json_files w (path_join (project_root w) ["data"; "Dataset"]) ;;;
     image_files <~ get_image_names w "train" (directory a) ;;
     label_dict <~ get_classes_dict w (directory a) ;;
     c <~ get_complete ;;
     raise invalid_mode_error).
Proof.
  intros Hs Hg. unfold main. rewrite Hs, Hg. reflexivity.
Qed.

Lemma main_invalid_mode_fails (w : World) (a : args) :
  String.eqb (mode a) "specific" = false ->
  String.eqb (mode a) "general" = false ->
  fails (main w a) /\ reads_only (main w a).
Proof.
  intros Hs Hg. rewrite (main_invalid_mode_unfold w a Hs Hg). split.
  - repeat (apply fails_bind_r; intros ?). apply fails_raise.
  - repeat first
      [ apply reads_only_load_json_files
      | apply reads_only_get_image_names
      | apply reads_only_get_classes_dict
      | only_step ].
Qed.

Lemma main_invalid_mode_run (w : World) (a : args) (st : state)
    train val test names labels :
  String.eqb (mode a) "specific" = false ->
  String.eqb (mode a) "general" = false ->
  fs_exists w (train_json (manifest_dir w)) = true ->
  fs_exists w (val_json (manifest_dir w)) = true ->
  fs_exists w (test_json (manifest_dir w)) = true ->
  fs_json w (train_json (manifest_dir w)) = Ok train ->
  fs_json w (val_json (manifest_dir w)) = Ok val ->
  fs_json w (test_json (manifest_dir w)) = Ok test ->
  fs_exists w (rgb_dir a) = true ->
  fs_listdir w (rgb_dir a) = Ok names ->
  fs_listdir w (labels_dir a) = Ok labels ->
  main w a st =
    (Raise invalid_mode_error,
     mkState (Some train) (Some val) (Some test)
             (Some (train ++ val ++ test)) (rng st)
             (trace st ++ preparation_events w a)).
Proof.
  intros Hs Hg Het Hev Hee Hjt Hjv Hje Her Hln Hll.
  rewrite (main_invalid_mode_unfold w a Hs Hg).
  pose proof (load_json_files_cases w (manifest_dir w)
                (with_complete st None)) as Hload.
  cbv zeta in Hload. rewrite Het, Hev, Hee, Hjt, Hjv, Hje in Hload.
  fold (manifest_dir w).
  rewrite (bind_run_ok _ _ st tt (with_complete st None)) by reflexivity.
  rewrite (bind_run_ok _ _ _ _ _ Hload).
  unfold get_image_names, get_classes_dict.
  cbn [str_in existsb String.eqb Ascii.eqb Bool.eqb orb negb].
  cbn [list_image_ids]. fold (rgb_dir a). fold (labels_dir a).
  unfold path_exists, listdir, bind, emit, lift, assert, ret, raise,
    get_complete.
  unfold with_complete.
  repeat (progress
            (cbn [trace rng train_data_paths val_data_paths test_data_paths
                  complete_paths];
             rewrite ?Her, ?Hln, ?Hll)).
  unfold preparation_events.
  repeat rewrite <- app_assoc. reflexivity.
Qed.

(** C2 (as the program behaves). With a mode that is neither [specific]
    nor [general], [main] always ends in an exception and does nothing
    but read: no sampling, plotting or saving. The reads come first:
    when the three manifests and the two dataset folders can be read,
    the manifests are loaded and merged, the image folder and the label
    folder are listed, and only then the invalid-mode [ValueError] is
    raised. *)
Theorem main_rejects_invalid_mode :
  forall (w : World) (a : args) (st : state),
    mode a <> "specific" -> mode a <> "general" ->
    (exists e st' evs,
       main w a st = (Raise e, st') /\
       trace st' = trace st ++ evs /\ forallb reading evs = true)
    /\
    (forall train val test names labels,
       fs_exists w (train_json (manifest_dir w)) = true ->
       fs_exists w (val_json (manifest_dir w)) = true ->
       fs_exists w (test_json (manifest_dir w)) = true ->
       fs_json w (train_json (manifest_dir w)) = Ok train ->
       fs_json w (val_json (manifest_dir w)) = Ok val ->
       fs_json w (test_json (manifest_dir w)) = Ok test ->
       fs_exists w (rgb_dir a) = true ->
       fs_listdir w (rgb_dir a) = Ok names ->
       fs_listdir w (labels_dir a) = Ok labels ->
       main w a st =
         (Raise invalid_mode_error,
          mkState (Some train) (Some val) (Some test)
                  (Some (train ++ val ++ test)) (rng st)
                  (trace st ++ preparation_events w a))).
Proof.
  intros w a st Hs Hg.
  apply String.eqb_neq in Hs, Hg.
  split.
  - destruct (main_invalid_mode_fails w a Hs Hg) as [Hf Hr].
    destruct (Hf st) as (e & st' & E). destruct (Hr st) as (evs & Ht & Hev).
    exists e, st', evs. rewrite E in Ht. now repeat split.
  - intros. now apply main_invalid_mode_run with (names := names)
                                               (labels := labels).
Qed.

Lemma main_rejects_invalid_mode_witness :
  mode Demo.bogus_args <> "specific" /\
  mode Demo.bogus_args <> "general" /\
  main Demo.world Demo.bogus_args init_state =
    (Raise invalid_mode_error,
     mkState (Some Demo.train) (Some Demo.val) (Some Demo.test)
             (Some (Demo.train ++ Demo.val ++ Demo.test)) 0
             (preparation_events Demo.world Demo.bogus_args)).
Proof.
  assert (Hs : mode Demo.bogus_args <> "specific") by discriminate.
  assert (Hg : mode Demo.bogus_args <> "general") by discriminate.
  split; [exact Hs|]. split; [exact Hg|].
  destruct (main_rejects_invalid_mode Demo.world Demo.bogus_args init_state Hs Hg)
    as [_ Hrun].
  apply (Hrun Demo.train Demo.val Demo.test
           (map (fun i : string => (i ++ ".jpg")%string) Demo.ids)
           ["waterway"; "weed_cluster"]); reflexivity.
Defined.

(** C2 (as stated) fails: on the demo dataset a run with the mode
    [bogus] has read the three manifests and listed the image and label
    folders when the invalid-mode error is raised. *)
Lemma main_invalid_mode_reads_first :
  exists st',
    main Demo.world Demo.bogus_args init_state =
      (Raise invalid_mode_error, st') /\
    trace st' =
      [EvExists "/repo/data/Dataset/train.json";
       EvOpenJson "/repo/data/Dataset/train.json";
       EvExists "/repo/data/Dataset/val.json";
       EvOpenJson "/repo/data/Dataset/val.json";
       EvExists "/repo/data/Dataset/test.json";
       EvOpenJson "/repo/data/Dataset/test.json";
       EvExists "/data/Agriculture-Vision/train/images/rgb";
       EvListdir "/data/Agriculture-Vision/train/images/rgb";
       EvListdir "/data/Agriculture-Vision/train/labels"] /\
    complete_paths st' = Some Demo.table /\
    ~ (trace st' = trace init_state).
Proof.
  eexists. split; [vm_compute; reflexivity|].
  split; [reflexivity|]. split; [reflexivity|]. discriminate.
Qed.

(* ================================================================== *)
(** * Properties of the model selector *)
(* ================================================================== *)

(** C10. On a dictionary [_validate_custom_objects] is the identity: any
    dictionary, whatever its keys and values, is returned as it is and
    nothing is raised. *)
Theorem validate_custom_objects_mapping :
  forall d : dict py_object, _validate_custom_objects (Mapping d) = Ok d.
Proof. intros d. reflexivity. Qed.

(** The dictionary reaches [load_model] as it was given. *)
Lemma initialize_model_passes_mapping (w : Env) self path kwargs d :
  (endswith path ".hdf5" || endswith path ".h5") = true ->
  file_exists w path = true ->
  dict_get kwargs "custom_objects" = Some (Mapping d) ->
  _initialize_model w self path kwargs = assign_loaded w path (Some d).
Proof.
  intros He Hx Hk. unfold _initialize_model. now rewrite He, Hx, Hk.
Qed.

(** C9 (as the program behaves). The shortcuts [scl] and [surface] give
    the same mapping, the surface channel loss; [dice] gives the dice
    loss; the comparison is made on the lower-cased string, so that a
    string fails with the invalid-shortcut [ValueError], which names it,
    exactly when its lower-cased form is none of the three. *)
Theorem validate_custom_objects_shortcut :
  _validate_custom_objects (Shortcut "scl") = Ok surface_objects /\
  _validate_custom_objects (Shortcut "surface") =
    _validate_custom_objects (Shortcut "scl") /\
  _validate_custom_objects (Shortcut "dice") = Ok dice_objects /\
  (forall s : string,
     (lower s = "dice" ->
      _validate_custom_objects (Shortcut s) = Ok dice_objects) /\
     (lower s = "scl" \/ lower s = "surface" ->
      _validate_custom_objects (Shortcut s) = Ok surface_objects) /\
     (lower s <> "dice" -> lower s <> "scl" -> lower s <> "surface" ->
      _validate_custom_objects (Shortcut s) = Raise (invalid_shortcut s))).
Proof.
  split; [reflexivity|]. split; [reflexivity|]. split; [reflexivity|].
  intros s. split; [|split].
  - intros H. unfold _validate_custom_objects. now rewrite H.
  - intros [H|H]; unfold _validate_custom_objects; now rewrite H.
  - intros Hd Hs Hf. unfold _validate_custom_objects.
    apply String.eqb_neq in Hd, Hs, Hf. now rewrite Hd, Hs, Hf.
Qed.

Lemma validate_custom_objects_shortcut_witness :
  lower "unknown" <> "dice" /\ lower "unknown" <> "scl" /\
  lower "unknown" <> "surface" /\
  _validate_custom_objects (Shortcut "unknown") =
    Raise (ValueError
             "Received invalid custom object shortcut keyword unknown.") /\
  _validate_custom_objects (Shortcut "Surface") = Ok surface_objects.
Proof.
  destruct validate_custom_objects_shortcut as (_ & _ & _ & H).
  assert (Hd : lower "unknown" <> "dice") by discriminate.
  assert (Hs : lower "unknown" <> "scl") by discriminate.
  assert (Hf : lower "unknown" <> "surface") by discriminate.
  split; [exact Hd|]. split; [exact Hs|]. split; [exact Hf|]. split.
  - apply (H "unknown"); assumption.
  - apply (H "Surface"). right. reflexivity.
Defined.

(** C9 (as stated) fails: [DICE] is a string other than [scl],
    [surface] and [dice], and it is accepted as the dice shortcut. *)
Lemma validate_custom_objects_upper_case :
  "DICE" <> "dice" /\ "DICE" <> "scl" /\ "DICE" <> "surface" /\
  _validate_custom_objects (Shortcut "DICE") = Ok dice_objects /\
  ~ (exists e, _validate_custom_objects (Shortcut "DICE") = Raise e).
Proof.
  split; [discriminate|]. split; [discriminate|]. split; [discriminate|].
  split; [reflexivity|]. intros [e H]. discriminate.
Qed.

(** C5 (as the program behaves). A token that does not end in [.hdf5]
    or [.h5] and whose lower-cased form is in none of the three
    shortcut groups leaves the object as it was: no exception, and
    after [__init__] the [model] attribute is [None]. *)
Theorem initialize_model_unrecognized :
  forall (w : Env) (self : FarmlandAnomalyModel)
         (token : string) (kwargs : dict custom_arg),
    model_file token = false ->
    recognized_shortcut token = false ->
    _initialize_model w self token kwargs = Ok self /\
    __init__ w token kwargs = Ok (mkSelf None).
Proof.
  intros w self token kwargs Hf Hr.
  unfold model_file in Hf. unfold recognized_shortcut in Hr.
  apply orb_false_iff in Hr. destruct Hr as [Hr H3].
  apply orb_false_iff in Hr. destruct Hr as [H1 H2].
  unfold __init__, _initialize_model. rewrite Hf, H1, H2, H3. now split.
Qed.

Lemma initialize_model_unrecognized_witness :
  model_file "resnet" = false /\ recognized_shortcut "resnet" = false /\
  _initialize_model stage3_world (mkSelf None) "resnet" [] = Ok (mkSelf None) /\
  __init__ stage3_world "resnet" [] = Ok (mkSelf None).
Proof.
  split; [reflexivity|]. split; [reflexivity|].
  apply (initialize_model_unrecognized stage3_world (mkSelf None) "resnet" []);
    reflexivity.
Defined.

(** C5 (as stated) fails: [FINAL] does not end in a model-file
    extension and is not one of the listed names, yet the stage 3
    weights are loaded and the model is set. *)
Lemma initialize_model_upper_case :
  model_file "FINAL" = false /\
  str_in "FINAL" (stage1_names ++ stage2_names ++ stage3_names) = false /\
  __init__ stage3_world "FINAL" [] = Ok (mkSelf (Some (Model 60))) /\
  __init__ stage3_world "FINAL" [] <> Ok (mkSelf None).
Proof.
  split; [reflexivity|]. split; [reflexivity|]. split; [reflexivity|].
  discriminate.
Qed.

(* ================================================================== *)
(** * Properties of the dataset listing *)
(* ================================================================== *)

Lemma number_classes_spec (skip : bool) (items : list string) :
  forall (count : nat) (class_dict : list (nat * string)),
    let kept := filter (fun item =>
                  negb (String.eqb item ".DS_Store" && skip)) items in
    number_classes items skip count class_dict =
      class_dict ++ combine (seq count (List.length kept)) kept.
Proof.
  induction items as [|item items IH]; intros count class_dict; cbn.
  - now rewrite app_nil_r.
  - destruct (String.eqb item ".DS_Store" && skip); cbn.
    + apply IH.
    + cbv zeta in IH. rewrite IH, <- app_assoc. reflexivity.
Qed.

(** X1. [get_classes_dict] lists the label folder once; class 0 is the
    background and the folders are numbered 1, 2, ... in the order of
    the listing, a [.DS_Store] entry being left out on macOS only. When
    the listing fails the exception is passed on. *)
Theorem get_classes_dict_numbering :
  forall (w : World) (dataset_dir : string) (st : state),
    (forall items,
        fs_listdir w (train_labels_dir dataset_dir) = Ok items ->
        get_classes_dict w dataset_dir st =
          (Ok ((0, "background")
                 :: combine (seq 1 (List.length (numbered_labels w items)))
                            (numbered_labels w items)),
           with_event st (EvListdir (train_labels_dir dataset_dir))))
    /\
    (forall e,
        fs_listdir w (train_labels_dir dataset_dir) = Raise e ->
        get_classes_dict w dataset_dir st =
          (Raise e, with_event st (EvListdir (train_labels_dir dataset_dir)))).
Proof.
  intros w dataset_dir st.
  unfold get_classes_dict, listdir, train_labels_dir. split.
  - intros items H. rewrite bind_assoc, bind_emit.
    unfold bind, lift. rewrite H. unfold ret.
    now rewrite number_classes_spec.
  - intros e H. rewrite bind_assoc, bind_emit.
    unfold bind, lift. now rewrite H.
Qed.

Lemma get_classes_dict_numbering_witness :
  get_classes_dict three_splits "/d" init_state =
    (Ok [(0, "background"); (1, "waterway"); (2, "weed_cluster")],
     with_event init_state (EvListdir "/d/train/labels")) /\
  fst (get_classes_dict Demo.world "/nowhere" init_state) =
    Raise (FileNotFoundError "/nowhere/train/labels").
Proof.
  split.
  - destruct (get_classes_dict_numbering three_splits "/d" init_state)
      as [H _].
    exact (H ["waterway"; ".DS_Store"; "weed_cluster"] eq_refl).
  - destruct (get_classes_dict_numbering Demo.world "/nowhere" init_state)
      as [_ H].
    rewrite (H (FileNotFoundError "/nowhere/train/labels")); reflexivity.
Defined.

Lemma list_image_ids_result (w : World) (dataset_dir : string)
    (modes : list string) :
  forall (image_ids : list string) (st : state),
    fst (list_image_ids w dataset_dir modes image_ids st) =
      collect_ids w dataset_dir modes image_ids.
Proof.
  induction modes as [|mode rest IH]; intros image_ids st; [reflexivity|].
  cbn [list_image_ids collect_ids]. unfold split_ids.
  fold (split_rgb_dir dataset_dir mode). cbv zeta.
  unfold path_exists, listdir. rewrite !bind_assoc, bind_emit, bind_ret.
  destruct (fs_exists w (split_rgb_dir dataset_dir mode)); [|reflexivity].
  cbn [assert]. rewrite bind_ret, bind_assoc, bind_emit.
  unfold bind at 1, lift.
  destruct (fs_listdir w (split_rgb_dir dataset_dir mode)) as [names|e];
    [|reflexivity].
  cbn [rbind]. apply IH.
Qed.

Lemma get_image_names_split (w : World) (mode dataset_dir : string)
    (st : state) :
  str_in mode ["train"; "val"; "test"] = true ->
  fst (get_image_names w mode dataset_dir st) = split_ids w dataset_dir mode.
Proof.
  intros Hm. unfold get_image_names.
  assert (Hvalid : str_in mode ["train"; "val"; "test"; "full"] = true).
  { cbn in *. repeat (destruct (String.eqb mode _); [reflexivity|]).
    discriminate. }
  assert (Hfull : String.eqb mode "full" = false).
  { cbn in Hm. destruct (String.eqb_spec mode "full") as [->|]; auto. }
  rewrite Hvalid, Hfull. cbn [negb]. cbv zeta.
  rewrite list_image_ids_result. cbn [collect_ids app].
  destruct (split_ids w dataset_dir mode); reflexivity.
Qed.

(** X2. The identifiers of the mode [full] are those of [train], then
    those of [val], then those of [test]; the first split that fails
    makes the whole call fail with its exception. *)
Theorem get_image_names_full :
  forall (w : World) (dataset_dir : string) (st st1 st2 st3 : state),
    fst (get_image_names w "full" dataset_dir st) =
      (l1 <- fst (get_image_names w "train" dataset_dir st1) ;;
       l2 <- fst (get_image_names w "val" dataset_dir st2) ;;
       l3 <- fst (get_image_names w "test" dataset_dir st3) ;;
       Ok (l1 ++ l2 ++ l3)).
Proof.
  intros w dataset_dir st st1 st2 st3.
  rewrite (get_image_names_split w "train") by reflexivity.
  rewrite (get_image_names_split w "val") by reflexivity.
  rewrite (get_image_names_split w "test") by reflexivity.
  unfold get_image_names. cbn [str_in existsb String.eqb Ascii.eqb Bool.eqb
                               orb negb].
  cbv zeta. rewrite list_image_ids_result. cbn [collect_ids app].
  destruct (split_ids w dataset_dir "train") as [l1|]; [|reflexivity].
  destruct (split_ids w dataset_dir "val") as [l2|]; [|reflexivity].
  destruct (split_ids w dataset_dir "test") as [l3|]; [|reflexivity].
  cbn [rbind]. now rewrite <- app_assoc.
Qed.

Lemma substring_app_prefix (s t : string) :
  String.substring 0 (String.length s) (s ++ t) = s.
Proof.
  induction s as [|c s IH]; cbn.
  - now destruct t.
  - now rewrite IH.
Qed.

Lemma length_app_string (s t : string) :
  String.length (s ++ t) = (String.length s + String.length t)%nat.
Proof. induction s as [|c s IH]; cbn; [reflexivity | now rewrite IH]. Qed.

Lemma drop_last_app (s ext : string) :
  drop_last (String.length ext) (s ++ ext) = s.
Proof.
  unfold drop_last. rewrite length_app_string.
  replace (String.length s + String.length ext - String.length ext)%nat
    with (String.length s) by lia.
  apply substring_app_prefix.
Qed.

Lemma map_drop_last_ext (ext : string) (ids : list string) :
  String.length ext = 4%nat ->
  map (fun id : string => drop_last 4 (id ++ ext)) ids = ids.
Proof.
  intros <-. induction ids as [|id ids IH]; cbn [map]; [reflexivity|].
  now rewrite drop_last_app, IH.
Qed.

(** X3. The identifier of an image is its file name without its last
    four characters: a folder of files named [id ++ ext], with an
    extension of four characters such as [.jpg], gives back the
    identifiers, in the order of the listing, after one existence check
    and one listing of the folder. *)
Theorem get_image_names_strips_extension :
  forall (w : World) (mode dataset_dir ext : string) (ids : list string)
         (st : state),
    str_in mode ["train"; "val"; "test"] = true ->
    String.length ext = 4%nat ->
    fs_exists w (split_rgb_dir dataset_dir mode) = true ->
    fs_listdir w (split_rgb_dir dataset_dir mode) =
      Ok (map (fun id : string => (id ++ ext)%string) ids) ->
    get_image_names w mode dataset_dir st =
      (Ok ids,
       with_event (with_event st (EvExists (split_rgb_dir dataset_dir mode)))
                  (EvListdir (split_rgb_dir dataset_dir mode))).
Proof.
  intros w mode dataset_dir ext ids st Hm Hext Hex Hls.
  unfold get_image_names.
  assert (Hvalid : str_in mode ["train"; "val"; "test"; "full"] = true).
  { cbn in *. repeat (destruct (String.eqb mode _); [reflexivity|]).
    discriminate. }
  assert (Hfull : String.eqb mode "full" = false).
  { cbn in Hm. destruct (String.eqb_spec mode "full") as [->|]; auto. }
  rewrite Hvalid, Hfull. cbn [negb list_image_ids]. cbv zeta.
  fold (split_rgb_dir dataset_dir mode).
  unfold path_exists, listdir. rewrite !bind_assoc, bind_emit, bind_ret.
  rewrite Hex. cbn [assert]. rewrite bind_ret, bind_assoc, bind_emit.
  unfold bind, lift. rewrite Hls. unfold ret. cbn [app].
  rewrite map_map.
  now rewrite (map_drop_last_ext ext ids Hext).
Qed.

Lemma get_image_names_strips_extension_witness :
  get_image_names three_splits "train" "/d" init_state =
    (Ok ["a"; "b"],
     with_event (with_event init_state (EvExists "/d/train/images/rgb"))
                (EvListdir "/d/train/images/rgb")) /\
  fst (get_image_names three_splits "full" "/d" init_state) =
    Ok ["a"; "b"; "c"; "d"; "e"].
Proof.
  split; [|reflexivity].
  apply (get_image_names_strips_extension three_splits "train" "/d" ".jpg"
           ["a"; "b"] init_state); reflexivity.
Defined.

(** X4. [get_image_names] refuses a mode other than [train], [val],
    [test] and [full] before it touches the file system, and for a
    split whose image folder is missing it fails on the existence check
    without listing anything. *)
Theorem get_image_names_rejects :
  forall (w : World) (mode dataset_dir : string) (st : state),
    (str_in mode ["train"; "val"; "test"; "full"] = false ->
     get_image_names w mode dataset_dir st = (Raise invalid_split_error, st))
    /\
    (str_in mode ["train"; "val"; "test"] = true ->
     fs_exists w (split_rgb_dir dataset_dir mode) = false ->
     get_image_names w mode dataset_dir st =
       (Raise missing_rgb_error,
        with_event st (EvExists (split_rgb_dir dataset_dir mode)))).
Proof.
  intros w mode dataset_dir st. split.
  - intros H. unfold get_image_names. now rewrite H.
  - intros Hm Hex. unfold get_image_names.
    assert (Hvalid : str_in mode ["train"; "val"; "test"; "full"] = true).
    { cbn in *. repeat (destruct (String.eqb mode _); [reflexivity|]).
      discriminate. }
    assert (Hfull : String.eqb mode "full" = false).
    { cbn in Hm. destruct (String.eqb_spec mode "full") as [->|]; auto. }
    rewrite Hvalid, Hfull. cbn [negb list_image_ids]. cbv zeta.
    fold (split_rgb_dir dataset_dir mode).
    unfold path_exists. rewrite !bind_assoc, bind_emit, bind_ret.
    now rewrite Hex.
Qed.

Lemma get_image_names_rejects_witness :
  get_image_names Demo.world "Train" Demo.dataset init_state =
    (Raise invalid_split_error, init_state) /\
  get_image_names Demo.world "val" Demo.dataset init_state =
    (Raise missing_rgb_error,
     with_event init_state
       (EvExists "/data/Agriculture-Vision/val/images/rgb")).
Proof.
  split.
  - apply (get_image_names_rejects Demo.world "Train" Demo.dataset init_state).
    reflexivity.
  - apply (get_image_names_rejects Demo.world "val" Demo.dataset init_state);
      reflexivity.
Defined.

(* ================================================================== *)
(** * More on the manifest store, the resolver and the assembler *)
(* ================================================================== *)

(** The state in which a failing load leaves the globals. *)
Lemma load_json_files_raise_state (w : World) (dir : string)
    (st st' : state) (e : exn) :
  load_json_files w dir st = (Raise e, st') ->
  complete_paths st' = complete_paths st /\
  (forall train,
      fs_exists w (train_json dir) = true ->
      fs_json w (train_json dir) = Ok train ->
      train_data_paths st' = Some train) /\
  (fs_exists w (train_json dir) = false \/
   is_ok (fs_json w (train_json dir)) = false ->
   train_data_paths st' = train_data_paths st).
Proof.
  intros H.
  pose proof (load_json_files_cases w dir st) as Hc. cbv zeta in Hc.
  pose proof H as H0. revert H.
  unfold load_json_files at 1, path_exists, json_load, assert, lift, emit, ret,
    raise, set_train, set_val, set_test.
  fold (train_json dir). fold (val_json dir). fold (test_json dir).
  destruct (fs_exists w (train_json dir)).
  2:{ cbn. intros H. injection H as <- <-. cbn. repeat split; auto.
      discriminate. }
  destruct (fs_json w (train_json dir)) as [train|e1].
  2:{ cbn. intros H. injection H as <- <-. cbn. repeat split; auto.
      discriminate. }
  assert (Hno : true = false \/ is_ok (Ok train) = false -> False)
    by (intros [?|?]; discriminate).
  destruct (fs_exists w (val_json dir)).
  2:{ cbn. intros H. injection H as <- <-. cbn. repeat split.
      - intros ? _ E. congruence.
      - intros Hx. now destruct (Hno Hx). }
  destruct (fs_json w (val_json dir)) as [val|e2].
  2:{ cbn. intros H. injection H as <- <-. cbn. repeat split.
      - intros ? _ E. congruence.
      - intros Hx. now destruct (Hno Hx). }
  destruct (fs_exists w (test_json dir)).
  2:{ cbn. intros H. injection H as <- <-. cbn. repeat split.
      - intros ? _ E. congruence.
      - intros Hx. now destruct (Hno Hx). }
  destruct (fs_json w (test_json dir)) as [test|e3].
  2:{ cbn. intros H. injection H as <- <-. cbn. repeat split.
      - intros ? _ E. congruence.
      - intros Hx. now destruct (Hno Hx). }
  intros _. exfalso. rewrite Hc in H0. discriminate.
Qed.

(** A manifest that is missing, or that cannot be opened or parsed,
    makes the load fail. *)
Lemma load_json_files_stops (w : World) (dir : string) (st : state) :
  (exists p, In p (manifest_files dir) /\
             (fs_exists w p = false \/ is_ok (fs_json w p) = false)) ->
  exists e st', load_json_files w dir st = (Raise e, st').
Proof.
  intros (p & Hin & Hbad).
  pose proof (load_json_files_cases w dir st) as Hc. cbv zeta in Hc.
  destruct (load_json_files w dir st) as [r st'].
  cbn [fst] in Hc.
  destruct (fs_exists w (train_json dir)) eqn:E1; [|rewrite Hc; eauto].
  destruct (fs_json w (train_json dir)) eqn:E2; [|rewrite Hc; eauto].
  destruct (fs_exists w (val_json dir)) eqn:E3; [|rewrite Hc; eauto].
  destruct (fs_json w (val_json dir)) eqn:E4; [|rewrite Hc; eauto].
  destruct (fs_exists w (test_json dir)) eqn:E5; [|rewrite Hc; eauto].
  destruct (fs_json w (test_json dir)) eqn:E6; [|rewrite Hc; eauto].
  exfalso. unfold manifest_files in Hin. cbn [In] in Hin.
  destruct Hin as [<-|[<-|[<-|[]]]]; destruct Hbad as [Hb|Hb];
    first [ congruence
          | rewrite E2 in Hb; discriminate
          | rewrite E4 in Hb; discriminate
          | rewrite E6 in Hb; discriminate ].
Qed.

(** X5. When one of the three manifests is missing, or is there and
    cannot be opened or parsed, [load_json_files] fails and leaves the
    merged table [complete_paths] as it was, although the globals of
    the manifests read before the failure are already replaced: if
    [train.json] was there and parsed, [train_data_paths] holds its
    records next to the old merged table; if the failure is at
    [train.json], [train_data_paths] is unchanged too. *)
Theorem load_json_files_failure :
  forall (w : World) (dir : string) (st : state),
    (exists p, In p (manifest_files dir) /\
               (fs_exists w p = false \/ is_ok (fs_json w p) = false)) ->
    exists e st',
      load_json_files w dir st = (Raise e, st') /\
      complete_paths st' = complete_paths st /\
      (forall train,
          fs_exists w (train_json dir) = true ->
          fs_json w (train_json dir) = Ok train ->
          train_data_paths st' = Some train) /\
      (fs_exists w (train_json dir) = false \/
       is_ok (fs_json w (train_json dir)) = false ->
       train_data_paths st' = train_data_paths st).
Proof.
  intros w dir st Hbad.
  destruct (load_json_files_stops w dir st Hbad) as (e & st' & Hrun).
  exists e, st'. split; [exact Hrun|].
  exact (load_json_files_raise_state w dir st st' e Hrun).
Qed.

Lemma load_json_files_failure_witness :
  exists e st',
    load_json_files Demo.world_no_val "/repo/data/Dataset" init_state
      = (Raise e, st') /\
    complete_paths st' = None /\
    train_data_paths st' = Some Demo.train.
Proof.
  destruct (load_json_files_failure Demo.world_no_val "/repo/data/Dataset"
              init_state) as (e & st' & Hrun & Hc & Ht & _).
  - exists "/repo/data/Dataset/val.json". split.
    + right. left. reflexivity.
    + left. vm_compute. reflexivity.
  - exists e, st'. split; [exact Hrun|]. split; [exact Hc|].
    apply Ht; vm_compute; reflexivity.
Defined.

(** X6. A record without the key [id] that is met before any match
    ends the scan with the [KeyError] of the missing key, not with the
    not-found error, also when a later record would match. *)
Theorem get_processed_paths_missing_id :
  forall (image_id : string) (before : list record) (item : record)
         (rest : list record),
    Forall (fun r => has_id r = true /\ id_is image_id r = false) before ->
    has_id item = false ->
    get_processed_paths image_id (before ++ item :: rest) =
      Raise (KeyError "'id'").
Proof.
  intros image_id before item rest Hb Hi.
  induction Hb as [|r before [Hr Hn] _ IH].
  - cbn. unfold has_id in Hi. unfold getitem.
    destruct (dict_get item "id"); [discriminate|reflexivity].
  - cbn [app]. rewrite get_processed_paths_step by assumption.
    now rewrite Hn.
Qed.

Lemma get_processed_paths_missing_id_witness :
  get_processed_paths "b" ([dup_other] ++ anonymous_entry :: [dup_train]) =
    Raise (KeyError "'id'").
Proof.
  apply (get_processed_paths_missing_id "b" [dup_other] anonymous_entry
           [dup_train]).
  - repeat constructor.
  - reflexivity.
Defined.

(** X7. The scan stops at the first match: the records that follow it
    are not looked at, whatever they are. *)
Theorem get_processed_paths_stops_at_match :
  forall (image_id : string) (before : list record) (r : record)
         (after : list record),
    Forall (fun r' => has_id r' = true /\ id_is image_id r' = false) before ->
    id_is image_id r = true ->
    get_processed_paths image_id (before ++ r :: after) = Ok r.
Proof.
  intros image_id before r after Hb Hr.
  assert (Hid : has_id r = true).
  { unfold id_is in Hr. unfold has_id.
    destruct (dict_get r "id"); [reflexivity|discriminate]. }
  induction Hb as [|r' before [Hr' Hn] _ IH]; cbn [app];
    rewrite get_processed_paths_step by assumption.
  - now rewrite Hr.
  - now rewrite Hn.
Qed.

Lemma get_processed_paths_stops_at_match_witness :
  get_processed_paths "b" ([dup_other] ++ dup_train :: [anonymous_entry]) =
    Ok dup_train.
Proof.
  apply (get_processed_paths_stops_at_match "b" [dup_other] dup_train
           [anonymous_entry]).
  - repeat constructor.
  - reflexivity.
Defined.

Section AssemblerMore.

Variable w : World.

Lemma collect_images_inv (items : list (string * value)) :
  forall (acc info : dict ndarray),
    NoDup (keys items) ->
    (forall k, In k (keys items) -> ~ In k (keys acc)) ->
    collect_images w items acc = Ok info ->
    exists added,
      info = acc ++ added /\ Forall2 (decoded w) (categories items) added.
Proof.
  induction items as [|[key value] rest IH]; intros acc info Hnd Hfresh Hrun.
  - cbn in Hrun. injection Hrun as <-. exists []. split.
    + now rewrite app_nil_r.
    + constructor.
  - cbn [keys map fst] in Hnd. inversion Hnd as [|? ? Hnotin Hnd']; subst.
    destruct (is_category key) eqn:Hcat.
    + rewrite collect_images_take in Hrun by assumption.
      destruct (image_open w value) as [img|] eqn:Himg; [|discriminate].
      cbn [rbind] in Hrun.
      rewrite dict_set_fresh in Hrun by (apply Hfresh; now left).
      destruct (IH (acc ++ [(key, img)]) info Hnd') as (added & -> & Hall).
      * intros k Hk. rewrite keys_app. cbn. intros Hin.
        apply in_app_or in Hin. destruct Hin as [Hin|[<-|[]]].
        -- apply (Hfresh k); [now right | assumption].
        -- contradiction.
      * exact Hrun.
      * exists ((key, img) :: added). split.
        -- now rewrite <- app_assoc.
        -- unfold categories. cbn. rewrite Hcat. constructor; [|exact Hall].
           split; [reflexivity | exact Himg].
    + rewrite collect_images_skip in Hrun by assumption.
      destruct (IH acc info Hnd') as (added & -> & Hall).
      * intros k Hk. apply Hfresh. now right.
      * exact Hrun.
      * exists added. split; [reflexivity|].
        unfold categories. cbn. now rewrite Hcat.
Qed.

Lemma dict_get_categories (r : record) (k : string) :
  is_category k = true -> dict_get (categories r) k = dict_get r k.
Proof.
  intros Hk. induction r as [|[k' v] r IH]; [reflexivity|].
  unfold categories in *. cbn.
  destruct (is_category k') eqn:Hc; cbn.
  - now rewrite IH.
  - destruct (String.eqb_spec k' k) as [->|]; [congruence | exact IH].
Qed.

Lemma dict_get_decoded (items : list (string * value)) (info : dict ndarray)
    (k : string) :
  Forall2 (decoded w) items info ->
  match dict_get items k, dict_get info k with
  | Some v, Some im => image_open w v = Ok im
  | None, None => True
  | _, _ => False
  end.
Proof.
  induction 1 as [|[k1 v] [k2 im] items info [Hk Hv] _ IH]; cbn in *;
    [exact I|].
  subst k2. destruct (String.eqb k1 k); [exact Hv | exact IH].
Qed.

Lemma collect_images_raises (items : list (string * value)) :
  forall (acc : dict ndarray) pre k v post e,
    categories items = pre ++ (k, v) :: post ->
    Forall (fun kv => is_ok (image_open w (snd kv)) = true) pre ->
    image_open w v = Raise e ->
    collect_images w items acc = Raise e.
Proof.
  induction items as [|[key value] rest IH]; intros acc pre k v post e Hc Hp He.
  - destruct pre; discriminate.
  - destruct (is_category key) eqn:Hcat.
    + rewrite collect_images_take by assumption.
      unfold categories in Hc. cbn in Hc. rewrite Hcat in Hc.
      destruct pre as [|kv pre]; cbn in Hc; inversion Hc as [[E1 E2]]; subst.
      * now rewrite He.
      * inversion Hp as [|? ? Hok Hp']; subst. cbn in Hok.
        destruct (image_open w value) as [img|]; [|discriminate].
        cbn [rbind]. exact (IH _ pre k v post e E2 Hp' He).
    + rewrite collect_images_skip by assumption.
      apply (IH acc pre k v post e); try assumption.
      unfold categories in *. cbn in Hc. now rewrite Hcat in Hc.
Qed.

End AssemblerMore.

(** X8. [single_image_info] and [all_image_info] agree: when all the
    images of an identifier can be assembled, the image under a key of
    the result is the one [single_image_info] returns for that
    category, and conversely for every category key. *)
Theorem single_image_info_agrees :
  forall (w : World) (image_id : string) (paths_list : list record)
         (r : record) (info : dict ndarray),
    get_processed_paths image_id paths_list = Ok r ->
    NoDup (keys r) ->
    all_image_info w image_id paths_list = Ok info ->
    forall (category : string) (im : ndarray),
      dict_get info category = Some im <->
      is_category category = true /\
      single_image_info w image_id category paths_list = Ok im.
Proof.
  intros w image_id paths_list r info Hres Hnd Hall category im.
  unfold all_image_info in Hall. rewrite Hres in Hall. cbn [rbind] in Hall.
  destruct (collect_images_inv w r [] info Hnd) as (added & -> & Hdec);
    [intros k _ [] | exact Hall |].
  cbn [app]. unfold single_image_info. rewrite Hres. cbn [rbind].
  unfold getitem.
  pose proof (dict_get_decoded w _ _ category Hdec) as Hrel.
  destruct (is_category category) eqn:Hcat.
  - rewrite dict_get_categories in Hrel by assumption.
    destruct (dict_get r category) as [v|];
      destruct (dict_get added category) as [im'|]; try contradiction.
    + cbn [rbind]. rewrite Hrel. split.
      * intros E. injection E as ->. now split.
      * intros [_ E]. congruence.
    + split; [discriminate | intros [_ E]; discriminate].
  - split; [|intros [E _]; discriminate].
    intros E. exfalso.
    assert (Hin : In category (keys added)).
    { clear - E. induction added as [|[k v] added IH]; [discriminate|].
      cbn in *. destruct (String.eqb_spec k category); [now left|].
      right. now apply IH. }
    rewrite (decoded_keys w _ _ Hdec), keys_categories in Hin.
    apply filter_In in Hin. destruct Hin as [_ Hin]. congruence.
Qed.

Lemma single_image_info_agrees_witness :
  get_processed_paths "b" Demo.table = Ok (Demo.entry "train" "b") /\
  NoDup (keys (Demo.entry "train" "b")) /\
  single_image_info Demo.world "b" "boundary" Demo.table =
    Ok (Demo.pixels "train/boundaries/b.png").
Proof.
  assert (Hnd : NoDup (keys (Demo.entry "train" "b"))).
  { repeat constructor; cbn; intuition discriminate. }
  split; [reflexivity|]. split; [exact Hnd|].
  apply (single_image_info_agrees Demo.world "b" Demo.table
           (Demo.entry "train" "b")
           [("rgb", Demo.pixels "train/images/rgb/b.jpg");
            ("boundary", Demo.pixels "train/boundaries/b.png");
            ("label_waterway", Demo.pixels "train/labels/waterway/b.png")]
           eq_refl Hnd eq_refl "boundary"
           (Demo.pixels "train/boundaries/b.png")).
  reflexivity.
Defined.

(** X9. [all_image_info] gives no partial result: when the file of a
    category cannot be decoded, the call fails with the exception of
    the first such category, in the order of the record. *)
Theorem all_image_info_first_failure :
  forall (w : World) (image_id : string) (paths_list : list record)
         (r : record) pre key path post (e : exn),
    get_processed_paths image_id paths_list = Ok r ->
    categories r = pre ++ (key, path) :: post ->
    Forall (fun kv => is_ok (image_open w (snd kv)) = true) pre ->
    image_open w path = Raise e ->
    all_image_info w image_id paths_list = Raise e.
Proof.
  intros w image_id paths_list r pre key path post e Hres Hc Hp He.
  unfold all_image_info. rewrite Hres. cbn [rbind].
  exact (collect_images_raises w r [] pre key path post e Hc Hp He).
Qed.

Lemma all_image_info_first_failure_witness :
  all_image_info broken_world "b" Demo.table =
    Raise (FileNotFoundError "train/boundaries/b.png").
Proof.
  apply (all_image_info_first_failure broken_world "b" Demo.table
           (Demo.entry "train" "b")
           [("rgb", VStr "train/images/rgb/b.jpg")]
           "boundary" (VStr "train/boundaries/b.png")
           [("label_waterway", VStr "train/labels/waterway/b.png")]).
  - reflexivity.
  - reflexivity.
  - repeat constructor.
  - reflexivity.
Defined.

(* ================================================================== *)
(** * More on the presenters *)
(* ================================================================== *)

Lemma with_events_nil (st : state) : with_events st [] = st.
Proof. destruct st. unfold with_events. cbn. now rewrite app_nil_r. Qed.

Lemma with_events_app (st : state) (a b : list event) :
  with_events (with_events st a) b = with_events st (a ++ b).
Proof. unfold with_events. cbn. now rewrite app_assoc. Qed.

Lemma with_event_events (st : state) (e : event) :
  with_event st e = with_events st [e].
Proof. reflexivity. Qed.

(** A loop whose bodies only add effects adds them in order. *)
Lemma for_each_events {A} (xs : list A) (body : A -> M unit)
    (ev : A -> list event) :
  (forall x st, In x xs -> body x st = (Ok tt, with_events st (ev x))) ->
  forall st, for_each xs body st = (Ok tt, with_events st (flat_map ev xs)).
Proof.
  induction xs as [|x xs IH]; intros H st; cbn [for_each flat_map].
  - unfold ret. now rewrite with_events_nil.
  - rewrite (bind_run_ok _ _ _ _ _ (H x st (or_introl eq_refl))).
    rewrite IH by (intros y st1 Hy; apply H; now right).
    now rewrite with_events_app.
Qed.

(** A loop stops at the first body that raises. *)
Lemma for_each_raises {A} (xs : list A) (y : A) (zs : list A)
    (body : A -> M unit) (ev : A -> list event) (e : exn)
    (ev_y : list event) :
  (forall x st, In x xs -> body x st = (Ok tt, with_events st (ev x))) ->
  (forall st, body y st = (Raise e, with_events st ev_y)) ->
  forall st,
    for_each (xs ++ y :: zs) body st =
      (Raise e, with_events st (flat_map ev xs ++ ev_y)).
Proof.
  induction xs as [|x xs IH]; intros H Hy st; cbn [app for_each flat_map].
  - now rewrite (bind_run_raise _ _ _ _ _ (Hy st)).
  - rewrite (bind_run_ok _ _ _ _ _ (H x st (or_introl eq_refl))).
    rewrite IH; [|intros x' st1 Hx'; apply H; now right | exact Hy].
    now rewrite with_events_app, <- app_assoc.
Qed.

Lemma shown_app (a b : list event) (cell : nat) :
  shown (a ++ b) cell =
    match shown a cell with Some im => Some im | None => shown b cell end.
Proof.
  induction a as [|e a IH]; [reflexivity|].
  destruct e; cbn; try exact IH.
  destruct (cell0 =? cell)%nat; [reflexivity | exact IH].
Qed.

(** In a sequence of cells that each draw in their own cell only, a
    cell shows what it drew. *)
Lemma shown_cells (f : nat -> list event) (cell : nat) :
  (forall i, i <> cell -> shown (f i) cell = None) ->
  forall n a, (a <= cell < a + n)%nat ->
    shown (flat_map f (seq a n)) cell = shown (f cell) cell.
Proof.
  intros Hother. induction n as [|n IH]; intros a Hin; [lia|].
  cbn [seq flat_map]. rewrite shown_app.
  destruct (Nat.eq_dec a cell) as [->|Hne].
  - destruct (shown (f cell) cell) eqn:E; [reflexivity|].
    destruct n as [|n]; [reflexivity|].
    assert (Hnone : forall m b, (cell < b)%nat ->
              shown (flat_map f (seq b m)) cell = None).
    { induction m as [|m IHm]; intros b Hb; [reflexivity|].
      cbn [seq flat_map]. rewrite shown_app, Hother by lia.
      apply IHm. lia. }
    apply Hnone. lia.
  - rewrite Hother by assumption. apply IH. lia.
Qed.

Lemma shown_imshow_cell (images : list ndarray) (i cell : nat) :
  shown (imshow_cell images i) cell =
    if (i =? cell)%nat then nth_error images i else None.
Proof.
  unfold imshow_cell. destruct (nth_error images i); cbn.
  - now destruct (i =? cell)%nat.
  - now destruct (i =? cell)%nat.
Qed.

Lemma shown_imshow_cells (images : list ndarray) (cell : nat) :
  (cell < List.length images)%nat ->
  shown (imshow_cells images) cell = nth_error images cell.
Proof.
  intros H. unfold imshow_cells. rewrite shown_cells.
  - now rewrite shown_imshow_cell, Nat.eqb_refl.
  - intros i Hi. rewrite shown_imshow_cell.
    now apply Nat.eqb_neq in Hi as ->.
  - lia.
Qed.

Lemma save_figure_run (w : World) (file : string) (st : state) :
  save_figure w file st = (Ok tt, with_events st (save_events w true file)).
Proof.
  unfold save_figure, save_events, path_exists. cbv zeta.
  rewrite !bind_assoc, bind_emit, bind_ret.
  destruct (fs_exists w (path_join (project_root w) ["images"])); cbn [negb].
  - rewrite bind_ret. unfold emit, with_event, with_events. cbn.
    now rewrite <- app_assoc.
  - rewrite bind_emit. unfold emit, with_event, with_events. cbn.
    now rewrite <- !app_assoc.
Qed.

Lemma save_block_run (w : World) (save : bool) (file : string) (st : state) :
  (if save then save_figure w file else ret tt) st =
    (Ok tt, with_events st (save_events w save file)).
Proof.
  destruct save; [apply save_figure_run|].
  unfold ret, save_events. now rewrite with_events_nil.
Qed.

Lemma after_gather_events (st : state) (population : nat) (size : Z) :
  trace (after_gather st population size) =
    trace st ++ [EvChoice population size; EvPrint].
Proof. reflexivity. Qed.

(** The run of the specific presenter on a grid of more than one cell,
    after the gathering. *)
Lemma show_specific_plot_run w r c size image_ids image_types paths_list
    save st images st1 :
  items_of size = [r; c] -> is_list_or_tuple size = true ->
  (1 <= r)%Z -> (1 <= c)%Z -> (r <> 1 \/ c <> 1)%Z ->
  specific_gather w size image_ids image_types paths_list st
    = (Ok images, st1) ->
  List.length images = Z.to_nat (r * c) ->
  show_random_specific_images w size image_ids image_types paths_list save st
  = (Ok tt,
     with_events st1
       ([EvSubplots r c] ++ imshow_cells images ++ [EvShow]
          ++ save_events w save "inspected-specific.png")).
Proof.
  intros Hi Hs Hr Hc Hne Hrun Hlen.
  rewrite (show_specific_shape w r c) by assumption.
  rewrite (bind_run_ok _ _ _ _ _ Hrun).
  rewrite (bind_run_ok _ _ _ _ _ (subplots_grid r c st1 Hr Hc Hne)).
  cbn [axes_flat]. rewrite bind_ret.
  rewrite (bind_run_ok _ _ _ tt
             (with_events (with_event st1 (EvSubplots r c))
                (imshow_cells images))).
  - rewrite bind_emit, save_block_run.
    rewrite !with_event_events, !with_events_app. reflexivity.
  - unfold imshow_cells. rewrite Hlen. apply for_each_events.
    intros indx st2 Hin. apply in_seq in Hin.
    unfold imshow_cell, list_item.
    destruct (nth_error images indx) as [im|] eqn:E;
      [|apply nth_error_None in E; lia].
    reflexivity.
Qed.

(** X10. On a grid of positive sides and more than one cell, within
    the number of identifiers, all of which can be assembled for the
    category, [show_random_specific_images] completes: it samples once,
    creates the grid, draws the gathered images in the cells in the
    order in which they were sampled (cell [i] shows the image of the
    [i]-th sampled identifier), shows the figure, and saves it when
    asked, creating the [images] folder only when it is missing. *)
Theorem show_random_specific_images_grid :
  forall (w : World) (size : size_arg) (image_ids : list string)
         (image_types : string) (paths_list : list record) (save : bool)
         (st : state) (r c : Z),
    items_of size = [r; c] -> is_list_or_tuple size = true ->
    (1 <= r)%Z -> (1 <= c)%Z -> (r <> 1 \/ c <> 1)%Z ->
    (r * c <= Z.of_nat (List.length image_ids))%Z ->
    (forall id, In id image_ids ->
       is_ok (single_image_info w id image_types paths_list) = true) ->
    exists images evs,
      Forall2 (fun id im =>
                 single_image_info w id image_types paths_list = Ok im)
        (draw (entropy w) (rng st) (Z.to_nat (r * c)) image_ids) images /\
      evs = [EvChoice (List.length image_ids) (r * c); EvPrint;
             EvSubplots r c]
            ++ imshow_cells images ++ [EvShow]
            ++ save_events w save "inspected-specific.png" /\
      show_random_specific_images w size image_ids image_types paths_list
        save st
      = (Ok tt,
         mkState (train_data_paths st) (val_data_paths st)
                 (test_data_paths st) (complete_paths st)
                 (rng st + Z.to_nat (r * c)) (trace st ++ evs)) /\
      (forall cell, (cell < Z.to_nat (r * c))%nat ->
         shown evs cell = nth_error images cell).
Proof.
  intros w size image_ids image_types paths_list save st r c
         Hi Hs Hr Hc Hne Hn Hok.
  destruct (specific_gather_in_range w r c size image_ids image_types
              paths_list st Hi Hs ltac:(nia) Hok) as (images & Hrun & Hall).
  assert (Hlen : List.length images = Z.to_nat (r * c)).
  { rewrite <- (Forall2_length_eq _ _ _ Hall). apply draw_length. lia. }
  exists images. eexists. split; [exact Hall|]. split; [reflexivity|].
  split.
  - rewrite (show_specific_plot_run w r c size image_ids image_types
               paths_list save st images _ Hi Hs Hr Hc Hne Hrun Hlen).
    unfold with_events, after_gather. cbn.
    now rewrite <- !app_assoc.
  - intros cell Hcell.
    change (shown ([EvChoice (List.length image_ids) (r * c); EvPrint;
                    EvSubplots r c]
                   ++ imshow_cells images
                   ++ [EvShow] ++ save_events w save "inspected-specific.png")
                  cell = nth_error images cell).
    rewrite shown_app. cbn [shown]. rewrite shown_app.
    rewrite shown_imshow_cells by lia.
    destruct (nth_error images cell) eqn:E; [reflexivity|].
    apply nth_error_None in E. lia.
Qed.

Lemma show_random_specific_images_grid_witness :
  exists images evs st',
    show_random_specific_images Demo.world (PyTuple [2; 3]%Z) Demo.ids
      "boundary" Demo.table true init_state = (Ok tt, st') /\
    trace st' = evs /\
    List.length images = 6%nat /\
    shown evs 1 = nth_error images 1.
Proof.
  assert (Hok : forall id, In id Demo.ids ->
            is_ok (single_image_info Demo.world id "boundary" Demo.table)
            = true).
  { intros id Hin. cbn in Hin.
    repeat (destruct Hin as [<-|Hin]; [reflexivity|]). contradiction. }
  destruct (show_random_specific_images_grid Demo.world (PyTuple [2; 3]%Z)
              Demo.ids "boundary" Demo.table true init_state 2 3
              eq_refl eq_refl ltac:(lia) ltac:(lia) ltac:(lia)
              ltac:(cbn; lia) Hok)
    as (images & evs & Hall & _ & Hrun & Hshown).
  exists images, evs. eexists. split; [exact Hrun|].
  split; [reflexivity|]. split.
  - symmetry. exact (Forall2_length_eq _ _ _ Hall).
  - apply (Hshown 1%nat). cbn. lia.
Defined.

(** X11. A grid of one cell is never shown: [plt.subplots(1, 1)] gives
    back a single axes object, on which [axes.flat] raises, so that the
    call ends in an exception, an [AttributeError] when the sampling
    and the decoding went through. *)
Theorem show_random_specific_images_single_cell :
  forall (w : World) (size : size_arg) (image_ids : list string)
         (image_types : string) (paths_list : list record) (save : bool)
         (st : state),
    items_of size = [1; 1]%Z -> is_list_or_tuple size = true ->
    (exists e st',
       show_random_specific_images w size image_ids image_types paths_list
         save st = (Raise e, st')) /\
    (image_ids <> [] ->
     (forall id, In id image_ids ->
        is_ok (single_image_info w id image_types paths_list) = true) ->
     exists msg st',
       show_random_specific_images w size image_ids image_types paths_list
         save st = (Raise (AttributeError msg), st')).
Proof.
  intros w size image_ids image_types paths_list save st Hi Hs.
  assert (Hflat : forall images st1,
            exists msg st', 
              (ax <~ subplots 1 1 ;;
               cells <~ axes_flat ax ;;
               for_each cells (fun indx =>
                 im <~ lift (list_item images indx) ;;
                 emit (EvImshow indx im)) ;;;
               emit EvShow ;;;
               if save then save_figure w "inspected-specific.png"
               else ret tt) st1 = (Raise (AttributeError msg), st')).
  { intros images st1. eexists. eexists. reflexivity. }
  split.
  - rewrite (show_specific_shape w 1 1) by assumption.
    apply fails_bind_r. intros images st1.
    destruct (Hflat images st1) as (msg & st' & E). eauto.
  - intros Hne Hok.
    destruct (specific_gather_in_range w 1 1 size image_ids image_types
                paths_list st Hi Hs) as (images & Hrun & _).
    + destruct image_ids; [contradiction | cbn; lia].
    + exact Hok.
    + rewrite (show_specific_shape w 1 1) by assumption.
      rewrite (bind_run_ok _ _ _ _ _ Hrun). apply Hflat.
Qed.

Lemma show_random_specific_images_single_cell_witness :
  exists msg st',
    show_random_specific_images Demo.world (PyTuple [1; 1]%Z) Demo.ids
      "boundary" Demo.table true init_state
    = (Raise (AttributeError msg), st').
Proof.
  destruct (show_random_specific_images_single_cell Demo.world
              (PyTuple [1; 1]%Z) Demo.ids "boundary" Demo.table true
              init_state eq_refl eq_refl) as [_ H].
  apply H.
  - discriminate.
  - intros id Hin. cbn in Hin.
    repeat (destruct Hin as [<-|Hin]; [reflexivity|]). contradiction.
Defined.

Lemma general_cell_run images order width indx st :
  (indx mod width < List.length order)%nat ->
  (indx / 10 < List.length images)%nat ->
  Forall (fun row => keys row = order) images ->
  general_cell images order width indx st =
    (Ok tt, with_events st (cell_events images order width indx)) /\
  exists im, cell_image images order width indx = Some im.
Proof.
  intros Hcol Hrow Hkeys.
  unfold general_cell, cell_events, cell_image, list_item, title_of.
  destruct (nth_error order (indx mod width)) as [image_type|] eqn:Et;
    [|apply nth_error_None in Et; lia].
  destruct (nth_error images (indx / 10)) as [row|] eqn:Er;
    [|apply nth_error_None in Er; lia].
  assert (Hin : In image_type (keys row)).
  { rewrite Forall_forall in Hkeys.
    rewrite (Hkeys row (nth_error_In _ _ Er)).
    exact (nth_error_In _ _ Et). }
  destruct (dict_get_in_keys row image_type Hin) as [im Him].
  rewrite Him. split; [|now exists im].
  rewrite bind_lift_ok. unfold getitem.
  destruct (indx / 10 =? 0)%nat.
  - rewrite bind_emit, bind_lift_ok. rewrite Him, bind_lift_ok.
    unfold emit, with_event, with_events. cbn. now rewrite <- app_assoc.
  - rewrite bind_ret, bind_lift_ok. rewrite Him, bind_lift_ok.
    reflexivity.
Qed.

Lemma general_cell_out_of_rows images order width indx st :
  (indx mod width < List.length order)%nat ->
  (List.length images <= indx / 10)%nat ->
  (0 < indx / 10)%nat ->
  general_cell images order width indx st =
    (Raise (IndexError "list index out of range"), with_events st []).
Proof.
  intros Hcol Hrow Hpos. unfold general_cell, list_item.
  destruct (nth_error order (indx mod width)) as [image_type|] eqn:Et;
    [|apply nth_error_None in Et; lia].
  rewrite bind_lift_ok.
  replace (indx / 10 =? 0)%nat with false
    by (symmetry; apply Nat.eqb_neq; lia).
  rewrite bind_ret.
  replace (nth_error images (indx / 10)) with (@None (dict ndarray))
    by (symmetry; now apply nth_error_None).
  now rewrite with_events_nil.
Qed.

(** The plotting part on image sets that all carry the categories of
    the first one, at most ten of them. *)
Lemma general_plot_run (num_imgs : Z) images order st :
  (4 < num_imgs < 10)%Z ->
  List.length images = Z.to_nat num_imgs ->
  (1 <= List.length order <= 10)%nat ->
  Forall (fun row => keys row = order) images ->
  general_plot num_imgs images st =
    (Ok tt,
     with_events st
       ([EvSubplots num_imgs (Z.of_nat (List.length order))]
          ++ flat_map (cell_events images order (List.length order))
               (seq 0 (Z.to_nat num_imgs * List.length order))
          ++ [EvShow])).
Proof.
  intros Hr Hlen Hk Hkeys. unfold general_plot.
  destruct images as [|first rest]; [cbn in Hlen; lia|].
  assert (Hfirst : keys first = order) by now inversion Hkeys.
  assert (Hw : List.length first = List.length order).
  { rewrite <- Hfirst. unfold keys. now rewrite length_map. }
  unfold list_item at 1. cbn [nth_error].
  set (images := first :: rest) in *.
  rewrite bind_lift_ok. cbv zeta. rewrite Hw, Hfirst.
  set (k := List.length order) in *.
  rewrite (bind_run_ok _ _ _ _ _
             (subplots_grid num_imgs (Z.of_nat k) st
                ltac:(lia) ltac:(lia) ltac:(lia))).
  cbn [axes_flat]. rewrite bind_ret.
  replace (Z.to_nat (num_imgs * Z.of_nat k))
    with (Z.to_nat num_imgs * k)%nat by lia.
  rewrite (bind_run_ok _ _ _ tt
             (with_events (with_event st (EvSubplots num_imgs (Z.of_nat k)))
                (flat_map (cell_events images order k)
                   (seq 0 (Z.to_nat num_imgs * k))))).
  - unfold emit, with_event, with_events. cbn. now rewrite <- !app_assoc.
  - apply for_each_events. intros indx st1 Hin. apply in_seq in Hin.
    apply general_cell_run; [| |exact Hkeys].
    + apply Nat.mod_upper_bound. lia.
    + rewrite Hlen. apply Nat.Div0.div_lt_upper_bound. nia.
Qed.

(** The gathered image sets all have the categories of the dataset. *)
Lemma gathered_keys w paths_list image_ids order sampled images :
  (forall id, In id image_ids ->
     exists info, all_image_info w id paths_list = Ok info /\
                  keys info = order) ->
  (forall id, In id sampled -> In id image_ids) ->
  Forall2 (fun id info => all_image_info w id paths_list = Ok info)
    sampled images ->
  Forall (fun row => keys row = order) images.
Proof.
  intros Hcat Hsub Hall. apply (Forall2_right _ _ _ _ Hall).
  intros id info Hin E.
  destruct (Hcat id (Hsub id Hin)) as (info' & E' & Hk'). congruence.
Qed.

(** A complete run of the general presenter on a dataset whose
    identifiers all have the same categories, at most ten. *)
Lemma general_run w num_imgs image_ids paths_list save st order :
  (4 < num_imgs < 10)%Z ->
  (num_imgs <= Z.of_nat (List.length image_ids))%Z ->
  (1 <= List.length order <= 10)%nat ->
  (forall id, In id image_ids ->
     exists info, all_image_info w id paths_list = Ok info /\
                  keys info = order) ->
  exists images,
    Forall2 (fun id info => all_image_info w id paths_list = Ok info)
      (draw (entropy w) (rng st) (Z.to_nat num_imgs) image_ids) images /\
    Forall (fun row => keys row = order) images /\
    show_random_general_images w num_imgs image_ids paths_list save st =
      (Ok tt,
       mkState (train_data_paths st) (val_data_paths st)
               (test_data_paths st) (complete_paths st)
               (rng st + Z.to_nat num_imgs)
               (trace st ++ general_events w num_imgs (List.length image_ids)
                              images order save)).
Proof.
  intros Hr Hn Hk Hcat.
  destruct (general_gather_in_range w num_imgs image_ids paths_list st
              Hr Hn) as (images & Hrun & Hall).
  { intros id Hin. destruct (Hcat id Hin) as (info & -> & _). reflexivity. }
  assert (Hkeys : Forall (fun row => keys row = order) images).
  { apply (gathered_keys w paths_list image_ids order
             (draw (entropy w) (rng st) (Z.to_nat num_imgs) image_ids)
             images Hcat); [|exact Hall].
    intros id Hin. now apply draw_In in Hin. }
  assert (Hlen : List.length images = Z.to_nat num_imgs).
  { rewrite <- (Forall2_length_eq _ _ _ Hall). apply draw_length. lia. }
  exists images. split; [exact Hall|]. split; [exact Hkeys|].
  unfold show_random_general_images.
  rewrite (bind_run_ok _ _ _ _ _ Hrun).
  rewrite (bind_run_ok _ _ _ _ _
             (general_plot_run num_imgs images order _ Hr Hlen Hk Hkeys)).
  rewrite save_block_run.
  unfold with_events, after_gather, general_events. cbn.
  repeat (rewrite <- ?app_assoc; cbn [app]). reflexivity.
Qed.

Lemma shown_cell_events images order width i cell :
  shown (cell_events images order width i) cell =
    if (i =? cell)%nat then cell_image images order width i else None.
Proof.
  unfold cell_events, cell_image.
  destruct (nth_error order (i mod width)) as [ty|];
    [|now destruct (i =? cell)%nat].
  destruct (nth_error images (i / 10)) as [row|];
    [|now destruct (i =? cell)%nat].
  destruct (dict_get row ty) as [im|]; [|now destruct (i =? cell)%nat].
  rewrite shown_app.
  destruct (i / 10 =? 0)%nat; cbn; now destruct (i =? cell)%nat.
Qed.

Lemma shown_general_events w num_imgs population images order save cell :
  (cell < Z.to_nat num_imgs * List.length order)%nat ->
  (exists im, cell_image images order (List.length order) cell = Some im) ->
  shown (general_events w num_imgs population images order save) cell =
    cell_image images order (List.length order) cell.
Proof.
  intros Hcell [im Him]. unfold general_events.
  rewrite shown_app. cbn [shown]. rewrite shown_app.
  rewrite shown_cells.
  - now rewrite shown_cell_events, Nat.eqb_refl, Him.
  - intros i Hi. rewrite shown_cell_events.
    now apply Nat.eqb_neq in Hi as ->.
  - lia.
Qed.

(** What a valid cell of the grid shows, in terms of the sampled
    identifiers. *)
Lemma cell_image_sampled w paths_list sampled images order width cell :
  Forall2 (fun id info => all_image_info w id paths_list = Ok info)
    sampled images ->
  Forall (fun row => keys row = order) images ->
  (cell mod width < List.length order)%nat ->
  (cell / 10 < List.length images)%nat ->
  exists id info category im,
    nth_error sampled (cell / 10) = Some id /\
    all_image_info w id paths_list = Ok info /\
    nth_error order (cell mod width) = Some category /\
    dict_get info category = Some im /\
    cell_image images order width cell = Some im.
Proof.
  intros Hall Hkeys Hcol Hrow. unfold cell_image.
  destruct (nth_error order (cell mod width)) as [category|] eqn:Et;
    [|apply nth_error_None in Et; lia].
  destruct (nth_error images (cell / 10)) as [row|] eqn:Er;
    [|apply nth_error_None in Er; lia].
  assert (Hin : In category (keys row)).
  { rewrite Forall_forall in Hkeys.
    rewrite (Hkeys row (nth_error_In _ _ Er)).
    exact (nth_error_In _ _ Et). }
  destruct (dict_get_in_keys row category Hin) as [im Him].
  assert (Hid : exists id, nth_error sampled (cell / 10) = Some id /\
                           all_image_info w id paths_list = Ok row).
  { clear - Hall Er. revert Er. generalize (cell / 10)%nat as n.
    induction Hall as [|id info sampled images H _ IH]; intros n Er.
    - destruct n; discriminate.
    - destruct n as [|n]; cbn in *.
      + injection Er as <-. eauto.
      + now apply IH. }
  destruct Hid as (id & Hid & Hinfo).
  exists id, row, category, im. repeat split; assumption.
Qed.

(** X12. In a complete run of the general presenter (identifiers with
    the same one to ten categories), the cell of flat index [cell]
    shows the image of the identifier sampled in position [cell // 10]
    for the category in position [cell mod k] of the first image set,
    [k] being the number of categories; with exactly ten categories
    that is the image of the [i]-th sampled identifier for the [j]-th
    category in row [i], column [j]. *)
Theorem show_random_general_images_cells :
  forall (w : World) (num_imgs : Z) (image_ids : list string)
         (paths_list : list record) (save : bool) (st : state)
         (order : list string),
    (4 < num_imgs < 10)%Z ->
    (num_imgs <= Z.of_nat (List.length image_ids))%Z ->
    (1 <= List.length order <= 10)%nat ->
    (forall id, In id image_ids ->
       exists info, all_image_info w id paths_list = Ok info /\
                    keys info = order) ->
    exists evs st',
      show_random_general_images w num_imgs image_ids paths_list save st
        = (Ok tt, st') /\
      trace st' = trace st ++ evs /\
      (forall cell,
         (cell < Z.to_nat num_imgs * List.length order)%nat ->
         exists id info category im,
           nth_error (draw (entropy w) (rng st) (Z.to_nat num_imgs) image_ids)
             (cell / 10) = Some id /\
           all_image_info w id paths_list = Ok info /\
           nth_error order (cell mod List.length order) = Some category /\
           dict_get info category = Some im /\
           shown evs cell = Some im) /\
      (List.length order = 10%nat ->
       forall i j, (i < Z.to_nat num_imgs)%nat -> (j < 10)%nat ->
         exists id info category im,
           nth_error (draw (entropy w) (rng st) (Z.to_nat num_imgs) image_ids)
             i = Some id /\
           all_image_info w id paths_list = Ok info /\
           nth_error order j = Some category /\
           dict_get info category = Some im /\
           shown evs (i * 10 + j) = Some im).
Proof.
  intros w num_imgs image_ids paths_list save st order Hr Hn Hk Hcat.
  destruct (general_run w num_imgs image_ids paths_list save st order
              Hr Hn Hk Hcat) as (images & Hall & Hkeys & Hrun).
  assert (Hlen : List.length images = Z.to_nat num_imgs).
  { rewrite <- (Forall2_length_eq _ _ _ Hall). apply draw_length. lia. }
  assert (Hcells : forall cell,
            (cell < Z.to_nat num_imgs * List.length order)%nat ->
            exists id info category im,
              nth_error
                (draw (entropy w) (rng st) (Z.to_nat num_imgs) image_ids)
                (cell / 10) = Some id /\
              all_image_info w id paths_list = Ok info /\
              nth_error order (cell mod List.length order) = Some category /\
              dict_get info category = Some im /\
              shown (general_events w num_imgs (List.length image_ids)
                       images order save) cell = Some im).
  { intros cell Hcell.
    destruct (cell_image_sampled w paths_list _ images order
                (List.length order) cell Hall Hkeys)
      as (id & info & category & im & H1 & H2 & H3 & H4 & H5).
    - apply Nat.mod_upper_bound. lia.
    - rewrite Hlen. apply Nat.Div0.div_lt_upper_bound. nia.
    - exists id, info, category, im. repeat split; try assumption.
      rewrite shown_general_events; [exact H5 | exact Hcell | eauto]. }
  eexists. eexists. split; [exact Hrun|]. split; [reflexivity|].
  split; [exact Hcells|].
  intros H10 i j Hi Hj.
  destruct (Hcells (i * 10 + j)%nat) as (id & info & category & im & H);
    [rewrite H10; nia|].
  rewrite H10 in H.
  replace ((i * 10 + j) / 10)%nat with i in H
    by (rewrite Nat.add_comm, Nat.div_add by lia;
        rewrite Nat.div_small by lia; reflexivity).
  replace ((i * 10 + j) mod 10)%nat with j in H
    by (rewrite Nat.add_comm, Nat.Div0.mod_add; symmetry;
        now apply Nat.mod_small).
  now exists id, info, category, im.
Qed.

Lemma ten_table_categories :
  forall id, In id Demo.ids ->
    exists info, all_image_info Demo.world id ten_table = Ok info /\
                 keys info = ten_categories.
Proof.
  intros id Hin. cbn in Hin.
  repeat (destruct Hin as [<-|Hin];
          [eexists; split; vm_compute; reflexivity|]).
  contradiction.
Qed.

Lemma demo_table_categories :
  forall id, In id Demo.ids ->
    exists info, all_image_info Demo.world id Demo.table = Ok info /\
                 keys info = ["rgb"; "boundary"; "label_waterway"].
Proof.
  intros id Hin. cbn in Hin.
  repeat (destruct Hin as [<-|Hin];
          [eexists; split; vm_compute; reflexivity|]).
  contradiction.
Qed.

Lemma show_random_general_images_cells_witness :
  exists evs st' id info im,
    show_random_general_images Demo.world 6 Demo.ids ten_table false
      init_state = (Ok tt, st') /\
    trace st' = evs /\
    nth_error (draw (entropy Demo.world) 0 6 Demo.ids) 1 = Some id /\
    all_image_info Demo.world id ten_table = Ok info /\
    dict_get info "boundary" = Some im /\
    shown evs (1 * 10 + 2) = Some im.
Proof.
  destruct (show_random_general_images_cells Demo.world 6 Demo.ids ten_table
              false init_state ten_categories
              ltac:(lia) ltac:(cbn; lia) ltac:(cbn; lia)
              ten_table_categories)
    as (evs & st' & Hrun & Htrace & _ & Hten).
  destruct (Hten eq_refl 1%nat 2%nat ltac:(cbn; lia) ltac:(lia))
    as (id & info & category & im & H1 & H2 & H3 & H4 & H5).
  cbn in H3. injection H3 as <-.
  exists evs, st', id, info, im. repeat split; assumption.
Defined.

Lemma titles_app (a b : list event) : titles (a ++ b) = titles a ++ titles b.
Proof.
  induction a as [|e a IH]; [reflexivity|].
  destruct e; cbn; rewrite ?IH; reflexivity.
Qed.

Lemma titles_save_events w save file : titles (save_events w save file) = [].
Proof.
  unfold save_events. destruct save; [|reflexivity]. cbn.
  now destruct (fs_exists w _).
Qed.

Lemma titles_cells (f : nat -> list event) (g : nat -> list (nat * string))
    (n : nat) :
  forall a,
    (forall i, (a <= i < a + n)%nat -> titles (f i) = g i) ->
    titles (flat_map f (seq a n)) = flat_map g (seq a n).
Proof.
  induction n as [|n IH]; intros a H; [reflexivity|].
  cbn [seq flat_map]. rewrite titles_app, H by lia.
  f_equal. apply IH. intros i Hi. apply H. lia.
Qed.

Lemma flat_map_all {A B} (g : A -> list B) (h : A -> B) (xs : list A) :
  (forall x, In x xs -> g x = [h x]) -> flat_map g xs = map h xs.
Proof.
  induction xs as [|x xs IH]; intros H; [reflexivity|].
  cbn. rewrite H by now left. cbn. f_equal. apply IH.
  intros y Hy. apply H. now right.
Qed.

Lemma flat_map_none {A B} (g : A -> list B) (xs : list A) :
  (forall x, In x xs -> g x = []) -> flat_map g xs = [].
Proof.
  induction xs as [|x xs IH]; intros H; [reflexivity|].
  cbn. rewrite H by now left. apply IH. intros y Hy. apply H. now right.
Qed.

(** X13. The column titles are put on the first ten cells of the
    flattened grid, whatever the number of columns: on every cell when
    the grid has fewer than ten, and otherwise on cells 0 to 9 (with
    three categories: the first three rows and the first cell of the
    fourth). The title of a category is the category itself, or, when
    it contains [label], the category without its first six
    characters. *)
Theorem show_random_general_images_titles :
  forall (w : World) (num_imgs : Z) (image_ids : list string)
         (paths_list : list record) (save : bool) (st : state)
         (order : list string),
    (4 < num_imgs < 10)%Z ->
    (num_imgs <= Z.of_nat (List.length image_ids))%Z ->
    (1 <= List.length order <= 10)%nat ->
    (forall id, In id image_ids ->
       exists info, all_image_info w id paths_list = Ok info /\
                    keys info = order) ->
    exists evs st',
      show_random_general_images w num_imgs image_ids paths_list save st
        = (Ok tt, st') /\
      trace st' = trace st ++ evs /\
      titles evs =
        map (fun cell =>
               (cell, title_of (nth (cell mod List.length order) order "")))
          (seq 0 (Nat.min 10 (Z.to_nat num_imgs * List.length order))).
Proof.
  intros w num_imgs image_ids paths_list save st order Hr Hn Hk Hcat.
  destruct (general_run w num_imgs image_ids paths_list save st order
              Hr Hn Hk Hcat) as (images & Hall & Hkeys & Hrun).
  assert (Hlen : List.length images = Z.to_nat num_imgs).
  { rewrite <- (Forall2_length_eq _ _ _ Hall). apply draw_length. lia. }
  eexists. eexists. split; [exact Hrun|]. split; [reflexivity|].
  unfold general_events.
  set (k := List.length order) in *. set (n := Z.to_nat num_imgs) in *.
  rewrite !titles_app, titles_save_events. cbn [titles app].
  rewrite !app_nil_r.
  set (g := fun cell : nat =>
              if (cell / 10 =? 0)%nat
              then [(cell, title_of (nth (cell mod k) order ""))]
              else @nil (nat * string)).
  rewrite (titles_cells _ g).
  - replace (n * k)%nat
      with (Nat.min 10 (n * k) + (n * k - Nat.min 10 (n * k)))%nat at 1
      by lia.
    rewrite seq_app, flat_map_app.
    rewrite (flat_map_none g (seq _ (n * k - Nat.min 10 (n * k)))).
    + rewrite app_nil_r. apply flat_map_all.
      intros cell Hin. apply in_seq in Hin. unfold g.
      now rewrite Nat.div_small by lia.
    + intros cell Hin. apply in_seq in Hin. unfold g.
      replace (cell / 10 =? 0)%nat with false; [reflexivity|].
      symmetry. apply Nat.eqb_neq. intros E.
      apply Nat.div_small_iff in E; lia.
  - intros cell Hcell. unfold cell_events, g.
    assert (Hcol : (cell mod k < List.length order)%nat)
      by (apply Nat.mod_upper_bound; lia).
    assert (Hrow : (cell / 10 < List.length images)%nat)
      by (rewrite Hlen; apply Nat.Div0.div_lt_upper_bound; nia).
    destruct (nth_error order (cell mod k)) as [ty|] eqn:Et;
      [|apply nth_error_None in Et; lia].
    destruct (nth_error images (cell / 10)) as [row|] eqn:Er;
      [|apply nth_error_None in Er; lia].
    assert (Hin : In ty (keys row)).
    { rewrite Forall_forall in Hkeys.
      rewrite (Hkeys row (nth_error_In _ _ Er)).
      exact (nth_error_In _ _ Et). }
    destruct (dict_get_in_keys row ty Hin) as [im Him]. rewrite Him.
    rewrite (nth_error_nth _ _ "" Et).
    destruct (cell / 10 =? 0)%nat; reflexivity.
Qed.

Lemma show_random_general_images_titles_witness :
  exists evs st',
    show_random_general_images Demo.world 6 Demo.ids Demo.table false
      init_state = (Ok tt, st') /\
    trace st' = evs /\
    titles evs =
      [(0, "rgb"); (1, "boundary"); (2, "waterway");
       (3, "rgb"); (4, "boundary"); (5, "waterway");
       (6, "rgb"); (7, "boundary"); (8, "waterway"); (9, "rgb")]%nat.
Proof.
  destruct (show_random_general_images_titles Demo.world 6 Demo.ids Demo.table
              false init_state ["rgb"; "boundary"; "label_waterway"]
              ltac:(lia) ltac:(cbn; lia) ltac:(cbn; lia)
              demo_table_categories)
    as (evs & st' & Hrun & Htrace & Htitles).
  exists evs, st'. split; [exact Hrun|]. split; [exact Htrace|].
  rewrite Htitles. reflexivity.
Defined.

(** X14. With more than ten categories per identifier the general
    presenter cannot complete: once [10 * num_imgs] cells are drawn,
    the next cell asks for an image set beyond the last one and the
    call ends in an [IndexError]; the figure is neither shown nor
    saved. *)
Theorem show_random_general_images_too_wide :
  forall (w : World) (num_imgs : Z) (image_ids : list string)
         (paths_list : list record) (save : bool) (st : state)
         (order : list string),
    (4 < num_imgs < 10)%Z ->
    (num_imgs <= Z.of_nat (List.length image_ids))%Z ->
    (10 < List.length order)%nat ->
    (forall id, In id image_ids ->
       exists info, all_image_info w id paths_list = Ok info /\
                    keys info = order) ->
    exists images st',
      show_random_general_images w num_imgs image_ids paths_list save st
        = (Raise (IndexError "list index out of range"), st') /\
      trace st' =
        trace st
          ++ [EvChoice (List.length image_ids) num_imgs; EvPrint;
              EvSubplots num_imgs (Z.of_nat (List.length order))]
          ++ flat_map (cell_events images order (List.length order))
               (seq 0 (10 * Z.to_nat num_imgs)).
Proof.
  intros w num_imgs image_ids paths_list save st order Hr Hn Hk Hcat.
  destruct (general_gather_in_range w num_imgs image_ids paths_list st
              Hr Hn) as (images & Hrun & Hall).
  { intros id Hin. destruct (Hcat id Hin) as (info & -> & _). reflexivity. }
  assert (Hkeys : Forall (fun row => keys row = order) images).
  { apply (gathered_keys w paths_list image_ids order
             (draw (entropy w) (rng st) (Z.to_nat num_imgs) image_ids)
             images Hcat); [|exact Hall].
    intros id Hin. now apply draw_In in Hin. }
  assert (Hlen : List.length images = Z.to_nat num_imgs).
  { rewrite <- (Forall2_length_eq _ _ _ Hall). apply draw_length. lia. }
  exists images. eexists.
  unfold show_random_general_images.
  rewrite (bind_run_ok _ _ _ _ _ Hrun).
  unfold general_plot.
  destruct images as [|first rest] eqn:Ei; [cbn in Hlen; lia|].
  rewrite <- Ei in *.
  assert (Hfirst : keys first = order)
    by (rewrite Ei in Hkeys; now inversion Hkeys).
  assert (Hw : List.length first = List.length order).
  { rewrite <- Hfirst. unfold keys. now rewrite length_map. }
  replace (list_item images 0) with (Ok first)
    by (rewrite Ei; reflexivity).
  rewrite bind_assoc, bind_lift_ok. cbv zeta. rewrite Hw, Hfirst.
  set (k := List.length order) in *. set (n := Z.to_nat num_imgs) in *.
  rewrite bind_assoc.
  rewrite (bind_run_ok _ _ _ _ _
             (subplots_grid num_imgs (Z.of_nat k) _
                ltac:(lia) ltac:(lia) ltac:(lia))).
  cbn [axes_flat]. rewrite bind_assoc, bind_ret.
  replace (Z.to_nat (num_imgs * Z.of_nat k)) with (n * k)%nat by lia.
  replace (n * k)%nat with (10 * n + S (n * k - 10 * n - 1))%nat by nia.
  rewrite seq_app. cbn [seq]. rewrite bind_assoc.
  erewrite bind_run_raise.
  2:{ apply (for_each_raises _ _ _ _ (cell_events images order k)
               (IndexError "list index out of range") []).
      - intros indx st1 Hin. apply in_seq in Hin.
        apply general_cell_run; [| |exact Hkeys].
        + apply Nat.mod_upper_bound. lia.
        + rewrite Hlen. apply Nat.Div0.div_lt_upper_bound. lia.
      - intros st1. apply general_cell_out_of_rows.
        + apply Nat.mod_upper_bound. lia.
        + rewrite Hlen. cbn [plus]. rewrite Nat.mul_comm, Nat.div_mul; lia.
        + cbn [plus]. rewrite Nat.mul_comm, Nat.div_mul; lia. }
  split; [reflexivity|].
  unfold with_events, with_event, after_gather. cbn.
  rewrite app_nil_r. repeat (rewrite <- ?app_assoc; cbn [app]). reflexivity.
Qed.

Lemma eleven_table_categories :
  forall id, In id Demo.ids ->
    exists info, all_image_info Demo.world id eleven_table = Ok info /\
                 keys info = eleven_categories.
Proof.
  intros id Hin. cbn in Hin.
  repeat (destruct Hin as [<-|Hin];
          [eexists; split; vm_compute; reflexivity|]).
  contradiction.
Qed.

Lemma show_random_general_images_too_wide_witness :
  exists st',
    show_random_general_images Demo.world 6 Demo.ids eleven_table true
      init_state = (Raise (IndexError "list index out of range"), st').
Proof.
  destruct (show_random_general_images_too_wide Demo.world 6 Demo.ids
              eleven_table true init_state eleven_categories
              ltac:(lia) ltac:(cbn; lia) ltac:(cbn; lia)
              eleven_table_categories)
    as (images & st' & Hrun & _).
  now exists st'.
Defined.

(* ================================================================== *)
(** * The count of the general presenter *)
(* ================================================================== *)






(* ================================================================== *)
(** * More on the entry point *)
(* ================================================================== *)

Section PreparedMain.

Variables (w : World) (a : args).
Variables (train val test : list record) (names labels : list string).

Hypothesis train_exists : fs_exists w (train_json (manifest_dir w)) = true.
Hypothesis val_exists : fs_exists w (val_json (manifest_dir w)) = true.
Hypothesis test_exists : fs_exists w (test_json (manifest_dir w)) = true.
Hypothesis train_parses : fs_json w (train_json (manifest_dir w)) = Ok train.
Hypothesis val_parses : fs_json w (val_json (manifest_dir w)) = Ok val.
Hypothesis test_parses : fs_json w (test_json (manifest_dir w)) = Ok test.
Hypothesis rgb_exists : fs_exists w (rgb_dir a) = true.
Hypothesis rgb_lists : fs_listdir w (rgb_dir a) = Ok names.
Hypothesis labels_list : fs_listdir w (labels_dir a) = Ok labels.

Lemma main_prepared (st : state) :
  main w a st =
    dispatch w a (map (drop_last 4) names) (train ++ val ++ test)
      (prepared w a train val test st).
Proof.
  unfold main, dispatch.
  pose proof (load_json_files_cases w (manifest_dir w)
                (with_complete st None)) as Hload.
  cbv zeta in Hload.
  rewrite train_exists, val_exists, test_exists, train_parses, val_parses,
    test_parses in Hload.
  fold (manifest_dir w).
  rewrite (bind_run_ok _ _ st tt (with_complete st None)) by reflexivity.
  rewrite (bind_run_ok _ _ _ _ _ Hload).
  unfold get_image_names, get_classes_dict.
  cbn [str_in existsb String.eqb Ascii.eqb Bool.eqb orb negb].
  cbn [list_image_ids]. fold (rgb_dir a). fold (labels_dir a).
  unfold path_exists, listdir.
  repeat first
    [ rewrite bind_assoc | rewrite bind_emit | rewrite bind_ret
    | rewrite bind_lift_ok
    | rewrite rgb_exists | rewrite rgb_lists | rewrite labels_list
    | progress cbn [assert list_image_ids] ].
  unfold get_complete at 1. unfold bind at 1.
  cbn [complete_paths with_event with_complete app].
  assert (E : with_event
                (with_event
                   (with_event
                      (mkState (Some train) (Some val) (Some test)
                         (Some (train ++ val ++ test))
                         (rng (with_complete st None))
                         (trace (with_complete st None)
                            ++ load_events (manifest_dir w)))
                      (EvExists (rgb_dir a)))
                   (EvListdir (rgb_dir a)))
                (EvListdir (labels_dir a)) = prepared w a train val test st).
  { unfold with_event, prepared, preparation_events, with_complete. cbn.
    now rewrite <- !app_assoc. }
  rewrite E.
  destruct (String.eqb (mode a) "specific"); [reflexivity|].
  destruct (String.eqb (mode a) "general"); reflexivity.
Qed.

End PreparedMain.

(** X15. End to end, in the mode [general]: when the three manifests
    parse, the image folder lists at least six files and the label
    folder can be listed, and every identifier has the same one to ten
    categories in the merged table, [main] completes; what it does is
    the preparation followed by a complete run of the general presenter
    on six of the listed identifiers, and the merged table is train,
    then val, then test. *)
Theorem main_general_completes :
  forall (w : World) (a : args) (st : state)
         (train val test : list record) (names labels order : list string),
    mode a = "general" ->
    fs_exists w (train_json (manifest_dir w)) = true ->
    fs_exists w (val_json (manifest_dir w)) = true ->
    fs_exists w (test_json (manifest_dir w)) = true ->
    fs_json w (train_json (manifest_dir w)) = Ok train ->
    fs_json w (val_json (manifest_dir w)) = Ok val ->
    fs_json w (test_json (manifest_dir w)) = Ok test ->
    fs_exists w (rgb_dir a) = true ->
    fs_listdir w (rgb_dir a) = Ok names ->
    fs_listdir w (labels_dir a) = Ok labels ->
    (6 <= List.length names)%nat ->
    (1 <= List.length order <= 10)%nat ->
    (forall id, In id (map (drop_last 4) names) ->
       exists info,
         all_image_info w id (train ++ val ++ test) = Ok info /\
         keys info = order) ->
    exists images st',
      main w a st = (Ok tt, st') /\
      trace st' =
        trace st ++ preparation_events w a
          ++ general_events w 6 (List.length names) images order (save a) /\
      complete_paths st' = Some (train ++ val ++ test) /\
      Forall2 (fun id info =>
                 all_image_info w id (train ++ val ++ test) = Ok info)
        (draw (entropy w) (rng st) 6 (map (drop_last 4) names)) images.
Proof.
  intros w a st train val test names labels order Hmode
         Het Hev Hee Hjt Hjv Hje Her Hln Hll Hsix Hk Hcat.
  rewrite (main_prepared w a train val test names labels
             Het Hev Hee Hjt Hjv Hje Her Hln Hll).
  unfold dispatch. rewrite Hmode. cbn [String.eqb Ascii.eqb Bool.eqb].
  destruct (general_run w 6 (map (drop_last 4) names) (train ++ val ++ test)
              (save a) (prepared w a train val test st) order
              ltac:(lia) ltac:(rewrite length_map; lia) Hk Hcat)
    as (images & Hall & _ & Hrun).
  exists images. eexists. split; [exact Hrun|].
  cbn [trace complete_paths prepared rng]. rewrite length_map.
  split; [now rewrite <- app_assoc|]. split; [reflexivity|exact Hall].
Qed.

Lemma main_general_completes_witness :
  exists images st',
    main Demo.world general_args init_state = (Ok tt, st') /\
    trace st' =
      preparation_events Demo.world general_args
        ++ general_events Demo.world 6 6 images
             ["rgb"; "boundary"; "label_waterway"] false /\
    complete_paths st' = Some Demo.table.
Proof.
  destruct (main_general_completes Demo.world general_args init_state
              Demo.train Demo.val Demo.test
              (map (fun i : string => (i ++ ".jpg")%string) Demo.ids)
              ["waterway"; "weed_cluster"]
              ["rgb"; "boundary"; "label_waterway"]
              eq_refl eq_refl eq_refl eq_refl eq_refl eq_refl eq_refl
              eq_refl eq_refl eq_refl
              ltac:(vm_compute; lia) ltac:(vm_compute; lia)
              demo_table_categories)
    as (images & st' & Hrun & Htrace & Hc & _).
  exists images, st'. split; [exact Hrun|]. split; [exact Htrace|exact Hc].
Defined.

(** X16. In the mode [specific] the grid is 16 by 10: when the
    manifests and the folders can be read but the image folder lists
    fewer than 160 files, [main] fails in the sampling with a
    [ValueError], after the preparation. *)
Theorem main_specific_needs_160 :
  forall (w : World) (a : args) (st : state)
         (train val test : list record) (names labels : list string),
    mode a = "specific" ->
    fs_exists w (train_json (manifest_dir w)) = true ->
    fs_exists w (val_json (manifest_dir w)) = true ->
    fs_exists w (test_json (manifest_dir w)) = true ->
    fs_json w (train_json (manifest_dir w)) = Ok train ->
    fs_json w (val_json (manifest_dir w)) = Ok val ->
    fs_json w (test_json (manifest_dir w)) = Ok test ->
    fs_exists w (rgb_dir a) = true ->
    fs_listdir w (rgb_dir a) = Ok names ->
    fs_listdir w (labels_dir a) = Ok labels ->
    (List.length names < 160)%nat ->
    exists msg,
      main w a st =
        (Raise (ValueError msg),
         with_event (prepared w a train val test st)
           (EvChoice (List.length names) 160)).
Proof.
  intros w a st train val test names labels Hmode
         Het Hev Hee Hjt Hjv Hje Her Hln Hll Hfew.
  rewrite (main_prepared w a train val test names labels
             Het Hev Hee Hjt Hjv Hje Her Hln Hll).
  unfold dispatch. rewrite Hmode. cbn [String.eqb Ascii.eqb Bool.eqb].
  destruct (random_choice_too_many w (map (drop_last 4) names) (16 * 10)%Z
              (prepared w a train val test st)) as [msg E].
  { rewrite length_map. lia. }
  { reflexivity. }
  exists msg. unfold show_random_specific_images.
  apply bind_run_raise.
  rewrite (specific_gather_shape w 16 10) by reflexivity.
  rewrite (bind_run_raise _ _ _ _ _ E).
  rewrite length_map. reflexivity.
Qed.

Lemma main_specific_needs_160_witness :
  exists msg st',
    main Demo.world specific_args init_state = (Raise (ValueError msg), st').
Proof.
  destruct (main_specific_needs_160 Demo.world specific_args init_state
              Demo.train Demo.val Demo.test
              (map (fun i : string => (i ++ ".jpg")%string) Demo.ids)
              ["waterway"; "weed_cluster"]
              eq_refl eq_refl eq_refl eq_refl eq_refl eq_refl eq_refl
              eq_refl eq_refl eq_refl ltac:(vm_compute; lia))
    as (msg & Hrun).
  exists msg. eexists. exact Hrun.
Defined.

Lemma only_append_all kind (src : list record) :
  only kind (append_all src).
Proof.
  unfold append_all. apply only_for_each. intros item.
  apply only_bind; [now apply only_silent|].
  intros [l|]; [now apply only_silent | apply only_raise].
Qed.

Lemma only_manifest_access_load (w : World) (dir : string) :
  only manifest_access (load_json_files w dir).
Proof.
  unfold load_json_files, path_exists, json_load.
  repeat first [apply only_append_all | only_step].
Qed.

(** X17. Whatever the mode, a missing manifest stops [main] at the
    loading: with one of the three files absent (and the ones present
    parsing) it raises the [AssertionError] of the existence check
    having touched nothing but manifest files; no dataset folder is
    listed. *)
Theorem main_missing_manifest :
  forall (w : World) (a : args) (st : state),
    (exists p, In p (manifest_files (manifest_dir w)) /\
               fs_exists w p = false) ->
    (forall p, In p (manifest_files (manifest_dir w)) ->
               fs_exists w p = true -> is_ok (fs_json w p) = true) ->
    exists st' evs,
      main w a st = (Raise (AssertionError ""), st') /\
      trace st' = trace st ++ evs /\
      forallb manifest_access evs = true.
Proof.
  intros w a st (p & Hin & Hp) Hparse.
  pose proof (load_json_files_cases w (manifest_dir w)
                (with_complete st None)) as Hc. cbv zeta in Hc.
  destruct (only_manifest_access_load w (manifest_dir w)
              (with_complete st None)) as (evs & Ht & Hev).
  destruct (load_json_files w (manifest_dir w) (with_complete st None))
    as [r st1] eqn:Hrun.
  cbn [fst snd] in *.
  assert (Hr : r = Raise (AssertionError "")).
  { assert (H1 := Hparse (train_json (manifest_dir w)) (or_introl eq_refl)).
    assert (H2 := Hparse (val_json (manifest_dir w))
                    (or_intror (or_introl eq_refl))).
    assert (H3 := Hparse (test_json (manifest_dir w))
                    (or_intror (or_intror (or_introl eq_refl)))).
    assert (Hor : fs_exists w (train_json (manifest_dir w)) = false \/
                  fs_exists w (val_json (manifest_dir w)) = false \/
                  fs_exists w (test_json (manifest_dir w)) = false).
    { cbn in Hin. destruct Hin as [<-|[<-|[<-|[]]]]; auto. }
    destruct (fs_exists w (train_json (manifest_dir w))); [|exact Hc].
    destruct (fs_json w (train_json (manifest_dir w)));
      [|specialize (H1 eq_refl); discriminate].
    destruct (fs_exists w (val_json (manifest_dir w))); [|exact Hc].
    destruct (fs_json w (val_json (manifest_dir w)));
      [|specialize (H2 eq_refl); discriminate].
    destruct (fs_exists w (test_json (manifest_dir w))); [|exact Hc].
    destruct Hor as [?|[?|?]]; discriminate. }
  subst r. exists st1, evs. split; [|split; [exact Ht | exact Hev]].
  unfold main. fold (manifest_dir w).
  rewrite (bind_run_ok _ _ st tt (with_complete st None)) by reflexivity.
  now rewrite (bind_run_raise _ _ _ _ _ Hrun).
Qed.

Lemma main_missing_manifest_witness :
  exists st' evs,
    main Demo.world_no_val Demo.bogus_args init_state
      = (Raise (AssertionError ""), st') /\
    trace st' = evs /\ forallb manifest_access evs = true.
Proof.
  destruct (main_missing_manifest Demo.world_no_val Demo.bogus_args
              init_state) as (st' & evs & Hrun & Ht & Hev).
  - exists "/repo/data/Dataset/val.json". split; [|vm_compute; reflexivity].
    right. left. vm_compute. reflexivity.
  - intros p Hin _.
    destruct Hin as [<-|[<-|[<-|[]]]]; vm_compute; reflexivity.
  - exists st', evs. split; [exact Hrun|]. split; [exact Ht|exact Hev].
Defined.

(* ================================================================== *)
(** * More on the model selector *)
(* ================================================================== *)

Lemma chars_lower (s : string) :
  chars (lower s) = map lower_ascii (chars s).
Proof.
  induction s as [|c s IH]; [reflexivity|].
  unfold chars in *. cbn. now rewrite IH.
Qed.

Lemma of_chars_lower (l : list ascii) :
  of_chars (map lower_ascii l) = lower (of_chars l).
Proof.
  induction l as [|c l IH]; [reflexivity|].
  unfold of_chars in *. cbn. now rewrite IH.
Qed.

Lemma prefix_lower (p s : string) :
  String.prefix p s = true -> String.prefix (lower p) (lower s) = true.
Proof.
  revert p. induction s as [|b s IH]; intros [|a p] H; cbn in *;
    try reflexivity; try discriminate.
  destruct (ascii_dec a b) as [->|]; [|discriminate].
  destruct (ascii_dec (lower_ascii b) (lower_ascii b)); [|contradiction].
  now apply IH.
Qed.

Lemma endswith_lower (s p : string) :
  endswith s p = true -> endswith (lower s) (lower p) = true.
Proof.
  unfold endswith. intros H. apply prefix_lower in H.
  now rewrite !chars_lower, <- !map_rev, !of_chars_lower.
Qed.

Lemma str_in_name (x : string) (names : list string) :
  str_in x names = true -> In x names.
Proof.
  unfold str_in. intros H. apply existsb_exists in H.
  destruct H as (name & Hin & E). apply String.eqb_eq in E. now subst.
Qed.

(** No shortcut, in any letter case, looks like a model file. *)
Lemma shortcut_not_model_file (token : string) :
  str_in (lower token) all_shortcut_names = true ->
  model_file token = false.
Proof.
  intros H. apply str_in_name in H.
  destruct (model_file token) eqn:E; [|reflexivity]. exfalso.
  unfold model_file in E. apply orb_true_iff in E.
  assert (E' : endswith (lower token) ".hdf5" = true \/
               endswith (lower token) ".h5" = true).
  { destruct E as [E|E]; apply endswith_lower in E; auto. }
  clear E. cbn in H.
  repeat (destruct H as [Hn|H];
          [rewrite <- Hn in E'; destruct E'; discriminate|]).
  contradiction.
Qed.

Lemma str_in_app (x : string) (a b : list string) :
  str_in x (a ++ b) = str_in x a || str_in x b.
Proof. unfold str_in. apply existsb_app. Qed.

(** X18. A shortcut is recognized in any letter case, and the keyword
    arguments play no part: a token whose lower-cased form is in the
    first group loads the stage 1 weights with the dice loss, one of
    the second group the stage 2 weights with the surface channel
    loss, one of the third group the stage 3 weights with the dice
    loss; the outcome is that of [load_model] on that file. *)
Theorem initialize_model_shortcut :
  forall (w : Env) (self : FarmlandAnomalyModel) (token : string)
         (kwargs : dict custom_arg),
    (str_in (lower token) stage1_names = true ->
     _initialize_model w self token kwargs =
       assign_loaded w (stage1_file w) (Some dice_objects)) /\
    (str_in (lower token) stage2_names = true ->
     _initialize_model w self token kwargs =
       assign_loaded w (stage2_file w) (Some surface_objects)) /\
    (str_in (lower token) stage3_names = true ->
     _initialize_model w self token kwargs =
       assign_loaded w (stage3_file w) (Some dice_objects)).
Proof.
  intros w self token kwargs.
  assert (Hfile : forall names,
            (forall x, In x names -> In x all_shortcut_names) ->
            str_in (lower token) names = true ->
            (endswith token ".hdf5" || endswith token ".h5") = false).
  { intros names Hsub H. apply shortcut_not_model_file.
    apply str_in_name in H. apply Hsub in H.
    unfold str_in. apply existsb_exists. exists (lower token).
    split; [exact H | apply String.eqb_refl]. }
  unfold all_shortcut_names in Hfile.
  split; [|split]; intros H.
  - unfold _initialize_model.
    rewrite (Hfile stage1_names) by (auto using in_or_app).
    now rewrite H.
  - unfold _initialize_model.
    rewrite (Hfile stage2_names) by (auto using in_or_app).
    apply str_in_name in H. cbn in H.
    repeat (destruct H as [Hn|H]; [rewrite <- Hn; reflexivity|]).
    contradiction.
  - unfold _initialize_model.
    rewrite (Hfile stage3_names) by (auto using in_or_app).
    apply str_in_name in H. cbn in H.
    repeat (destruct H as [Hn|H]; [rewrite <- Hn; reflexivity|]).
    contradiction.
Qed.

Lemma initialize_model_shortcut_witness :
  __init__ weights_world "Stage1" [] = Ok (mkSelf (Some (Model 20))) /\
  __init__ weights_world "dice20" [("custom_objects", Shortcut "bogus")] =
    Ok (mkSelf (Some (Model 20))) /\
  __init__ weights_world "INTERMEDIATE" [] = Ok (mkSelf (Some (Model 40))) /\
  __init__ weights_world "final" [] = Ok (mkSelf (Some (Model 60))).
Proof.
  unfold __init__. split; [|split; [|split]].
  - destruct (initialize_model_shortcut weights_world (mkSelf None)
                "Stage1" []) as (H & _ & _).
    rewrite H; reflexivity.
  - destruct (initialize_model_shortcut weights_world (mkSelf None)
                "dice20" [("custom_objects", Shortcut "bogus")])
      as (H & _ & _).
    rewrite H; reflexivity.
  - destruct (initialize_model_shortcut weights_world (mkSelf None)
                "INTERMEDIATE" []) as (_ & H & _).
    rewrite H; reflexivity.
  - destruct (initialize_model_shortcut weights_world (mkSelf None)
                "final" []) as (_ & _ & H).
    rewrite H; reflexivity.
Defined.

(** X19. A token that ends in [.hdf5] or [.h5] is a path and nothing
    else: when the file does not exist the call raises the
    [FileNotFoundError] naming the token, whatever the keyword
    arguments; when it exists and [custom_objects] is a string that is
    no loss shortcut, the call raises the invalid-shortcut error before
    any model is loaded, so the outcome does not depend on
    [load_model]. *)
Theorem initialize_model_path_errors :
  forall (w : Env) (self : FarmlandAnomalyModel) (token : string)
         (kwargs : dict custom_arg),
    model_file token = true ->
    (file_exists w token = false ->
     _initialize_model w self token kwargs =
       Raise (missing_model_error token)) /\
    (forall s,
       file_exists w token = true ->
       dict_get kwargs "custom_objects" = Some (Shortcut s) ->
       lower s <> "dice" -> lower s <> "scl" -> lower s <> "surface" ->
       _initialize_model w self token kwargs = Raise (invalid_shortcut s)).
Proof.
  intros w self token kwargs Hf. unfold model_file in Hf. split.
  - intros Hx. unfold _initialize_model. now rewrite Hf, Hx.
  - intros s Hx Hk Hd Hs Hu. unfold _initialize_model.
    rewrite Hf, Hx, Hk. unfold _validate_custom_objects.
    apply String.eqb_neq in Hd, Hs, Hu. now rewrite Hd, Hs, Hu.
Qed.

Lemma initialize_model_path_errors_witness :
  _initialize_model weights_world (mkSelf None) "/models/none.h5" [] =
    Raise (FileNotFoundError
      "Received a model path ending with .hdf5 (/models/none.h5), but the path to the model does not exist.") /\
  _initialize_model weights_world (mkSelf None) "/models/own.h5"
    [("custom_objects", Shortcut "focal")] =
    Raise (ValueError
      "Received invalid custom object shortcut keyword focal.").
Proof.
  split.
  - destruct (initialize_model_path_errors weights_world (mkSelf None)
                "/models/none.h5" [] eq_refl) as [H _].
    exact (H eq_refl).
  - destruct (initialize_model_path_errors weights_world (mkSelf None)
                "/models/own.h5" [("custom_objects", Shortcut "focal")]
                eq_refl) as [_ H].
    apply (H "focal" eq_refl eq_refl); discriminate.
Defined.

Lemma initialize_each_spec (w : Env) (modes : list string) :
  forall acc l,
    initialize_each w modes acc = Ok l <->
    exists l', l = acc ++ l' /\
               Forall2 (fun m o => __init__ w m [] = Ok o) modes l'.
Proof.
  induction modes as [|m modes IH]; intros acc l; cbn [initialize_each].
  - split.
    + intros E. injection E as <-. exists []. split.
      * now rewrite app_nil_r.
      * constructor.
    + intros (l' & -> & H). inversion H. now rewrite app_nil_r.
  - destruct (__init__ w m []) as [o|e] eqn:E.
    + rewrite IH. split.
      * intros (l' & -> & H). exists (o :: l'). split.
        -- now rewrite <- app_assoc.
        -- now constructor.
      * intros (l' & -> & H). inversion H as [|? o' ? l'' Ho Hrest]; subst.
        rewrite E in Ho. injection Ho as <-. exists l''.
        split; [|exact Hrest]. now rewrite <- app_assoc.
    + split; [discriminate|].
      intros (l' & _ & H). inversion H as [|? o' ? l'' Ho Hrest]; subst.
      rewrite E in Ho. discriminate.
Qed.

Lemma initialize_each_raises (w : Env) (pre : list string) :
  forall acc m post e,
    Forall (fun m' => is_ok (__init__ w m' []) = true) pre ->
    __init__ w m [] = Raise e ->
    initialize_each w (pre ++ m :: post) acc = Raise e.
Proof.
  induction pre as [|m' pre IH]; intros acc m post e Hpre Hm;
    cbn [app initialize_each].
  - now rewrite Hm.
  - inversion Hpre as [|? ? Hok Hpre']; subst.
    destruct (__init__ w m' []); [|discriminate].
    now apply IH.
Qed.

(** X20. [multi_initialize] returns one container per mode, in the
    order of the modes, exactly when every mode can be constructed; the
    first mode whose construction raises ends the call with its
    exception, and nothing is returned for the modes before it. *)
Theorem multi_initialize_all_or_nothing :
  forall (w : Env) (modes : list string),
    (forall l,
        multi_initialize w modes = Ok l <->
        Forall2 (fun mode o => __init__ w mode [] = Ok o) modes l) /\
    (forall pre mode post e,
        modes = pre ++ mode :: post ->
        Forall (fun m => is_ok (__init__ w m []) = true) pre ->
        __init__ w mode [] = Raise e ->
        multi_initialize w modes = Raise e).
Proof.
  intros w modes. unfold multi_initialize. split.
  - intros l. rewrite initialize_each_spec. cbn [app]. split.
    + now intros (l' & -> & H).
    + intros H. now exists l.
  - intros pre mode post e -> Hpre Hm.
    now apply initialize_each_raises.
Qed.

Lemma multi_initialize_all_or_nothing_witness :
  multi_initialize weights_world ["first"; "unknown"; "Stage2"] =
    Ok [mkSelf (Some (Model 20)); mkSelf None; mkSelf (Some (Model 40))] /\
  multi_initialize weights_world ["first"; "/models/none.h5"; "Stage2"] =
    Raise (missing_model_error "/models/none.h5").
Proof.
  split.
  - apply (multi_initialize_all_or_nothing weights_world
             ["first"; "unknown"; "Stage2"]).
    repeat constructor.
  - destruct (multi_initialize_all_or_nothing weights_world
                ["first"; "/models/none.h5"; "Stage2"]) as [_ H].
    apply (H ["first"] "/models/none.h5" ["Stage2"]).
    + reflexivity.
    + repeat constructor.
    + reflexivity.
Defined.

(* ================================================================== *)
(** * Properties of the inference methods *)
(* ================================================================== *)

Lemma initialize_model_falls_through (w : Env) self token kwargs :
  model_file token = false -> recognized_shortcut token = false ->
  _initialize_model w self token kwargs = Ok self.
Proof.
  intros Hf Hr. unfold model_file in Hf. unfold recognized_shortcut in Hr.
  apply orb_false_iff in Hr. destruct Hr as [Hr H3].
  apply orb_false_iff in Hr. destruct Hr as [H1 H2].
  unfold _initialize_model. now rewrite Hf, H1, H2, H3.
Qed.

Lemma predict_without_model (h : Helpers) (t : test_input) :
  (exists f, predict h (mkSelf None) t = Fail f) /\
  (forall img pre, t = AsImage img -> preprocess_image h img = Done pre ->
     predict h (mkSelf None) t = Fail no_predict_attribute) /\
  (forall mode value rest img,
     t = AsList (mode :: value :: rest) \/
     t = AsTuple (mode :: value :: rest) ->
     get_testing_image h mode value = Done img ->
     predict h (mkSelf None) t = Fail no_predict_attribute).
Proof.
  split; [|split].
  - unfold predict.
    destruct (if is_collection t then _ else _) as [img|f]; cbn; eauto.
  - intros img pre -> Hp. unfold predict. cbn. now rewrite Hp.
  - intros mode value rest img [->| ->] Hg; unfold predict; cbn;
      now rewrite Hg.
Qed.

Lemma show_segmented_without_model (h : Helpers) (t : test_input)
    (with_truth : bool) :
  (exists f,
     show_segmented_predictions h (mkSelf None) t with_truth = Fail f) /\
  (forall img, t = AsImage img ->
     show_segmented_predictions h (mkSelf None) t with_truth =
       Fail no_predict_attribute) /\
  (forall mode value rest img,
     t = AsList (mode :: value :: rest) \/
     t = AsTuple (mode :: value :: rest) ->
     with_truth = false ->
     get_testing_image h mode value = Done img ->
     show_segmented_predictions h (mkSelf None) t with_truth =
       Fail no_predict_attribute) /\
  (forall mode value rest pair,
     t = AsList (mode :: value :: rest) \/
     t = AsTuple (mode :: value :: rest) ->
     with_truth = true ->
     get_testing_image_with_truth h mode value = Done pair ->
     show_segmented_predictions h (mkSelf None) t with_truth =
       Fail no_predict_attribute).
Proof.
  split; [|split; [|split]].
  - unfold show_segmented_predictions.
    destruct (if is_collection t then _ else _) as [locals|f]; cbn; eauto.
  - intros img ->. reflexivity.
  - intros mode value rest img [->| ->] -> Hg;
      unfold show_segmented_predictions; cbn; now rewrite Hg.
  - intros mode value rest pair [->| ->] -> Hg;
      unfold show_segmented_predictions; cbn; now rewrite Hg.
Qed.

(** X21. The silent fall-through of the constructor shows at the first
    use: a container built from a token that is neither a model file
    nor a shortcut is returned without error, and every call of
    [predict] or [show_segmented_predictions] on it ends in an
    exception. When the input itself can be obtained, that exception is
    the [AttributeError] of [None.predict]: in [predict], for an image
    that is preprocessed and for a list or tuple whose item of the
    dataset is fetched; in [show_segmented_predictions], for every
    image passed directly, and for a list or tuple whose item is
    fetched, without or with its ground truth. *)
Theorem unset_model_never_predicts :
  forall (w : Env) (h : Helpers) (token : string) (kwargs : dict custom_arg),
    model_file token = false ->
    recognized_shortcut token = false ->
    exists self,
      __init__ w token kwargs = Ok self /\
      (forall t, exists f, predict h self t = Fail f) /\
      (forall t with_truth,
         exists f, show_segmented_predictions h self t with_truth = Fail f) /\
      (forall img pre, preprocess_image h img = Done pre ->
         predict h self (AsImage img) = Fail no_predict_attribute) /\
      (forall mode value rest img,
         get_testing_image h mode value = Done img ->
         predict h self (AsList (mode :: value :: rest))
           = Fail no_predict_attribute /\
         predict h self (AsTuple (mode :: value :: rest))
           = Fail no_predict_attribute) /\
      (forall img with_truth,
         show_segmented_predictions h self (AsImage img) with_truth
           = Fail no_predict_attribute) /\
      (forall mode value rest img,
         get_testing_image h mode value = Done img ->
         show_segmented_predictions h self
           (AsList (mode :: value :: rest)) false
           = Fail no_predict_attribute /\
         show_segmented_predictions h self
           (AsTuple (mode :: value :: rest)) false
           = Fail no_predict_attribute) /\
      (forall mode value rest pair,
         get_testing_image_with_truth h mode value = Done pair ->
         show_segmented_predictions h self
           (AsList (mode :: value :: rest)) true
           = Fail no_predict_attribute /\
         show_segmented_predictions h self
           (AsTuple (mode :: value :: rest)) true
           = Fail no_predict_attribute).
Proof.
  intros w h token kwargs Hf Hr. exists (mkSelf None).
  split; [|split; [|split; [|split; [|split; [|split; [|split]]]]]].
  - unfold __init__. now apply initialize_model_falls_through.
  - intros t. apply predict_without_model.
  - intros t with_truth. apply show_segmented_without_model.
  - intros img pre Hp.
    destruct (predict_without_model h (AsImage img)) as (_ & H & _).
    exact (H img pre eq_refl Hp).
  - intros mode value rest img Hg. split.
    + destruct (predict_without_model h (AsList (mode :: value :: rest)))
        as (_ & _ & H).
      exact (H mode value rest img (or_introl eq_refl) Hg).
    + destruct (predict_without_model h (AsTuple (mode :: value :: rest)))
        as (_ & _ & H).
      exact (H mode value rest img (or_intror eq_refl) Hg).
  - intros img with_truth.
    destruct (show_segmented_without_model h (AsImage img) with_truth)
      as (_ & H & _).
    exact (H img eq_refl).
  - intros mode value rest img Hg. split.
    + destruct (show_segmented_without_model h
                  (AsList (mode :: value :: rest)) false) as (_ & _ & H & _).
      exact (H mode value rest img (or_introl eq_refl) eq_refl Hg).
    + destruct (show_segmented_without_model h
                  (AsTuple (mode :: value :: rest)) false) as (_ & _ & H & _).
      exact (H mode value rest img (or_intror eq_refl) eq_refl Hg).
  - intros mode value rest pair Hg. split.
    + destruct (show_segmented_without_model h
                  (AsList (mode :: value :: rest)) true) as (_ & _ & _ & H).
      exact (H mode value rest pair (or_introl eq_refl) eq_refl Hg).
    + destruct (show_segmented_without_model h
                  (AsTuple (mode :: value :: rest)) true) as (_ & _ & _ & H).
      exact (H mode value rest pair (or_intror eq_refl) eq_refl Hg).
Qed.

Lemma unset_model_never_predicts_witness :
  exists self,
    __init__ weights_world "resnet" [] = Ok self /\
    predict demo_helpers self (AsImage [[7]]%Z) = Fail no_predict_attribute /\
    predict demo_helpers self (AsTuple [VStr "id"; VStr "a"])
      = Fail no_predict_attribute /\
    show_segmented_predictions demo_helpers self (AsImage [[7]]%Z) true
      = Fail no_predict_attribute /\
    show_segmented_predictions demo_helpers self
      (AsList [VStr "id"; VStr "a"]) false = Fail no_predict_attribute /\
    show_segmented_predictions demo_helpers self
      (AsTuple [VStr "id"; VStr "a"]) true = Fail no_predict_attribute.
Proof.
  destruct (unset_model_never_predicts weights_world demo_helpers "resnet" []
              eq_refl eq_refl)
    as (self & Hinit & _ & _ & Himg & Hitem & Hshow & Hplain & Htruth).
  exists self. split; [exact Hinit|].
  split; [apply (Himg [[7]]%Z ([10]%Z :: [[7]]%Z)); reflexivity|].
  split; [apply (Hitem (VStr "id") (VStr "a") [] [[1]]%Z); reflexivity|].
  split; [apply Hshow|].
  split.
  - apply (Hplain (VStr "id") (VStr "a") [] [[1]]%Z). reflexivity.
  - apply (Htruth (VStr "id") (VStr "a") [] ([[1]]%Z, [[2]]%Z)). reflexivity.
Defined.

(** X22. With [with_truth] (the default) an image passed directly is
    never displayed: the ground truth is only fetched for an item of
    the dataset, so the call always ends in an exception; when the
    model, the post-processing and the conversion of the image all
    work, it is the read of the unassigned [testing_truth], after the
    prediction was made. *)
Theorem show_segmented_image_with_truth :
  forall (h : Helpers) (self : FarmlandAnomalyModel) (img : array),
    (exists f,
       show_segmented_predictions h self (AsImage img) true = Fail f) /\
    (forall m raw predicted displayable,
       model self = Some m ->
       model_predict h m img = Done raw ->
       postprocess_output h raw = Done predicted ->
       create_displayable_test_output h (AsImage img) = Done displayable ->
       show_segmented_predictions h self (AsImage img) true =
         Fail (UnboundLocalError "testing_truth")).
Proof.
  intros h self img. split.
  - unfold show_segmented_predictions, bound_predict. cbn.
    destruct (model self) as [m|]; cbn; [|eauto].
    destruct (model_predict h m img) as [raw|]; cbn; [|eauto].
    destruct (postprocess_output h raw) as [predicted|]; cbn; [|eauto].
    destruct (create_displayable_test_output h (AsImage img)); cbn; eauto.
  - intros m raw predicted displayable Hm Hp Hpost Hd.
    unfold show_segmented_predictions, bound_predict. cbn.
    rewrite Hm. cbn. rewrite Hp. cbn. rewrite Hpost. cbn. now rewrite Hd.
Qed.

Lemma show_segmented_image_with_truth_witness :
  show_segmented_predictions demo_helpers (mkSelf (Some (Model 60)))
    (AsImage [[7]]%Z) true = Fail (UnboundLocalError "testing_truth").
Proof.
  destruct (show_segmented_image_with_truth demo_helpers
              (mkSelf (Some (Model 60))) [[7]]%Z) as [_ H].
  apply (H (Model 60) ([30]%Z :: [[7]]%Z) ([20]%Z :: [30]%Z :: [[7]]%Z)
           [[40]]%Z); reflexivity.
Defined.

(** X23. Without the ground truth, [show_segmented_predictions] draws
    and displays exactly what [predict] returns, for every item of the
    dataset (a list or a tuple, and a set fails in both) and for an
    image that the preprocessing leaves unchanged; an image is
    otherwise predicted without the preprocessing that [predict]
    applies. *)
Theorem show_segmented_displays_prediction :
  forall (h : Helpers) (self : FarmlandAnomalyModel) (t : test_input),
    (is_collection t = true \/
     exists img, t = AsImage img /\ preprocess_image h img = Done img) ->
    show_segmented_predictions h self t false =
      obind (predict h self t) (display_prediction h t).
Proof.
  intros h self t [Hc|(img & -> & Hp)].
  - unfold show_segmented_predictions, predict, display_prediction.
    rewrite Hc.
    destruct (subscript t 0) as [mode|]; cbn; [|reflexivity].
    destruct (subscript t 1) as [value|]; cbn; [|reflexivity].
    destruct (get_testing_image h mode value) as [image|]; cbn;
      [|reflexivity].
    destruct (bound_predict h self) as [run|]; cbn; [|reflexivity].
    destruct (run image) as [raw|]; cbn; [|reflexivity].
    destruct (postprocess_output h raw) as [predicted|]; cbn;
      [|reflexivity].
    destruct (create_displayable_test_output h t) as [d|]; cbn;
      [|reflexivity].
    destruct (draw_segmentation_map h d predicted) as [a|]; cbn;
      [|reflexivity].
    destruct (display_segmented_diagram h [d; a]); reflexivity.
  - unfold show_segmented_predictions, predict, display_prediction.
    cbn. rewrite Hp. cbn.
    destruct (bound_predict h self) as [run|]; cbn; [|reflexivity].
    destruct (run img) as [raw|]; cbn; [|reflexivity].
    destruct (postprocess_output h raw) as [predicted|]; cbn;
      [|reflexivity].
    destruct (create_displayable_test_output h (AsImage img)) as [d|]; cbn;
      [|reflexivity].
    destruct (draw_segmentation_map h d predicted) as [a|]; cbn;
      [|reflexivity].
    destruct (display_segmented_diagram h [d; a]); reflexivity.
Qed.

Lemma show_segmented_displays_prediction_witness :
  predict demo_helpers (mkSelf (Some (Model 60)))
    (AsTuple [VStr "val"; VNum 3]) = Done [[20]; [30]; [1]]%Z /\
  show_segmented_predictions demo_helpers (mkSelf (Some (Model 60)))
    (AsTuple [VStr "val"; VNum 3]) false =
    Done [[[40]]; [[40]; [20]; [30]; [1]]]%Z.
Proof.
  split; [reflexivity|].
  rewrite (show_segmented_displays_prediction demo_helpers
             (mkSelf (Some (Model 60))) (AsTuple [VStr "val"; VNum 3])).
  - reflexivity.
  - left. reflexivity.
Defined.
